(** * DoseTap: the Xcode project-manifest scripts, embedded and verified

    The scripts under [ios/] edit [DoseTap.xcodeproj/project.pbxproj] as one
    text blob with [str] operations and [re] patterns.  This development
    embeds them shallowly: the manifest is a list of characters, [re]
    patterns are terms of a small regular-expression type run by a
    backtracking matcher with Python's priorities, the file system, the
    console and the random source are threaded through a state-and-error
    monad.

    Text is modelled as code points below 256 ([ascii]); the character
    classes [\s], [\w] and [\d] are Python's restricted to that range. *)

From Stdlib Require Import ZArith List Ascii String Bool Lia DecimalString.
From stdpp Require Import base gmap strings.
Import ListNotations.

Set Default Proof Using "Type".
Local Open Scope nat_scope.

Abbreviation text := (list ascii).

(** String literals of the scripts, as texts. *)
Definition T (s : string) : text := list_ascii_of_string s.

Definition TAB : ascii := ascii_of_nat 9.
Definition NL : ascii := ascii_of_nat 10.
Definition CR : ascii := ascii_of_nat 13.
Definition DQ : ascii := ascii_of_nat 34.

Definition code (c : ascii) : nat := nat_of_ascii c.

Definition ascii_eqb (a b : ascii) : bool := Ascii.eqb a b.

Fixpoint text_eqb (a b : text) : bool :=
  match a, b with
  | [], [] => true
  | x :: a', y :: b' => ascii_eqb x y && text_eqb a' b'
  | _, _ => false
  end.

(** ** Python's [str] operations *)
Module Py.

(** [str.isspace] on one code point below 256. *)
Definition isspace (c : ascii) : bool :=
  let n := code c in
  ((9 <=? n) && (n <=? 13)) || ((28 <=? n) && (n <=? 32))
  || (n =? 133) || (n =? 160).

(** [hay.startswith(needle)], returning the rest of [hay]. *)
Fixpoint strip_prefix (needle hay : text) : option text :=
  match needle with
  | [] => Some hay
  | c :: needle' =>
      match hay with
      | [] => None
      | d :: hay' => if ascii_eqb c d then strip_prefix needle' hay' else None
      end
  end.

Definition startswith (needle hay : text) : bool :=
  match strip_prefix needle hay with Some _ => true | None => false end.

(** [hay.find(needle)]: the lowest index of [needle] in [hay], or -1. *)
Fixpoint find_from (needle hay : text) (i : nat) : Z :=
  if startswith needle hay then Z.of_nat i
  else match hay with
       | [] => (-1)%Z
       | _ :: hay' => find_from needle hay' (S i)
       end.

Definition find (hay needle : text) : Z := find_from needle hay 0.

(** [needle in hay]. *)
Definition contains (needle hay : text) : bool := (0 <=? find hay needle)%Z.

(** Slices with one bound: [s[:i]] and [s[i:]]; a negative bound counts
    from the end, and bounds are clamped to the text. *)
Definition norm_index (s : text) (i : Z) : nat :=
  if (0 <=? i)%Z then Z.to_nat i else length s - Z.to_nat (- i).

Definition slice_to (s : text) (i : Z) : text := firstn (norm_index s i) s.
Definition slice_from (s : text) (i : Z) : text := skipn (norm_index s i) s.

(** [s[a:b]] for non-negative bounds. *)
Definition slice (s : text) (a b : nat) : text := firstn (b - a) (skipn a s).

(** [s.replace(old, new)] for a non-empty [old]: occurrences are replaced
    left to right without overlap.  [skip] counts the characters of the
    occurrence being replaced that are still to be dropped. *)
Fixpoint replace_go (old new s : text) (skip : nat) : text :=
  match s with
  | [] => []
  | c :: s' =>
      match skip with
      | S n => replace_go old new s' n
      | 0 => if startswith old s
             then new ++ replace_go old new s' (length old - 1)
             else c :: replace_go old new s' 0
      end
  end.

Definition replace (s old new : text) : text := replace_go old new s 0.

(** [s.lstrip()], [s.rstrip()], [s.strip()]. *)
Fixpoint lstrip (s : text) : text :=
  match s with
  | c :: s' => if isspace c then lstrip s' else s
  | [] => []
  end.

Fixpoint rstrip (s : text) : text :=
  match s with
  | [] => []
  | c :: s' =>
      match rstrip s' with
      | [] => if isspace c then [] else [c]
      | r => c :: r
      end
  end.

Definition strip (s : text) : text := rstrip (lstrip s).

(** [sep.join(parts)]. *)
Fixpoint join (sep : text) (parts : list text) : text :=
  match parts with
  | [] => []
  | [p] => p
  | p :: rest => p ++ sep ++ join sep rest
  end.

(** [s.split()[0]]: the first whitespace-delimited word; [None] stands for
    the [IndexError] raised when there is none. *)
Fixpoint take_word (s : text) : text :=
  match s with
  | c :: s' => if isspace c then [] else c :: take_word s'
  | [] => []
  end.

Definition split_first (s : text) : option text :=
  match lstrip s with
  | [] => None
  | w => Some (take_word w)
  end.

(** [c.upper()] on the characters a hexadecimal rendering can hold. *)
Definition upper_char (c : ascii) : ascii :=
  let n := code c in
  if (97 <=? n) && (n <=? 122) then ascii_of_nat (n - 32) else c.

Definition upper (s : text) : text := map upper_char s.

End Py.

(** ** Python's [re] on the patterns the scripts use

    A pattern is kept as the text the script passes to [re] and compiled
    by [compile].  The patterns of the scripts are sequences of literals,
    character classes, repeated characters or classes (greedy [*], [+],
    [?], [{n}] and lazy [*?]) and capturing groups that are never nested
    and never repeated; [compile] accepts exactly these and answers [None]
    on anything else.  A group's span is recorded when the group closes,
    which for such patterns is Python's numbering. *)
Module Re.

(** *** Character classes *)

Inductive citem : Type :=
| COne (c : ascii)          (* one character *)
| CRange (a b : ascii)      (* [a-b] *)
| CSpace                    (* [\s] *)
| CDigit                    (* [\d] *)
| CWord.                    (* [\w] *)

Record cset : Type := mkSet { negated : bool; items : list citem }.

Definition is_digit (c : ascii) : bool := (48 <=? code c) && (code c <=? 57).

(** [\w] below code point 256: [str.isalnum] or the underscore. *)
Definition is_word (c : ascii) : bool :=
  let n := code c in
  is_digit c || ((65 <=? n) && (n <=? 90)) || ((97 <=? n) && (n <=? 122))
  || (n =? 95) || (n =? 170) || (n =? 178) || (n =? 179) || (n =? 181)
  || (n =? 185) || (n =? 186) || (n =? 188) || (n =? 189) || (n =? 190)
  || ((192 <=? n) && (n <=? 214)) || ((216 <=? n) && (n <=? 246))
  || ((248 <=? n) && (n <=? 255)).

Definition item_mem (it : citem) (c : ascii) : bool :=
  match it with
  | COne a => ascii_eqb c a
  | CRange a b => (code a <=? code c) && (code c <=? code b)
  | CSpace => Py.isspace c
  | CDigit => is_digit c
  | CWord => is_word c
  end.

Definition mem (cs : cset) (c : ascii) : bool :=
  xorb (negated cs) (existsb (fun it => item_mem it c) (items cs)).

Definition single (c : ascii) : cset := mkSet false [COne c].
Definition any : cset := mkSet true [].            (* [.] with re.DOTALL *)
Definition dot : cset := mkSet true [COne NL].     (* [.] *)

(** *** Patterns *)

Inductive re : Type :=
| Lit (l : text)            (* literal characters *)
| Cls (p : cset)            (* one character of a class *)
| Star (p : cset)           (* [p*], greedy *)
| StarLazy (p : cset)       (* [p*?] *)
| Opt (p : cset)            (* [p?], greedy *)
| Rep (n : nat) (p : cset)  (* [p{n}] *)
| Grp (r : re)              (* [( r )] *)
| Seq (r1 r2 : re).

(** [p+]. *)
Definition Plus (p : cset) : re := Seq (Cls p) (Star p).

(** Sequencing that joins neighbouring literal characters. *)
Definition as_lit (r : re) : option text :=
  match r with
  | Lit l => Some l
  | Cls (mkSet false [COne c]) => Some [c]
  | _ => None
  end.

Definition cons_re (r acc : re) : re :=
  match as_lit r with
  | Some l =>
      match acc with
      | Lit l' => Lit (l ++ l')
      | Seq (Lit l') t => Seq (Lit (l ++ l')) t
      | _ => Seq (Lit l) acc
      end
  | None =>
      match acc with
      | Lit [] => r
      | _ => Seq r acc
      end
  end.

Definition seq (rs : list re) : re := fold_right cons_re (Lit []) rs.

(** *** From pattern text to pattern *)

Inductive token : Type :=
| TSet (p : cset)           (* a character, an escape or a class *)
| TOpen | TClose            (* parentheses *)
| TStar | TPlus | TQuest    (* [*] [+] [?] *)
| TCount (n : nat).         (* [{n}] *)

Inductive mode : Type :=
| Normal
| Escape                                      (* after a backslash *)
| ClassStart                                  (* after [[] *)
| ClassBody (neg : bool) (acc : list citem) (dash : bool)
| ClassEscape (neg : bool) (acc : list citem) (dash : bool)
| Count (n : nat).                            (* inside [{n}] *)

Definition is_alnum (c : ascii) : bool :=
  let n := code c in
  is_digit c || ((65 <=? n) && (n <=? 90)) || ((97 <=? n) && (n <=? 122)).

(** What a backslash followed by [c] stands for. *)
Definition escape_item (c : ascii) : option citem :=
  if ascii_eqb c "s" then Some CSpace
  else if ascii_eqb c "d" then Some CDigit
  else if ascii_eqb c "w" then Some CWord
  else if ascii_eqb c "t" then Some (COne TAB)
  else if ascii_eqb c "n" then Some (COne NL)
  else if ascii_eqb c "r" then Some (COne CR)
  else if is_alnum c then None
  else Some (COne c).

(** Add an item to a class under construction ([acc] is in reverse); after
    a dash the item closes a range. *)
Definition add_item (acc : list citem) (dash : bool) (it : citem)
    : option (list citem) :=
  if dash then
    match it, acc with
    | COne b, COne a :: acc' => Some (CRange a b :: acc')
    | _, _ => None
    end
  else Some (it :: acc).

Fixpoint tokens (dotall : bool) (md : mode) (s : text) : option (list token) :=
  match s with
  | [] => match md with Normal => Some [] | _ => None end
  | c :: s' =>
      match md with
      | Normal =>
          if ascii_eqb c "\" then tokens dotall Escape s'
          else if ascii_eqb c "[" then tokens dotall ClassStart s'
          else if ascii_eqb c "{" then tokens dotall (Count 0) s'
          else if ascii_eqb c "|" || ascii_eqb c "^" || ascii_eqb c "$"
                  || ascii_eqb c "}" || ascii_eqb c "]" then None
          else
            let t := if ascii_eqb c "(" then TOpen
                     else if ascii_eqb c ")" then TClose
                     else if ascii_eqb c "*" then TStar
                     else if ascii_eqb c "+" then TPlus
                     else if ascii_eqb c "?" then TQuest
                     else if ascii_eqb c "." then TSet (if dotall then any else dot)
                     else TSet (single c) in
            option_map (cons t) (tokens dotall Normal s')
      | Escape =>
          match escape_item c with
          | Some it => option_map (cons (TSet (mkSet false [it])))
                                  (tokens dotall Normal s')
          | None => None
          end
      | ClassStart =>
          if ascii_eqb c "^" then tokens dotall (ClassBody true [] false) s'
          else if ascii_eqb c "\" then tokens dotall (ClassEscape false [] false) s'
          else if ascii_eqb c "]" then None
          else tokens dotall (ClassBody false [COne c] false) s'
      | ClassBody neg acc dash =>
          if ascii_eqb c "]" then
            let acc := if dash then COne "-" :: acc else acc in
            option_map (cons (TSet (mkSet neg (rev acc))))
                       (tokens dotall Normal s')
          else if ascii_eqb c "\" then tokens dotall (ClassEscape neg acc dash) s'
          else if ascii_eqb c "-" && negb dash
                  && match acc with [] => false | _ => true end
               then tokens dotall (ClassBody neg acc true) s'
          else
            match add_item acc dash (COne c) with
            | Some acc' => tokens dotall (ClassBody neg acc' false) s'
            | None => None
            end
      | ClassEscape neg acc dash =>
          match escape_item c with
          | Some it =>
              match add_item acc dash it with
              | Some acc' => tokens dotall (ClassBody neg acc' false) s'
              | None => None
              end
          | None => None
          end
      | Count n =>
          if is_digit c then tokens dotall (Count (10 * n + (code c - 48))) s'
          else if ascii_eqb c "}" then
            option_map (cons (TCount n)) (tokens dotall Normal s')
          else None
      end
  end.

(** The tokens as a pattern.  [outer] holds the items read so far outside
    groups and [inner] those of the open group, both in reverse. *)
Definition push (r : re) (outer : list re) (inner : option (list re))
    : list re * option (list re) :=
  match inner with
  | Some g => (outer, Some (r :: g))
  | None => (r :: outer, None)
  end.

Fixpoint build (ts : list token) (outer : list re) (inner : option (list re))
    : option re :=
  match ts with
  | [] => match inner with
          | None => Some (seq (rev outer))
          | Some _ => None
          end
  | TSet p :: TStar :: TQuest :: ts' =>
      let '(o, i) := push (StarLazy p) outer inner in build ts' o i
  | TSet p :: TStar :: ts' =>
      let '(o, i) := push (Star p) outer inner in build ts' o i
  | TSet p :: TPlus :: ts' =>
      let '(o, i) := push (Plus p) outer inner in build ts' o i
  | TSet p :: TQuest :: ts' =>
      let '(o, i) := push (Opt p) outer inner in build ts' o i
  | TSet p :: TCount n :: ts' =>
      let '(o, i) := push (Rep n p) outer inner in build ts' o i
  | TSet p :: ts' =>
      let '(o, i) := push (Cls p) outer inner in build ts' o i
  | TOpen :: ts' =>
      match inner with
      | None => build ts' outer (Some [])
      | Some _ => None
      end
  | TClose :: ts' =>
      match inner with
      | Some g => build ts' (Grp (seq (rev g)) :: outer) None
      | None => None
      end
  | (TStar | TPlus | TQuest | TCount _) :: _ => None
  end.

(** [re.compile(pattern)], and with [re.DOTALL]. *)
Definition compile_flags (dotall : bool) (pattern : text) : option re :=
  match tokens dotall Normal pattern with
  | Some ts => build ts [] None
  | None => None
  end.

Definition compile (pattern : text) : option re := compile_flags false pattern.
Definition compile_dotall (pattern : text) : option re := compile_flags true pattern.

(** [re.escape(s)]: a backslash before every character that is special in
    a pattern. *)
Definition is_special (c : ascii) : bool :=
  existsb (ascii_eqb c)
    (T "()[]{}?*+-|^$\.&~# " ++ map ascii_of_nat [9; 10; 13; 11; 12]).

Fixpoint escape (s : text) : text :=
  match s with
  | [] => []
  | c :: s' => if is_special c then "\"%char :: c :: escape s' else c :: escape s'
  end.

(** *** Matching *)

(** A span [(a, b)] stands for the characters from index [a] up to [b]. *)
Definition span : Type := nat * nat.

Section Matcher.
Context {A : Type}.

(** Greedy [p*]: take as many characters as possible, give back one at a
    time. *)
Fixpoint star_greedy (p : cset) (k : text -> nat -> option A)
    (s : text) (i : nat) : option A :=
  match s with
  | c :: s' =>
      if mem p c then
        match star_greedy p k s' (S i) with
        | Some v => Some v
        | None => k s i
        end
      else k s i
  | [] => k s i
  end.

(** Lazy [p*?]: take as few characters as possible. *)
Fixpoint star_lazy (p : cset) (k : text -> nat -> option A)
    (s : text) (i : nat) : option A :=
  match k s i with
  | Some v => Some v
  | None =>
      match s with
      | c :: s' => if mem p c then star_lazy p k s' (S i) else None
      | [] => None
      end
  end.

(** [p{n}]: exactly [n] characters of the class. *)
Fixpoint rep (p : cset) (n : nat) (k : text -> nat -> option A)
    (s : text) (i : nat) : option A :=
  match n with
  | 0 => k s i
  | S n' =>
      match s with
      | c :: s' => if mem p c then rep p n' k s' (S i) else None
      | [] => None
      end
  end.

(** [run r s i caps k]: match [r] at the head of [s], which starts at
    index [i] of the subject; [caps] holds the spans of the groups closed
    so far and [k] is what follows the pattern.  The first success in
    Python's order of alternatives is returned. *)
Fixpoint run (r : re) (s : text) (i : nat) (caps : list span)
    (k : text -> nat -> list span -> option A) : option A :=
  match r with
  | Lit l =>
      match Py.strip_prefix l s with
      | Some s' => k s' (i + length l) caps
      | None => None
      end
  | Cls p =>
      match s with
      | c :: s' => if mem p c then k s' (S i) caps else None
      | [] => None
      end
  | Star p => star_greedy p (fun s' j => k s' j caps) s i
  | StarLazy p => star_lazy p (fun s' j => k s' j caps) s i
  | Opt p =>
      match s with
      | c :: s' =>
          if mem p c then
            match k s' (S i) caps with
            | Some v => Some v
            | None => k s i caps
            end
          else k s i caps
      | [] => k s i caps
      end
  | Rep n p => rep p n (fun s' j => k s' j caps) s i
  | Grp r' => run r' s i caps (fun s' j caps' => k s' j (caps' ++ [(i, j)]))
  | Seq r1 r2 => run r1 s i caps (fun s' j caps' => run r2 s' j caps' k)
  end.
End Matcher.

(** A match object: [start()], [end()] and the spans of groups 1, 2, ... *)
Record Match : Type := mkMatch {
  m_start : nat;
  m_end : nat;
  m_spans : list span
}.

(** [pattern.match(subject, i)], the subject being [s] from index [i] on. *)
Definition match_at (r : re) (s : text) (i : nat) : option Match :=
  run r s i [] (fun _ j caps => Some (mkMatch i j caps)).

(** [re.search]: the match at the lowest index that has one. *)
Fixpoint search_from (r : re) (s : text) (i : nat) : option Match :=
  match match_at r s i with
  | Some mt => Some mt
  | None =>
      match s with
      | [] => None
      | _ :: s' => search_from r s' (S i)
      end
  end.

Definition search (r : re) (content : text) : option Match :=
  search_from r content 0.

(** [m.start(n)], [m.end(n)], [m.group(n)]; group 0 is the whole match. *)
Definition span_of (mt : Match) (n : nat) : span :=
  match n with
  | 0 => (m_start mt, m_end mt)
  | S n' => nth n' (m_spans mt) (0, 0)
  end.

Definition start (mt : Match) (n : nat) : nat := fst (span_of mt n).
Definition end_ (mt : Match) (n : nat) : nat := snd (span_of mt n).
Definition group (content : text) (mt : Match) (n : nat) : text :=
  Py.slice content (start mt n) (end_ mt n).

(** The scan shared by [re.sub] and [re.findall]: matches are taken left to
    right without overlap.  [emit mt] is what a match contributes and
    [keep c] what a character outside every match contributes; [skip]
    counts the characters of the last match still to be passed over.  (No
    pattern of the scripts matches the empty text; on an empty match the
    scan emits and moves on by one character.) *)
Section Scan.
Context {B : Type}.
Variable r : re.
Variable emit : Match -> list B.
Variable keep : ascii -> list B.

Fixpoint scan (s : text) (i : nat) (skip : nat) : list B :=
  match s with
  | [] =>
      match skip with
      | 0 => match match_at r s i with Some mt => emit mt | None => [] end
      | S _ => []
      end
  | c :: s' =>
      match skip with
      | S n => scan s' (S i) n
      | 0 =>
          match match_at r s i with
          | Some mt =>
              if m_end mt =? i
              then emit mt ++ keep c ++ scan s' (S i) 0
              else emit mt ++ scan s' (S i) (m_end mt - i - 1)
          | None => keep c ++ scan s' (S i) 0
          end
      end
  end.
End Scan.

(** [re.sub(pattern, repl, content)] with a callable [repl]. *)
Definition sub (r : re) (repl : Match -> text) (content : text) : text :=
  scan r repl (fun c => [c]) content 0 0.

(** [re.sub(pattern, '', content)]. *)
Definition remove (r : re) (content : text) : text :=
  sub r (fun _ => []) content.

(** [re.subn(pattern, '', content)]: the new text and the number of
    replacements. *)
Definition count (r : re) (content : text) : nat :=
  length (scan r (fun mt => [mt]) (fun _ => []) content 0 0).

Definition subn_remove (r : re) (content : text) : text * nat :=
  (remove r content, count r content).

(** [re.findall] for a pattern with one group and with two groups. *)
Definition findall1 (r : re) (content : text) : list text :=
  scan r (fun mt => [group content mt 1]) (fun _ => []) content 0 0.

Definition findall2 (r : re) (content : text) : list (text * text) :=
  scan r (fun mt => [(group content mt 1, group content mt 2)])
       (fun _ => []) content 0 0.

End Re.

(** A pattern written in a script: [pat "..."] is the compiled pattern, and
    the definition is rejected when [compile] does not accept the text. *)
Notation "'pat' s" :=
  (ltac:(let r := eval vm_compute in (Re.compile (T s)) in
         match r with Some ?x => exact x end))
  (at level 10, s at level 0, only parsing).
Notation "'pat_dotall' s" :=
  (ltac:(let r := eval vm_compute in (Re.compile_dotall (T s)) in
         match r with Some ?x => exact x end))
  (at level 10, s at level 0, only parsing).

(** ** The world the scripts run in: files, console, random source *)
Module Sys.

Inductive exn : Type :=
| FileNotFoundError (path : string)
| NameError (var : string)
| IndexError
| ReError (pattern : text).

Inductive result (A : Type) : Type :=
| Ok (a : A)
| Raise (e : exn).
Arguments Ok {A} a.
Arguments Raise {A} e.

(** [fs] maps a path to the file's text; [stdout] holds the printed lines,
    oldest first, as the bytes written (UTF-8); [writes] lists the paths opened for writing, oldest
    first; [urandom n] is the [n]-th 16-byte draw of [os.urandom], read as
    a big-endian integer, and [drawn] counts the draws made. *)
Record World : Type := mkWorld {
  fs : gmap string text;
  stdout : list text;
  writes : list string;
  urandom : nat -> Z;
  drawn : nat
}.

Definition M (A : Type) : Type := World -> result A * World.

Definition ret {A} (a : A) : M A := fun w => (Ok a, w).
Definition raise {A} (e : exn) : M A := fun w => (Raise e, w).
Definition bind {A B} (m : M A) (f : A -> M B) : M B :=
  fun w => match m w with
           | (Ok a, w') => f a w'
           | (Raise e, w') => (Raise e, w')
           end.

(** [try: m  except Exception as e: h e]. *)
Definition try_except {A} (m : M A) (h : exn -> M A) : M A :=
  fun w => match m w with
           | (Ok a, w') => (Ok a, w')
           | (Raise e, w') => h e w'
           end.

(** [with open(path, 'r') as f: f.read()]. *)
Definition read_file (path : string) : M text :=
  fun w => match fs w !! path with
           | Some content => (Ok content, w)
           | None => (Raise (FileNotFoundError path), w)
           end.

(** [with open(path, 'w') as f: f.write(content)]. *)
Definition write_file (path : string) (content : text) : M unit :=
  fun w => (Ok tt, mkWorld (<[path := content]> (fs w)) (stdout w)
                           (writes w ++ [path]) (urandom w) (drawn w)).

(** [shutil.copy(src, dst)]. *)
Definition copy_file (src dst : string) : M unit :=
  fun w => match fs w !! src with
           | Some content =>
               (Ok tt, mkWorld (<[dst := content]> (fs w)) (stdout w)
                               (writes w ++ [dst]) (urandom w) (drawn w))
           | None => (Raise (FileNotFoundError src), w)
           end.

(** [os.path.exists(path)]. *)
Definition path_exists (path : string) : M bool :=
  fun w => (Ok (bool_decide (is_Some (fs w !! path))), w).

(** [print(line)]. *)
Definition print (line : text) : M unit :=
  fun w => (Ok tt, mkWorld (fs w) (stdout w ++ [line]) (writes w)
                           (urandom w) (drawn w)).

(** [os.urandom(16)], as an integer. *)
Definition os_urandom16 : M Z :=
  fun w => (Ok (urandom w (drawn w) mod 2 ^ 128)%Z,
            mkWorld (fs w) (stdout w) (writes w) (urandom w) (S (drawn w))).

(** A [for] loop that carries the variables it assigns in [acc]. *)
Fixpoint for_each {X S} (xs : list X) (body : X -> S -> M S) (acc : S) : M S :=
  match xs with
  | [] => ret acc
  | x :: xs' => bind (body x acc) (for_each xs' body)
  end.

(** [str(n)] for a natural number. *)
Definition str_nat (n : nat) : text :=
  list_ascii_of_string (NilEmpty.string_of_uint (Nat.to_uint n)).

(** [str(e)] for a caught exception. *)
Definition str_exn (e : exn) : text :=
  match e with
  | FileNotFoundError path =>
      T "[Errno 2] No such file or directory: '" ++ T path ++ T "'"
  | NameError var =>
      T "cannot access free variable '" ++ T var
      ++ T "' where it is not associated with a value in enclosing scope"
  | IndexError => T "list index out of range"
  | ReError pattern => T "bad pattern " ++ pattern
  end.

(** [re.compile] of a pattern built at run time; a pattern outside the
    supported fragment raises. *)
Definition re_compile (dotall : bool) (pattern : text) : M Re.re :=
  match Re.compile_flags dotall pattern with
  | Some r => ret r
  | None => raise (ReError pattern)
  end.

(** [re.sub(pattern, '', content)] and [re.subn(pattern, '', content)] with
    such a pattern. *)
Definition re_remove (pattern content : text) : M text :=
  bind (re_compile false pattern) (fun r => ret (Re.remove r content)).

Definition re_subn_remove (pattern content : text) : M (text * nat) :=
  bind (re_compile false pattern) (fun r => ret (Re.subn_remove r content)).

End Sys.

Declare Scope py_scope.
Delimit Scope py_scope with py.
Notation "x <- m ;; k" := (Sys.bind m (fun x => k))
  (at level 100, m at next level, right associativity) : py_scope.
Notation "m ;;; k" := (Sys.bind m (fun _ => k))
  (at level 100, right associativity) : py_scope.

(** ** Identifiers: [uuid.uuid4] and the scripts' [generate_uuid] *)
Module Uuid.
Local Open Scope Z_scope.

(** Python's [uuid.UUID(bytes=..., version=4)]: the variant bits are set to
    RFC 4122 and the version nibble to 4. *)
Definition set_version4 (int : Z) : Z :=
  let int := Z.land int (Z.lnot (Z.shiftl 0xc000 48)) in
  let int := Z.lor int (Z.shiftl 0x8000 48) in
  let int := Z.land int (Z.lnot (Z.shiftl 0xf000 64)) in
  Z.lor int (Z.shiftl 4 76).

(** [uuid.uuid4()], as the [int] of the new [UUID]. *)
Definition uuid4 : Sys.M Z :=
  (r <- Sys.os_urandom16 ;; Sys.ret (set_version4 r))%py.

Definition hexdigit (d : Z) : ascii :=
  if d <? 10 then ascii_of_nat (48 + Z.to_nat d)
  else ascii_of_nat (87 + Z.to_nat d).

(** ['%0nx' % v]: the [n] low hexadecimal digits of [v], lower case. *)
Fixpoint hex_digits (n : nat) (v : Z) : text :=
  match n with
  | O => []
  | S n' => hex_digits n' (v / 16) ++ [hexdigit (v mod 16)]
  end.

(** [UUID.hex]. *)
Definition hex (int : Z) : text := hex_digits 32 int.

(** [str(UUID)]: the hexadecimal digits in groups of 8-4-4-4-12. *)
Definition str (int : Z) : text :=
  let h := hex int in
  Py.slice h 0 8 ++ T "-" ++ Py.slice h 8 12 ++ T "-" ++ Py.slice h 12 16
  ++ T "-" ++ Py.slice h 16 20 ++ T "-" ++ skipn 20 h.

(** [str(uuid.uuid4()).replace('-', '').upper()[:24]], the form of
    add_swift_files.py, rebuild_project.py and most other scripts. *)
Definition generate_uuid : Sys.M text :=
  (u <- uuid4 ;;
   Sys.ret (Py.slice_to (Py.upper (Py.replace (str u) (T "-") [])) 24))%py.

(** [uuid.uuid4().hex.upper()[:24]], the form of add_missing_files.py. *)
Definition generate_uuid_hex : Sys.M text :=
  (u <- uuid4 ;; Sys.ret (Py.slice_to (Py.upper (hex u)) 24))%py.

End Uuid.

(** ** dedupe_sources.py *)
Module DedupeSources.
Import Re.
Local Open Scope py_scope.

Definition PROJECT_PATH : string := "DoseTap.xcodeproj/project.pbxproj".

Definition read_project : Sys.M text := Sys.read_file PROJECT_PATH.
Definition write_project (content : text) : Sys.M unit :=
  Sys.write_file PROJECT_PATH content.

(** The pattern of the Sources build phase (used with [re.DOTALL]). *)
Definition sources_re : re :=
  pat_dotall "(/\* Sources \*/ = \{[^}]*isa = PBXSourcesBuildPhase;[^}]*files = \()([^)]+)(\);)".

(** The pattern of one entry of the files list. *)
Definition entry_re : re :=
  pat "[\t ]*([A-F0-9]{24}) /\* ([^*]+) \*/,?".

(** [name.replace(' in Sources', '').strip()] *)
Definition filename_of (name : text) : text :=
  Py.strip (Py.replace name (T " in Sources") []).

(** The variables the loop assigns. *)
Record loop_vars : Type := mkVars {
  seen_files : gset text;
  unique_entries : list (text * text);
  duplicates_removed : nat
}.

(** The body of [for uuid, name in file_entries]. *)
Definition loop_body (entry : text * text) (v : loop_vars) : Sys.M loop_vars :=
  let '(uuid, name) := entry in
  let filename := filename_of name in
  if bool_decide (filename ∉ seen_files v) then
    Sys.ret (mkVars ({[filename]} ∪ seen_files v)
                    (unique_entries v ++ [(uuid, name)])
                    (duplicates_removed v))
  else
    Sys.print (T "  Removing duplicate: " ++ filename) ;;;
    Sys.ret (mkVars (seen_files v) (unique_entries v)
                    (S (duplicates_removed v))).

(** One line of the rebuilt list: four tabs, the identifier, the name as a
    comment, a comma, a newline. *)
Definition entry_line (entry : text * text) : text :=
  [TAB; TAB; TAB; TAB] ++ fst entry ++ T " /* " ++ snd entry ++ T " */," ++ [NL].

(** [new_files]: a newline, the lines of the entries, three tabs. *)
Definition render_files (entries : list (text * text)) : text :=
  [NL] ++ concat (map entry_line entries) ++ [TAB; TAB; TAB].

Definition deduplicate_sources : Sys.M unit :=
  content <- read_project ;;
  match search sources_re content with
  | None => Sys.print (T "Could not find Sources build phase")
  | Some sources_match =>
      let prefix := group content sources_match 1 in
      let files_section := group content sources_match 2 in
      let suffix := group content sources_match 3 in
      let file_entries := findall2 entry_re files_section in
      Sys.print (T "Found " ++ Sys.str_nat (length file_entries)
                 ++ T " entries in Sources build phase") ;;;
      v <- Sys.for_each file_entries loop_body (mkVars ∅ [] 0) ;;
      Sys.print ([NL] ++ T "Removed " ++ Sys.str_nat (duplicates_removed v)
                 ++ T " duplicate entries") ;;;
      Sys.print (T "Keeping " ++ Sys.str_nat (length (unique_entries v))
                 ++ T " unique entries") ;;;
      let new_files := render_files (unique_entries v) in
      let new_sources := prefix ++ new_files ++ suffix in
      let content := firstn (start sources_match 0) content ++ new_sources
                     ++ skipn (end_ sources_match 0) content in
      write_project content ;;;
      Sys.print ([NL] ++ T "✅ Sources build phase deduplicated")
  end.

End DedupeSources.

(** The records and list lines the add scripts write for a file, as their
    f-strings spell them. *)
Module Entries.

(** A [PBXBuildFile] record: two tabs, the identifier, the name as a
    comment, the reference to the file. *)
Definition build_entry (build_uuid file_uuid filename : text) : text :=
  [TAB; TAB] ++ build_uuid ++ T " /* " ++ filename
  ++ T " in Sources */ = {isa = PBXBuildFile; fileRef = " ++ file_uuid
  ++ T " /* " ++ filename ++ T " */; };".

(** A [PBXFileReference] record; [path] is written as given, quoted or
    not. *)
Definition file_entry (file_uuid filename path : text) : text :=
  [TAB; TAB] ++ file_uuid ++ T " /* " ++ filename
  ++ T " */ = {isa = PBXFileReference; lastKnownFileType = sourcecode.swift; path = "
  ++ path ++ T "; sourceTree = " ++ [DQ] ++ T "<group>" ++ [DQ] ++ T "; };".

Definition quoted (s : text) : text := [DQ] ++ s ++ [DQ].

(** A line of a group's children: four tabs, identifier, name, comma. *)
Definition children_entry (file_uuid filename : text) : text :=
  [TAB; TAB; TAB; TAB] ++ file_uuid ++ T " /* " ++ filename ++ T " */,".

(** A line of a build phase's files. *)
Definition source_entry (build_uuid filename : text) : text :=
  [TAB; TAB; TAB; TAB] ++ build_uuid ++ T " /* " ++ filename
  ++ T " in Sources */,".

Definition END_BUILD_FILE : text := T "/* End PBXBuildFile section */".
Definition END_FILE_REF : text := T "/* End PBXFileReference section */".

(** [content[:i] + inserted + content[i:]]. *)
Definition insert_at (content : text) (i : Z) (inserted : text) : text :=
  Py.slice_to content i ++ inserted ++ Py.slice_from content i.

End Entries.

(** ** add_swift_files.py *)
Module AddSwiftFiles.
Import Re Entries.
Local Open Scope py_scope.

Definition PROJECT_PATH : string := "DoseTap.xcodeproj/project.pbxproj".

Definition missing_files : list text :=
  map T [ "EventStore.swift"; "EventStoreAdapter.swift"; "UndoManager.swift";
          "TimeEngine.swift"; "SnoozeController.swift"; "OfflineQueue.swift";
          "AccessibilitySupport.swift"; "DashboardView.swift";
          "DoseTapCore.swift"; "UndoSnackbar.swift"; "UndoStateManager.swift";
          "Views/UndoSnackbarView.swift"; "Views/MedicationSettingsView.swift";
          "Views/MedicationPickerView.swift"; "Views/MorningCheckInView.swift";
          "Views/PreSleepLogView.swift" ]%string.

Definition generate_uuid : Sys.M text := Uuid.generate_uuid.
Definition read_project_file : Sys.M text := Sys.read_file PROJECT_PATH.
Definition write_project_file (content : text) : Sys.M unit :=
  Sys.write_file PROJECT_PATH content.

Definition children_re : re :=
  pat_dotall "(children = \(\s*)(.*?)(\s*\);)".

(** The pattern begins with an unescaped [/*]: a repeated slash. *)
Definition sources_re : re :=
  pat_dotall "(/* Sources \*/ = \{\s*isa = PBXSourcesBuildPhase;\s*buildActionMask = [^;]*;\s*files = \(\s*)(.*?)(\s*\);)".

(** The three lists the first loop fills. *)
Record new_entries : Type := mkNew {
  new_build_entries : list text;
  new_file_entries : list text;
  new_children_entries : list text
}.

Definition entries_body (filename : text) (acc : new_entries) : Sys.M new_entries :=
  u1 <- generate_uuid ;;
  let build_uuid := T "AAAAAAAA" ++ Py.slice_to u1 16 in
  u2 <- generate_uuid ;;
  let file_uuid := T "AAAAAAAA" ++ Py.slice_to u2 16 in
  Sys.ret (mkNew
    (new_build_entries acc ++ [build_entry build_uuid file_uuid filename])
    (new_file_entries acc ++ [file_entry file_uuid filename filename])
    (new_children_entries acc ++ [children_entry file_uuid filename])).

(** [for i, filename in enumerate(missing_files)], reading
    [new_build_entries[i].split()[0]]. *)
Fixpoint source_entries (files entries : list text) : Sys.M (list text) :=
  match files with
  | [] => Sys.ret []
  | filename :: files' =>
      match entries with
      | [] => Sys.raise Sys.IndexError
      | e :: entries' =>
          match Py.split_first e with
          | None => Sys.raise Sys.IndexError
          | Some build_uuid =>
              rest <- source_entries files' entries' ;;
              Sys.ret (source_entry build_uuid filename :: rest)
          end
      end
  end.

Definition add_files_to_project : Sys.M text :=
  content <- read_project_file ;;
  let build_file_end := Py.find content END_BUILD_FILE in
  acc <- Sys.for_each missing_files entries_body (mkNew [] [] []) ;;
  let build_insertion_point := build_file_end in
  let build_entries_text :=
    [NL] ++ Py.join [NL] (new_build_entries acc) ++ [NL] in
  let content := insert_at content build_insertion_point build_entries_text in
  let file_ref_end := Py.find content END_FILE_REF in
  let file_insertion_point := file_ref_end in
  let file_entries_text :=
    [NL] ++ Py.join [NL] (new_file_entries acc) ++ [NL] in
  let content := insert_at content file_insertion_point file_entries_text in
  let content :=
    match search children_re content with
    | Some children_match =>
        let children_start := start children_match 2 in
        let children_end := end_ children_match 2 in
        let existing_children := group content children_match 2 in
        let new_children_text :=
          existing_children ++ [NL] ++ Py.join [NL] (new_children_entries acc) in
        firstn children_start content ++ new_children_text
        ++ skipn children_end content
    | None => content
    end in
  match search sources_re content with
  | Some sources_match =>
      let sources_start := start sources_match 2 in
      let sources_end := end_ sources_match 2 in
      let existing_sources := group content sources_match 2 in
      new_source_entries <- source_entries missing_files (new_build_entries acc) ;;
      let new_sources_text :=
        existing_sources ++ [NL] ++ Py.join [NL] new_source_entries in
      Sys.ret (firstn sources_start content ++ new_sources_text
               ++ skipn sources_end content)
  | None => Sys.ret content
  end.

(** The script's [__main__] block. *)
Definition main : Sys.M unit :=
  Sys.try_except
    (Sys.print (T "Adding missing Swift files to Xcode project...") ;;;
     new_content <- add_files_to_project ;;
     write_project_file new_content ;;;
     Sys.print (T "Successfully added files to project.pbxproj") ;;;
     Sys.print (T "Added files: " ++ Py.join (T ", ") missing_files))
    (fun e => Sys.print (T "Error: " ++ Sys.str_exn e)).

End AddSwiftFiles.

(** ** add_missing_files.py *)
Module AddMissingFiles.
Import Re Entries.
Local Open Scope py_scope.

Definition MISSING_FILES : list text :=
  map T [ "UserSettingsManager.swift"; "SettingsView.swift";
          "ErrorHandler.swift"; "EventLogger.swift";
          "ActionableNotifications.swift"; "Health.swift"; "WHOOP.swift";
          "HistoryView.swift"; "ExportView.swift"; "UndoSnackbar.swift";
          "SnoozeController.swift"; "ReminderScheduler.swift";
          "NightAnalyzer.swift"; "UnifiedModels.swift"; "UnifiedStore.swift";
          "EventStoreAdapter.swift"; "EventStoreWithSync.swift";
          "InventoryManagement.swift"; "EnhancedSettings.swift";
          "SetupWizardEnhanced.swift"; "TimeZoneUI.swift";
          "DashboardConfig.swift"; "ErrorDisplayView.swift";
          "Storage_Store.swift"; "SupportBundleExport.swift";
          "Models_Event.swift" ]%string.

Definition generate_uuid : Sys.M text := Uuid.generate_uuid_hex.
Definition read_project_file (path : string) : Sys.M text := Sys.read_file path.
Definition write_project_file (path : string) (content : text) : Sys.M unit :=
  Sys.write_file path content.

Definition existing_re : re := pat "/\* (\w+\.swift) \*/".

Definition get_existing_files (content : text) : gset text :=
  list_to_set (findall1 existing_re content).

Definition group_re : re :=
  pat_dotall "(F01 /\* DoseTap \*/ = \{\s*isa = PBXGroup;\s*children = \()([^)]*?)(\);)".

Definition sources_re : re :=
  pat_dotall "(J01 /\* Sources \*/ = \{\s*isa = PBXSourcesBuildPhase;\s*buildActionMask = \d+;\s*files = \()([^)]*?)(\);)".

(** The four lists the loop fills. *)
Record new_entries : Type := mkNew {
  build_entries : list text;
  file_ref_entries : list text;
  children_entries : list text;
  source_entries : list text
}.

Definition entries_body (filename : text) (acc : new_entries) : Sys.M new_entries :=
  build_uuid <- generate_uuid ;;
  file_uuid <- generate_uuid ;;
  Sys.ret (mkNew
    (build_entries acc ++ [build_entry build_uuid file_uuid filename])
    (file_ref_entries acc ++ [file_entry file_uuid filename filename])
    (children_entries acc ++ [children_entry file_uuid filename])
    (source_entries acc ++ [source_entry build_uuid filename])).

(** Append the lines [entries] to the list captured as group 2. *)
Definition append_to_list (content : text) (mt : Match) (entries : list text) : text :=
  let existing := group content mt 2 in
  let new_list := Py.rstrip existing ++ [NL] ++ Py.join [NL] entries
                  ++ [NL; TAB; TAB; TAB] in
  firstn (start mt 2) content ++ new_list ++ skipn (end_ mt 2) content.

Definition add_files_to_project (content : text) (files_to_add : list text)
    : Sys.M text :=
  acc <- Sys.for_each files_to_add entries_body (mkNew [] [] [] []) ;;
  let build_end := Py.find content END_BUILD_FILE in
  let content :=
    if negb (build_end =? -1)%Z
    then insert_at content build_end (Py.join [NL] (build_entries acc) ++ [NL])
    else content in
  let file_ref_end := Py.find content END_FILE_REF in
  let content :=
    if negb (file_ref_end =? -1)%Z
    then insert_at content file_ref_end (Py.join [NL] (file_ref_entries acc) ++ [NL])
    else content in
  let content :=
    match search group_re content with
    | Some mt => append_to_list content mt (children_entries acc)
    | None => content
    end in
  let content :=
    match search sources_re content with
    | Some mt => append_to_list content mt (source_entries acc)
    | None => content
    end in
  Sys.ret content.

Definition project_path : string := "DoseTap.xcodeproj/project.pbxproj".
Definition backup_path : string := project_path +:+ ".backup".

(** [main()]; the result is the exit status. *)
Definition main : Sys.M Z :=
  present <- Sys.path_exists project_path ;;
  if negb present then
    Sys.print (T "Error: " ++ T project_path
               ++ T " not found. Run from ios/ directory.") ;;;
    Sys.ret 1%Z
  else
    Sys.print (T "Reading project file...") ;;;
    content <- read_project_file project_path ;;
    let existing := get_existing_files content in
    Sys.print (T "Found " ++ Sys.str_nat (size existing)
               ++ T " existing Swift files in project") ;;;
    let files_to_add :=
      filter (fun f => f ∉ existing) MISSING_FILES in
    match files_to_add with
    | [] => Sys.print (T "All files already in project!") ;;; Sys.ret 0%Z
    | _ =>
        Sys.print ([NL] ++ T "Adding " ++ Sys.str_nat (length files_to_add)
                   ++ T " missing files:") ;;;
        Sys.for_each files_to_add
          (fun f _ => Sys.print (T "  + " ++ f)) tt ;;;
        write_project_file backup_path content ;;;
        Sys.print ([NL] ++ T "Backup saved to " ++ T backup_path) ;;;
        new_content <- add_files_to_project content files_to_add ;;
        write_project_file project_path new_content ;;;
        Sys.print ([NL] ++ T "âœ… Successfully added "
                   ++ Sys.str_nat (length files_to_add)
                   ++ T " files to project!") ;;;
        Sys.print ([NL] ++ T "Reopen the project in Xcode to see changes.") ;;;
        Sys.ret 0%Z
    end.

End AddMissingFiles.

(** ** rebuild_project.py: [remove_broken_references] *)
Module RebuildProject.
Import Re Entries.
Local Open Scope py_scope.

Definition broken_files : list text :=
  map T [ "EventStore.swift"; "EventStoreAdapter.swift"; "UndoManager.swift";
          "TimeEngine.swift"; "SnoozeController.swift"; "OfflineQueue.swift";
          "AccessibilitySupport.swift"; "DashboardView.swift";
          "DoseTapCore.swift"; "UndoSnackbar.swift";
          "PreSleepLogView.swift" ]%string.

(** The four patterns built for a file name. *)
Definition build_file_pattern (filename : text) : text :=
  T "\t\t[A-Z0-9]{24} /\* " ++ escape filename
  ++ T " in Sources \*/ = \{[^}]+\};\n".
Definition file_reference_pattern (filename : text) : text :=
  T "\t\t[A-Z0-9]{24} /\* " ++ escape filename ++ T " \*/ = \{[^}]+\};\n".
Definition children_pattern (filename : text) : text :=
  T "\t+[A-Z0-9]{24} /\* " ++ escape filename ++ T " \*/,?\n".
Definition files_pattern (filename : text) : text :=
  T "\t+[A-Z0-9]{24} /\* " ++ escape filename ++ T " in Sources \*/,?\n".

Definition remove_body (filename : text) (content : text) : Sys.M text :=
  content <- Sys.re_remove (build_file_pattern filename) content ;;
  content <- Sys.re_remove (file_reference_pattern filename) content ;;
  content <- Sys.re_remove (children_pattern filename) content ;;
  Sys.re_remove (files_pattern filename) content.

Definition remove_broken_references (content : text) : Sys.M text :=
  Sys.for_each broken_files remove_body content.

Definition existing_re : re :=
  pat "/\* ([A-Za-z0-9_]+\.swift) \*/ = \{isa = PBXFileReference".

Definition get_existing_files (content : text) : gset text :=
  list_to_set (findall1 existing_re content).

End RebuildProject.

(** ** clean_project.py *)
Module CleanProject.
Import Re.
Local Open Scope py_scope.

Definition PROJECT_PATH : string := "DoseTap.xcodeproj/project.pbxproj".

Definition REMOVE_FROM_BUILD : list text :=
  map T [ "SnoozeController.swift"; "NightAnalyzer.swift"; "Models_Event.swift";
          "Health.swift"; "EventLogger.swift"; "ReminderScheduler.swift";
          "EventStoreWithSync.swift"; "SetupWizardEnhanced.swift";
          "ActionableNotifications.swift"; "ErrorHandler.swift";
          "ErrorDisplayView.swift"; "ExportView.swift"; "DashboardConfig.swift";
          "UnifiedModels.swift"; "InventoryManagement.swift";
          "HistoryView.swift"; "UnifiedStore.swift"; "UndoSnackbar.swift";
          "TimeZoneUI.swift"; "Storage_Store.swift"; "EventStoreAdapter.swift";
          "SupportBundleExport.swift"; "FetchHelpers.swift";
          "PersistentStore.swift"; "CSVExporter.swift"; "JSONMigrator.swift";
          "EventStoreCoreData.swift"; "ContentView_Enhanced.swift";
          "ContentView_Clean.swift"; "WHOOP.swift"; "EnhancedSettings.swift";
          "Secrets.swift"; "TimeZoneMonitor.swift";
          "DevelopmentHelper.swift" ]%string.

Definition build_file_pattern (filename : text) : text :=
  T "\t\t[A-F0-9]{24} /\* " ++ escape filename
  ++ T " in Sources \*/ = \{isa = PBXBuildFile[^}]+\};\n".
Definition files_pattern (filename : text) : text :=
  T "\t+[A-F0-9]{24} /\* " ++ escape filename ++ T " in Sources \*/,?\n".

Definition remove_body (filename : text) (content : text) : Sys.M text :=
  content <- Sys.re_remove (build_file_pattern filename) content ;;
  Sys.re_remove (files_pattern filename) content.

Definition clean_project : Sys.M unit :=
  Sys.print (T "Cleaning DoseTap Xcode project...") ;;;
  content <- Sys.read_file PROJECT_PATH ;;
  Sys.copy_file PROJECT_PATH (PROJECT_PATH +:+ ".backup3") ;;;
  content <- Sys.for_each REMOVE_FROM_BUILD remove_body content ;;
  Sys.write_file PROJECT_PATH content ;;;
  Sys.print (T "✅ Removed " ++ Sys.str_nat (length REMOVE_FROM_BUILD)
             ++ T " files from build").

End CleanProject.

(** ** remove_duplicates.py *)
Module RemoveDuplicates.
Import Re.
Local Open Scope py_scope.

Definition PROJECT_PATH : string := "DoseTap.xcodeproj/project.pbxproj".

Definition DUPLICATE_LEGACY_FILES : list text :=
  map T [ "SupportBundleExport.swift"; "EnhancedSettings.swift";
          "WHOOP.swift" ]%string.

Definition read_project : Sys.M text := Sys.read_file PROJECT_PATH.
Definition write_project (content : text) : Sys.M unit :=
  Sys.write_file PROJECT_PATH content.

Definition legacy_pattern (filename : text) : text :=
  T "([A-F0-9]{24}) /\* " ++ escape filename
  ++ T " \*/ = \{isa = PBXFileReference;[^}]*path = " ++ [DQ] ++ T "legacy/"
  ++ escape filename ++ [DQ] ++ T "[^}]*\};".
Definition build_pattern (filename legacy_file_uuid : text) : text :=
  T "[A-F0-9]{24} /\* " ++ escape filename
  ++ T " in Sources \*/ = \{isa = PBXBuildFile; fileRef = " ++ legacy_file_uuid
  ++ T "[^}]*\};[\r\n]*".
Definition file_ref_pattern (filename legacy_file_uuid : text) : text :=
  T "[\t ]*" ++ legacy_file_uuid ++ T " /\* " ++ escape filename
  ++ T " \*/ = \{[^}]+\};[\r\n]*".
Definition child_pattern (filename legacy_file_uuid : text) : text :=
  T "[\t ]*" ++ legacy_file_uuid ++ T " /\* " ++ escape filename
  ++ T " \*/,?[\r\n]*".

Definition print_if (b : bool) (line : text) : Sys.M unit :=
  if b then Sys.print line else Sys.ret tt.

Definition remove_body (filename : text) (content : text) : Sys.M text :=
  legacy_re <- Sys.re_compile false (legacy_pattern filename) ;;
  match search legacy_re content with
  | Some legacy_match =>
      let legacy_file_uuid := group content legacy_match 1 in
      Sys.print (T "  Found legacy " ++ filename ++ T " with UUID "
                 ++ legacy_file_uuid) ;;;
      r <- Sys.re_subn_remove (build_pattern filename legacy_file_uuid) content ;;
      let content := fst r in
      print_if (0 <? snd r) (T "    Removed build file entry") ;;;
      r <- Sys.re_subn_remove (file_ref_pattern filename legacy_file_uuid) content ;;
      let content := fst r in
      print_if (0 <? snd r) (T "    Removed file reference") ;;;
      r <- Sys.re_subn_remove (child_pattern filename legacy_file_uuid) content ;;
      let content := fst r in
      print_if (0 <? snd r) (T "    Removed from group children") ;;;
      Sys.ret content
  | None =>
      Sys.print (T "  " ++ filename
                 ++ T " legacy version not found in project (OK)") ;;;
      Sys.ret content
  end.

Definition remove_duplicate_builds : Sys.M unit :=
  content <- read_project ;;
  Sys.print (T "Removing duplicate legacy files from build sources...") ;;;
  content <- Sys.for_each DUPLICATE_LEGACY_FILES remove_body content ;;
  write_project content ;;;
  Sys.print ([NL] ++ T "✅ Duplicate files removed from build").

End RemoveDuplicates.

(** ** fix_all_missing_files.py *)
Module FixAllMissingFiles.
Import Re Entries.
Local Open Scope py_scope.

Definition PROJECT_PATH : string := "DoseTap.xcodeproj/project.pbxproj".

Definition generate_uuid : Sys.M text := Uuid.generate_uuid.

Definition group_re : re :=
  pat_dotall "(F01 /\* DoseTap \*/ = \{.*?children = \()([^)]*)(\);)".

(** [lambda m: m.group(1) + m.group(2) + line + m.group(3)] *)
Definition append_line (content line : text) (m : Match) : text :=
  group content m 1 ++ group content m 2 ++ line ++ group content m 3.

Definition phase_pattern (phase_id : text) : text :=
  T "(" ++ phase_id ++ T " /\* Sources \*/ = \{.*?files = \()([^)]*)(\);)".

(** The file name goes into this pattern unescaped. *)
Definition file_ref_pattern (filename : text) : text :=
  T "([A-Z0-9]{24}) /\* " ++ filename ++ T " \*/".

(** The nested function [add_to_phase].  It assigns the enclosing
    function's [content], passed in and returned here, and reads its
    [ref_section_end], which is unbound ([None]) when the enclosing function
    took the branch that does not assign it. *)
Definition add_to_phase (filename : text) (ref_section_end : option Z)
    (phase_id target_label : text) (content : text) : Sys.M text :=
  phase_re <- Sys.re_compile true (phase_pattern phase_id) ;;
  let match_ := search phase_re content in
  if match match_ with
     | Some m => Py.contains filename (group content m 2)
     | None => false
     end
  then
    Sys.print (T "  Skipping " ++ filename ++ T " for " ++ target_label
               ++ T ", already in phase") ;;;
    Sys.ret content
  else
    file_ref_re <- Sys.re_compile false (file_ref_pattern filename) ;;
    match search file_ref_re content with
    | None =>
        Sys.print (T "  Error: Could not find fileRef for " ++ filename) ;;;
        Sys.ret content
    | Some file_ref_match =>
        let file_uuid := group content file_ref_match 1 in
        build_uuid <- generate_uuid ;;
        let build_entry := build_entry build_uuid file_uuid filename in
        let build_section_end := Py.find content END_BUILD_FILE in
        match ref_section_end with
        | None => Sys.raise (Sys.NameError "ref_section_end")
        | Some ref_section_end =>
            let content := Py.slice_to content ref_section_end ++ build_entry
                           ++ [NL] ++ Py.slice_from content build_section_end in
            let content :=
              sub phase_re
                  (append_line content ([NL] ++ source_entry build_uuid filename))
                  content in
            Sys.print (T "  Added " ++ filename ++ T " to " ++ target_label) ;;;
            Sys.ret content
        end
    end.

Definition add_file_to_project (filename folder_path rel_path : text)
    (add_to_tests : bool) : Sys.M unit :=
  content <- Sys.read_file PROJECT_PATH ;;
  st <-
    (if Py.contains filename content then
       Sys.print (T "File " ++ filename
                  ++ T " reference already exists, ensuring it's in build phases...") ;;;
       Sys.ret (content, None)
     else
       file_uuid <- generate_uuid ;;
       let file_entry := file_entry file_uuid filename (quoted rel_path) in
       let ref_section_end := Py.find content END_FILE_REF in
       let content := insert_at content ref_section_end (file_entry ++ [NL]) in
       let content :=
         sub group_re
             (append_line content ([NL] ++ children_entry file_uuid filename))
             content in
       Sys.ret (content, Some ref_section_end)) ;;
  let content := fst st in
  let ref_section_end := snd st in
  content <- add_to_phase filename ref_section_end
               (T "J01") (T "DoseTap (Main)") content ;;
  content <-
    (if add_to_tests
     then add_to_phase filename ref_section_end
            (T "8017D52D2EFCDF6A00BF9683") (T "DoseTapTests") content
     else Sys.ret content) ;;
  Sys.write_file PROJECT_PATH content.

End FixAllMissingFiles.

(** ** add_presleeplog.py *)
Module AddPresleeplog.
Import Re Entries.
Local Open Scope py_scope.

Definition project_path : string := "DoseTap.xcodeproj/project.pbxproj".

Definition generate_uuid : Sys.M text := Uuid.generate_uuid.

Definition views_group_re : re :=
  pat_dotall "(/\* Views \*/ = \{[^}]*children = \()([^)]*?)(\);)".
Definition sources_phase_re : re :=
  pat_dotall "(/\* Sources \*/ = \{[^}]*files = \()([^)]*?)(\);)".

(** Rewrite the matched block with [line] appended to its list. *)
Definition append_entry (content : text) (m : Match) (line : text) : text :=
  let prefix := group content m 1 in
  let existing := group content m 2 in
  let suffix := group content m 3 in
  let new_list := Py.rstrip existing ++ [NL] ++ line ++ [NL; TAB; TAB; TAB] in
  firstn (start m 0) content ++ prefix ++ new_list ++ suffix
  ++ skipn (end_ m 0) content.

Definition add_file_to_project : Sys.M unit :=
  content <- Sys.read_file project_path ;;
  if Py.contains (T "PreSleepLogView.swift") content then
    Sys.print (T "PreSleepLogView.swift already in project")
  else
    let filename := T "PreSleepLogView.swift" in
    u1 <- generate_uuid ;;
    let build_uuid := T "PSL" ++ Py.slice_to u1 21 in
    u2 <- generate_uuid ;;
    let file_uuid := T "PSL" ++ Py.slice_to u2 21 in
    let build_entry := build_entry build_uuid file_uuid filename in
    let file_entry := file_entry file_uuid filename filename in
    let build_section_end := Py.find content END_BUILD_FILE in
    let content := insert_at content build_section_end (build_entry ++ [NL]) in
    let ref_section_end := Py.find content END_FILE_REF in
    let content := insert_at content ref_section_end (file_entry ++ [NL]) in
    let content :=
      match search views_group_re content with
      | Some views_group =>
          append_entry content views_group (children_entry file_uuid filename)
      | None => content
      end in
    let content :=
      match search sources_phase_re content with
      | Some sources_phase =>
          append_entry content sources_phase (source_entry build_uuid filename)
      | None => content
      end in
    Sys.write_file project_path content ;;;
    Sys.print (T "Added " ++ filename ++ T " to project").

End AddPresleeplog.

(** ** fix_storage_scope.py *)
Module FixStorageScope.
Import Re Entries.
Local Open Scope py_scope.

Definition PROJECT_PATH : string := "DoseTap.xcodeproj/project.pbxproj".

Definition generate_uuid : Sys.M text := Uuid.generate_uuid.

Definition sources_re : re :=
  pat_dotall "(/\* Sources \*/ = \{\s*isa = PBXSourcesBuildPhase;.*?files = \()([^)]*)(\);)".
Definition group_re : re :=
  pat_dotall "(F01 /\* DoseTap \*/ = \{.*?children = \()([^)]*)(\);)".

(** [lambda m: m.group(1) + m.group(2) + line + m.group(3)] *)
Definition append_line (content line : text) (m : Match) : text :=
  group content m 1 ++ group content m 2 ++ line ++ group content m 3.

Definition add_file_to_project (filename folder_path rel_path : text)
    : Sys.M unit :=
  content <- Sys.read_file PROJECT_PATH ;;
  if Py.contains filename content then
    Sys.print (T "Skipping " ++ filename ++ T ", already in project")
  else
    file_uuid <- generate_uuid ;;
    build_uuid <- generate_uuid ;;
    Sys.print (T "Adding " ++ filename ++ T "...") ;;;
    let build_entry := build_entry build_uuid file_uuid filename in
    let file_entry := file_entry file_uuid filename (quoted rel_path) in
    let build_section_end := Py.find content END_BUILD_FILE in
    let content := insert_at content build_section_end (build_entry ++ [NL]) in
    let ref_section_end := Py.find content END_FILE_REF in
    let content := insert_at content ref_section_end (file_entry ++ [NL]) in
    let content :=
      sub sources_re
          (append_line content ([NL] ++ source_entry build_uuid filename))
          content in
    let content :=
      sub group_re
          (append_line content ([NL] ++ children_entry file_uuid filename))
          content in
    Sys.write_file PROJECT_PATH content.

(** The script's [__main__] block. *)
Definition main : Sys.M unit :=
  add_file_to_project (T "SQLiteStorage.swift") (T "FullApp")
                      (T "FullApp/SQLiteStorage.swift") ;;;
  add_file_to_project (T "TimelineView.swift") (T "FullApp")
                      (T "FullApp/TimelineView.swift") ;;;
  add_file_to_project (T "QuickLogPanel.swift") (T "FullApp")
                      (T "FullApp/QuickLogPanel.swift") ;;;
  add_file_to_project (T "MorningCheckInView.swift") (T "Views")
                      (T "Views/MorningCheckInView.swift") ;;;
  add_file_to_project (T "TonightView.swift") (T "FullApp")
                      (T "FullApp/TonightView.swift").

End FixStorageScope.

(** ** add_pr1_files.py *)
Module AddPr1Files.
Import Re Entries.
Local Open Scope py_scope.

Definition PROJECT_PATH : string := "DoseTap.xcodeproj/project.pbxproj".

Definition pr1_files : list text :=
  map T [ "APIClient.swift"; "OfflineQueue.swift"; "ContentView.swift";
          "DoseTapCore.swift" ]%string.

Definition files_re : re := pat "(files = \(\s*)".

(** What the loop over [files_to_add] builds. *)
Record new_entries : Type := mkNew {
  new_file_entries : list text;
  new_build_entries : list text
}.

Definition entries_body (filename : text) (acc : new_entries) : Sys.M new_entries :=
  file_uuid <- Uuid.generate_uuid ;;
  build_uuid <- Uuid.generate_uuid ;;
  Sys.ret (mkNew
    (new_file_entries acc ++ [file_entry file_uuid filename filename])
    (new_build_entries acc ++ [source_entry build_uuid filename])).

(** The loop that fills [existing_files]. *)
Definition existing_body (file_ref_section : text) (filename : text)
    (existing_files : gset text) : Sys.M (gset text) :=
  if Py.contains filename file_ref_section then
    Sys.print (T "File " ++ filename ++ T " already exists in project") ;;;
    Sys.ret ({[filename]} ∪ existing_files)
  else Sys.ret existing_files.

Definition main_body : Sys.M bool :=
  content <- Sys.read_file PROJECT_PATH ;;
  let file_ref_start := Py.find content (T "/* Begin PBXFileReference section */") in
  let file_ref_end := Py.find content END_FILE_REF in
  if (file_ref_start =? -1)%Z || (file_ref_end =? -1)%Z then
    Sys.print (T "Error: Could not find PBXFileReference section") ;;;
    Sys.ret false
  else
    let sources_start := Py.find content (T "/* Begin PBXSourcesBuildPhase section */") in
    let sources_end := Py.find content (T "/* End PBXSourcesBuildPhase section */") in
    if (sources_start =? -1)%Z || (sources_end =? -1)%Z then
      Sys.print (T "Error: Could not find PBXSourcesBuildPhase section") ;;;
      Sys.ret false
    else
      let file_ref_section :=
        Py.slice content (Z.to_nat file_ref_start) (Z.to_nat file_ref_end) in
      existing_files <-
        Sys.for_each pr1_files (existing_body file_ref_section) ∅ ;;
      let files_to_add := filter (fun f => f ∉ existing_files) pr1_files in
      match files_to_add with
      | [] =>
          Sys.print (T "All PR-1 files are already in the project") ;;;
          Sys.ret true
      | _ =>
          Sys.print (T "Adding files: " ++ Py.join (T ", ") files_to_add) ;;;
          acc <- Sys.for_each files_to_add entries_body (mkNew [] []) ;;
          let insert_pos := (file_ref_end - 1)%Z in
          let new_file_refs := Py.join [NL] (new_file_entries acc) ++ [NL] in
          let content := insert_at content insert_pos new_file_refs in
          match search files_re content with
          | Some m =>
              let insert_pos := Z.of_nat (end_ m 0) in
              let new_build_files := Py.join [NL] (new_build_entries acc) ++ [NL] in
              let content := insert_at content insert_pos new_build_files in
              Sys.write_file PROJECT_PATH content ;;;
              Sys.print (T "Successfully added PR-1 files to project.pbxproj") ;;;
              Sys.print (T "Added files: " ++ Py.join (T ", ") files_to_add) ;;;
              Sys.ret true
          | None =>
              Sys.print (T "Error: Could not find files section in PBXSourcesBuildPhase") ;;;
              Sys.ret false
          end
      end.

Definition main : Sys.M bool :=
  Sys.try_except main_body
    (fun e => Sys.print (T "Error modifying project file: " ++ Sys.str_exn e) ;;;
              Sys.ret false).

End AddPr1Files.

(** ** add_new_settings_files.py *)
Module AddNewSettingsFiles.
Import Entries.
Local Open Scope py_scope.

Definition project_path : string := "DoseTap.xcodeproj/project.pbxproj".

(** [str(uuid.uuid4())[:24].upper().replace('-', '')]: the slice is taken
    before the dashes are removed. *)
Definition uuid_prefix : Sys.M text :=
  u <- Uuid.uuid4 ;;
  Sys.ret (Py.replace (Py.upper (Py.slice_to (Uuid.str u) 24)) (T "-") []).

Definition sleep_plan : text := T "SleepPlanDetailView.swift".
Definition diag_log : text := T "DiagnosticLoggingSettingsView.swift".

Definition settings_view_pattern : text :=
  T "B358CDCA949364F93BD996D6 /* SettingsView.swift */,".
Definition sources_pattern : text :=
  T "626911F284B24C54BA73D7F8 /* SettingsView.swift in Sources */,".

(** The script, which has no functions: four identifiers, then the file is
    read, rewritten with [str.replace] and written. *)
Definition main : Sys.M unit :=
  sleep_plan_view_fileref <- uuid_prefix ;;
  sleep_plan_view_buildfile <- uuid_prefix ;;
  diag_log_view_fileref <- uuid_prefix ;;
  diag_log_view_buildfile <- uuid_prefix ;;
  content <- Sys.read_file project_path ;;
  let build_file_section :=
    build_entry sleep_plan_view_buildfile sleep_plan_view_fileref sleep_plan
    ++ [NL]
    ++ build_entry diag_log_view_buildfile diag_log_view_fileref diag_log
    ++ [NL] ++ END_BUILD_FILE in
  let content := Py.replace content END_BUILD_FILE build_file_section in
  let file_ref_section :=
    file_entry sleep_plan_view_fileref sleep_plan sleep_plan ++ [NL]
    ++ file_entry diag_log_view_fileref diag_log diag_log ++ [NL]
    ++ END_FILE_REF in
  let content := Py.replace content END_FILE_REF file_ref_section in
  let content :=
    if Py.contains settings_view_pattern content then
      let new_files :=
        settings_view_pattern ++ [NL]
        ++ children_entry sleep_plan_view_fileref sleep_plan ++ [NL]
        ++ children_entry diag_log_view_fileref diag_log in
      Py.replace content settings_view_pattern new_files
    else content in
  let content :=
    if Py.contains sources_pattern content then
      let new_sources :=
        sources_pattern ++ [NL]
        ++ source_entry sleep_plan_view_buildfile sleep_plan ++ [NL]
        ++ source_entry diag_log_view_buildfile diag_log in
      Py.replace content sources_pattern new_sources
    else content in
  Sys.write_file project_path content ;;;
  Sys.print (T "Added SleepPlanDetailView.swift and DiagnosticLoggingSettingsView.swift to project").

End AddNewSettingsFiles.

(** * Specifications *)

(** ** What a pattern matches

    [matches r x i g]: the pattern [r] matches exactly the text [x] when
    [x] starts at index [i] of the subject, and its groups get the spans
    [g], in closing order. *)
Module ReSpec.
Import Re.

Definition all_in (p : cset) (x : text) : Prop :=
  Forall (fun c => mem p c = true) x.

Inductive matches : re -> text -> nat -> list span -> Prop :=
| M_Lit l i : matches (Lit l) l i []
| M_Cls p c i : mem p c = true -> matches (Cls p) [c] i []
| M_Star p x i : all_in p x -> matches (Star p) x i []
| M_StarLazy p x i : all_in p x -> matches (StarLazy p) x i []
| M_Opt_one p c i : mem p c = true -> matches (Opt p) [c] i []
| M_Opt_none p i : matches (Opt p) [] i []
| M_Rep n p x i : length x = n -> all_in p x -> matches (Rep n p) x i []
| M_Grp r x i g :
    matches r x i g -> matches (Grp r) x i (g ++ [(i, i + length x)])
| M_Seq r1 r2 x y i g1 g2 :
    matches r1 x i g1 -> matches r2 y (i + length x) g2 ->
    matches (Seq r1 r2) (x ++ y) i (g1 ++ g2).

(** A match object [mt] of [content] decomposes it: the text before the
    match, the matched text, the text after it. *)
Definition match_of (r : re) (content : text) (mt : Match) : Prop :=
  exists pre x post,
    content = pre ++ x ++ post /\
    m_start mt = length pre /\
    m_end mt = length pre + length x /\
    matches r x (length pre) (m_spans mt).

End ReSpec.

(** ** Patterns of three adjacent groups

    Most block patterns of the scripts have the shape [(a)(b)(c)] with no
    group inside [a], [b], [c]: the three groups tile the match. *)
Module Groups.
Import Re ReSpec.

Fixpoint group_free (r : re) : bool :=
  match r with
  | Grp _ => false
  | Seq r1 r2 => group_free r1 && group_free r2
  | _ => true
  end.

(** The decomposition of the subject by a match of [(a)(b)(c)]. *)
Record tiling (a b c : re) (content : text) (mt : Match)
    (pre x1 x2 x3 post : text) : Prop := mkTiling {
  t_content : content = pre ++ x1 ++ x2 ++ x3 ++ post;
  t_start : start mt 0 = length pre;
  t_end : end_ mt 0 = length pre + length x1 + length x2 + length x3;
  t_start2 : start mt 2 = length pre + length x1;
  t_end2 : end_ mt 2 = length pre + length x1 + length x2;
  t_group1 : group content mt 1 = x1;
  t_group2 : group content mt 2 = x2;
  t_group3 : group content mt 3 = x3;
  t_match1 : matches a x1 (length pre) [];
  t_match2 : matches b x2 (length pre + length x1) [];
  t_match3 : matches c x3 (length pre + length x1 + length x2) []
}.

End Groups.

(** ** What deduplication is to produce *)
Module DedupeSpec.
Import Re.

(** The file an entry of the files list names. *)
Definition key (e : text * text) : text := DedupeSources.filename_of (snd e).

(** The entries that are the first of their name, in their order: an entry
    is kept and every later entry of the same name is dropped. *)
Fixpoint first_occurrences (l : list (text * text)) : list (text * text) :=
  match l with
  | [] => []
  | e :: l' => e :: filter (fun e' => key e' <> key e) (first_occurrences l')
  end.

(** The manifest with the files list of the matched block rebuilt from the
    first occurrences. *)
Definition rebuilt (content : text) (mt : Match) : text :=
  firstn (start mt 0) content
  ++ group content mt 1
  ++ DedupeSources.render_files
       (first_occurrences (findall2 DedupeSources.entry_re (group content mt 2)))
  ++ group content mt 3
  ++ skipn (end_ mt 0) content.

(** The lines of a rendered files list. *)
Definition lines (entries : list (text * text)) : text :=
  concat (map DedupeSources.entry_line entries).

End DedupeSpec.

(** ** Runs that only print *)
Module SysSpec.
Import Sys.

(** A run that only printed: the world differs in [stdout] alone. *)
Definition printed (w w' : World) : Prop :=
  exists out, w' = mkWorld (fs w) (stdout w ++ out) (writes w)
                           (urandom w) (drawn w).

End SysSpec.

(** ** Sample manifests

    Small manifests in the layout of an Xcode project file, used to run the
    scripts on concrete inputs. *)
Module Sample.
Import Entries.

Definition PROJECT_PATH : string := "DoseTap.xcodeproj/project.pbxproj".

(** A line: [n] tabs, the text, a newline. *)
Definition line (n : nat) (s : string) : text := repeat TAB n ++ T s ++ [NL].

(** A manifest with the given records and lists in its four sections. *)
Definition manifest (build_files file_refs children sources : text) : text :=
  line 0 "// !$*UTF8*$!" ++ line 0 "{" ++
  line 0 "/* Begin PBXBuildFile section */" ++ build_files ++
  line 0 "/* End PBXBuildFile section */" ++
  line 0 "/* Begin PBXFileReference section */" ++ file_refs ++
  line 0 "/* End PBXFileReference section */" ++
  line 0 "/* Begin PBXGroup section */" ++
  line 2 "F01 /* DoseTap */ = {" ++ line 3 "isa = PBXGroup;" ++
  line 3 "children = (" ++ children ++ line 3 ");" ++
  line 3 "path = DoseTap;" ++ line 2 "};" ++
  line 0 "/* End PBXGroup section */" ++
  line 0 "/* Begin PBXSourcesBuildPhase section */" ++
  line 2 "J01 /* Sources */ = {" ++ line 3 "isa = PBXSourcesBuildPhase;" ++
  line 3 "buildActionMask = 2147483647;" ++
  line 3 "files = (" ++ sources ++ line 3 ");" ++
  line 3 "runOnlyForDeploymentPostprocessing = 0;" ++ line 2 "};" ++
  line 0 "/* End PBXSourcesBuildPhase section */" ++ line 0 "}".

(** A world holding [content] as the project file, with nothing printed or
    written yet and [rand] as its random source. *)
Definition world_of (content : text) (rand : nat -> Z) : Sys.World :=
  Sys.mkWorld {[ PROJECT_PATH := content ]} [] [] rand 0.

Definition zeros : nat -> Z := fun _ => 0%Z.
Definition counting : nat -> Z := fun n => (Z.of_nat (S n) * 2 ^ 64)%Z.

Definition idA : text := T "AAAAAAAAAAAAAAAAAAAAAAAA".
Definition idB : text := T "BBBBBBBBBBBBBBBBBBBBBBBB".
Definition idC : text := T "CCCCCCCCCCCCCCCCCCCCCCCC".
Definition idD : text := T "DDDDDDDDDDDDDDDDDDDDDDDD".
Definition idE : text := T "EEEEEEEEEEEEEEEEEEEEEEEE".
Definition idF : text := T "FFFFFFFFFFFFFFFFFFFFFFFF".

(** One file, [name], declared, built, in the group and in the phase. *)
Definition one_file (name : text) : text :=
  manifest (build_entry idB idF name ++ [NL])
           (file_entry idF name name ++ [NL])
           (children_entry idF name ++ [NL])
           (source_entry idB name ++ [NL]).

(** Two files, the first of them listed twice in the Sources phase. *)
Definition with_duplicate : text :=
  manifest
    (build_entry idA idD (T "A.swift") ++ [NL]
     ++ build_entry idB idE (T "B.swift") ++ [NL]
     ++ build_entry idC idD (T "A.swift") ++ [NL])
    (file_entry idD (T "A.swift") (T "A.swift") ++ [NL]
     ++ file_entry idE (T "B.swift") (T "B.swift") ++ [NL])
    (children_entry idD (T "A.swift") ++ [NL]
     ++ children_entry idE (T "B.swift") ++ [NL])
    (source_entry idA (T "A.swift") ++ [NL]
     ++ source_entry idB (T "B.swift") ++ [NL]
     ++ source_entry idC (T "A.swift") ++ [NL]).

(** The same file, its line in the files list indented by two tabs
    instead of four. *)
Definition two_tab_list : text :=
  manifest (build_entry idB idF (T "A.swift") ++ [NL])
           (file_entry idF (T "A.swift") (T "A.swift") ++ [NL])
           (children_entry idF (T "A.swift") ++ [NL])
           ([TAB; TAB] ++ idB ++ T " /* A.swift in Sources */," ++ [NL]).

(** A Sources block with a stray closing brace in its list and an entry
    whose name spells [files = (]. *)
Definition stray_brace : text :=
  T "/* Sources */ = {isa = PBXSourcesBuildPhase;files = (}" ++ [TAB]
  ++ idA ++ T " /* x files = ( y */,);".

Definition world_dup : Sys.World := world_of with_duplicate zeros.
Definition match_dup : Re.Match :=
  Re.mkMatch 1114 1379 [(1114, 1208); (1208, 1377); (1377, 1379)].

Definition match_dup_again : Re.Match :=
  Re.mkMatch 1114 1324 [(1114, 1208); (1208, 1322); (1322, 1324)].

(** A manifest that mentions [PreSleepLogView.swift] only inside the name
    of another file, and one that mentions it only in a comment. *)
Definition longer_name : text := one_file (T "OldPreSleepLogView.swift.bak").
Definition in_comment : text :=
  line 0 "// PreSleepLogView.swift was dropped" ++ one_file (T "A.swift").

(** A file that is declared and in the group but not built. *)
Definition declared_only (name : text) : text :=
  manifest [] (file_entry idF name name ++ [NL])
           (children_entry idF name ++ [NL]) [].


(** A manifest that already holds [EventStore.swift], the first name of
    add_swift_files.py, and a random source that never repeats. *)
Definition world_event_store : Sys.World :=
  world_of (one_file (T "EventStore.swift")) counting.

(** [EventStore.swift], declared, in the group and in the phase, built
    with a compiler flag of its own: its [PBXBuildFile] record carries a
    [settings] dictionary, as Xcode writes it. *)
Definition flagged_build_entry (build_uuid file_uuid filename : text) : text :=
  [TAB; TAB] ++ build_uuid ++ T " /* " ++ filename
  ++ T " in Sources */ = {isa = PBXBuildFile; fileRef = " ++ file_uuid
  ++ T " /* " ++ filename ++ T " */; settings = {COMPILER_FLAGS = "
  ++ [DQ] ++ T "-w" ++ [DQ] ++ T "; }; };".

Definition with_flags : text :=
  manifest (flagged_build_entry idB idF (T "EventStore.swift") ++ [NL])
           (file_entry idF (T "EventStore.swift") (T "EventStore.swift")
            ++ [NL])
           (children_entry idF (T "EventStore.swift") ++ [NL])
           (source_entry idB (T "EventStore.swift") ++ [NL]).

Definition world_one : Sys.World := world_of (one_file (T "A.swift")) zeros.
Definition match_one : Re.Match :=
  Re.mkMatch 665 820 [(665, 759); (759, 818); (818, 820)].

End Sample.

(** ** Entries of a files list *)
Module EntrySpec.
Import Re ReSpec.

Definition tabsp : cset := mkSet false [COne TAB; COne " "].
Definition hexAF : cset := mkSet false [CRange "A" "F"; CRange "0" "9"].
Definition notstar : cset := mkSet true [COne "*"].
Definition notparen : cset := mkSet true [COne ")"].

(** An entry as [entry_re] reads it: an identifier of 24 characters among
    [A-F0-9] and a non-empty name without a star. *)
Definition wf_entry (e : text * text) : Prop :=
  length (fst e) = 24 /\ all_in hexAF (fst e) /\
  snd e <> [] /\ all_in notstar (snd e).

End EntrySpec.

(** ** Atomic runs *)
Module AtomicSpec.
Import Sys.




End AtomicSpec.

(** ** What clean_project.py removes *)
Module CleanSpec.
Import Re EntrySpec CleanProject.

Definition notbrace : cset := mkSet true [COne "}"].

(** The two patterns built for a file name, compiled. *)
Definition build_file_re (filename : text) : re :=
  Seq (Lit [TAB; TAB])
    (Seq (Rep 24 hexAF)
       (Seq (Lit (T " /* " ++ filename
                  ++ T " in Sources */ = {isa = PBXBuildFile"))
          (Seq (Seq (Cls notbrace) (Star notbrace)) (Lit (T "};" ++ [NL]))))).

Definition files_re (filename : text) : re :=
  Seq (Seq (Cls (single TAB)) (Star (single TAB)))
    (Seq (Rep 24 hexAF)
       (Seq (Lit (T " /* " ++ filename ++ T " in Sources */"))
          (Seq (Opt (single ",")) (Lit [NL])))).

(** One turn of the loop, and the whole loop, on the text. *)
Definition strip (content filename : text) : text :=
  remove (files_re filename) (remove (build_file_re filename) content).

Definition cleaned (content : text) : text :=
  fold_left strip REMOVE_FROM_BUILD content.

Definition backup_path : string := PROJECT_PATH +:+ ".backup3".

End CleanSpec.

(** ** The identifier a random draw gives *)
Module UuidSpec.
Local Open Scope Z_scope.

(** The first 24 hexadecimal digits, in upper case, of the UUID made from
    the 128 bits drawn: its top 96 bits. *)
Definition id_of_draw (r : Z) : text :=
  Py.upper (Uuid.hex_digits 24 (Uuid.set_version4 (r mod 2 ^ 128) / 2 ^ 32)).

(** The world after one draw. *)
Definition after_draw (w : Sys.World) : Sys.World :=
  Sys.mkWorld (Sys.fs w) (Sys.stdout w) (Sys.writes w) (Sys.urandom w)
              (S (Sys.drawn w)).

End UuidSpec.

(** ** Counting the records of a file *)
Module RecordSpec.

(** The number of places of [hay] at which [needle] starts. *)
Fixpoint occurrences (needle hay : text) : nat :=
  match hay with
  | [] => 0
  | _ :: hay' =>
      (if Py.startswith needle hay then 1 else 0) + occurrences needle hay'
  end.

(** The [PBXFileReference] records named [name]: the text by which
    [get_existing_files] recognises a declared file. *)
Definition file_declarations (name content : text) : nat :=
  occurrences (T "/* " ++ name ++ T " */ = {isa = PBXFileReference") content.

(** The [PBXBuildFile] records of [name]. *)
Definition build_entries (name content : text) : nat :=
  occurrences (T "/* " ++ name ++ T " in Sources */ = {isa = PBXBuildFile")
              content.

(** The lines of a files list that name [name]. *)
Definition memberships (name content : text) : nat :=
  occurrences (T "/* " ++ name ++ T " in Sources */,") content.

(** The places of [content] that mention the identifier [id]. *)
Definition mentions (id content : text) : nat := occurrences id content.

(** The three counts. *)
Definition records (name content : text) : nat * nat * nat :=
  (file_declarations name content, build_entries name content,
   memberships name content).

End RecordSpec.

(** ** The memberships of a files list *)
Module MembershipSpec.

(** A membership: the identifier of a build entry, the display name of
    its file, and whether the comment of its line carries [in Sources]
    after the name. *)
Record membership : Type := mkMembership {
  m_id : text;
  m_name : text;
  m_tagged : bool
}.

(** The comment of the line. *)
Definition comment (m : membership) : text :=
  m_name m ++ (if m_tagged m then T " in Sources" else []).

(** The line of a membership in a files list: four tabs, the identifier,
    the comment, a comma, a newline. *)
Definition membership_line (m : membership) : text :=
  [TAB; TAB; TAB; TAB] ++ m_id m ++ T " /* " ++ comment m ++ T " */,"
  ++ [NL].


(** A files list: a newline, the lines, three tabs. *)
Definition files_list (ms : list membership) : text :=
  [NL] ++ concat (map membership_line ms) ++ [TAB; TAB; TAB].



(** A Sources phase that builds [PreSleepLogView.swift] twice: first by
    the line add_presleeplog.py writes, then by a line with an identifier
    as Xcode makes them. *)
Definition psl_id : text := T "PSL000000000000400080000".

End MembershipSpec.

(** ** What clean_project.py may cut *)
Module RemovalSpec.
Import ReSpec EntrySpec.





(** [erased P x y]: [y] is [x] with some pieces cut out, left to right,
    each of them a [P]. *)
Inductive erased (P : text -> Prop) : text -> text -> Prop :=
| erased_nil : erased P [] []
| erased_keep c x y : erased P x y -> erased P (c :: x) (c :: y)
| erased_cut seg x y : P seg -> erased P x y -> erased P (seg ++ x) y.

(** Several such passes, one after the other. *)
Inductive only_removes (P : text -> Prop) : text -> text -> Prop :=
| passes_none x : only_removes P x x
| passes_more x y z :
    erased P x y -> only_removes P y z -> only_removes P x z.

(** [UndoSnackbar.swift], a name clean_project.py lists, built with a
    compiler flag of its own. *)
Definition listed_with_flags : text :=
  Sample.manifest
    (Sample.flagged_build_entry Sample.idB Sample.idF (T "UndoSnackbar.swift")
     ++ [NL])
    (Entries.file_entry Sample.idF (T "UndoSnackbar.swift")
       (T "UndoSnackbar.swift") ++ [NL])
    (Entries.children_entry Sample.idF (T "UndoSnackbar.swift") ++ [NL])
    (Entries.source_entry Sample.idB (T "UndoSnackbar.swift") ++ [NL]).

End RemovalSpec.

(** ** More sample worlds *)
Module Worlds.
Import Sample.

(** A directory without a project file. *)
Definition world_empty : Sys.World := Sys.mkWorld ∅ [] [] zeros 0.

End Worlds.

(** ** The identifiers the scripts make *)
Module IdSpec.

(** An identifier as the patterns of dedupe_sources.py and
    clean_project.py read it: 24 characters over [0-9A-F]. *)
Definition hex24 (id : text) : Prop :=
  length id = 24 /\ ReSpec.all_in EntrySpec.hexAF id.

(** The identifier add_swift_files.py makes from a draw. *)
Definition swift_id (r : Z) : text :=
  T "AAAAAAAA" ++ firstn 16 (UuidSpec.id_of_draw r).

(** The world after [n] draws. *)
Definition after_draws (n : nat) (w : Sys.World) : Sys.World :=
  Sys.mkWorld (Sys.fs w) (Sys.stdout w) (Sys.writes w) (Sys.urandom w)
              (n + Sys.drawn w).

End IdSpec.

(** ** The records add_swift_files.py makes *)
Module SwiftSpec.
Import IdSpec.

(** The identifiers drawn for [files], the [n]-th draw first: for each
    file the build identifier, the file identifier and the name. *)
Fixpoint swift_ids (rand : nat -> Z) (n : nat) (files : list text)
    : list (text * text * text) :=
  match files with
  | [] => []
  | f :: files' =>
      (swift_id (rand n), swift_id (rand (S n)), f)
      :: swift_ids rand (S (S n)) files'
  end.

Definition build_of (e : text * text * text) : text :=
  Entries.build_entry (fst (fst e)) (snd (fst e)) (snd e).
Definition file_of (e : text * text * text) : text :=
  Entries.file_entry (snd (fst e)) (snd e) (snd e).
Definition child_of (e : text * text * text) : text :=
  Entries.children_entry (snd (fst e)) (snd e).
Definition source_of (e : text * text * text) : text :=
  Entries.source_entry (fst (fst e)) (snd e).

End SwiftSpec.

(** ** What a presence check reads *)
Module PresenceSpec.

(** [\w] and [[A-Za-z0-9_]]. *)
Definition word : Re.cset := Re.mkSet false [Re.CWord].
Definition alnum_ : Re.cset :=
  Re.mkSet false [Re.CRange "A" "Z"; Re.CRange "a" "z"; Re.CRange "0" "9";
                  Re.COne "_"].

(** A manifest that only mentions the names of add_missing_files.py, each
    in a comment of its own. *)
Definition all_listed : text :=
  concat (map (fun f => T "/* " ++ f ++ T " */" ++ [NL])
              AddMissingFiles.MISSING_FILES).

End PresenceSpec.

(** ** A line dedupe_sources.py does not read *)
Module ForeignSpec.
Import Sample.

(** The line add_presleeplog.py appends to the files list: its identifier
    is [PSL] followed by 21 digits. *)
Definition psl_line (digits : text) : text :=
  Entries.source_entry (T "PSL" ++ digits) (T "PreSleepLogView.swift").

(** A files list in the layout of dedupe_sources.py, with the line of
    add_presleeplog.py at its end. *)
Definition list_with_psl (entries : list (text * text)) (digits : text) : text :=
  [NL] ++ DedupeSpec.lines entries ++ psl_line digits ++ [NL; TAB; TAB; TAB].

(** The digits add_presleeplog.py makes from a draw of zero bytes. *)
Definition psl_digits : text := T "000000000000400080000".

End ForeignSpec.

(** ** add_presleeplog.py followed by dedupe_sources.py *)
Module ComposeSpec.
Import Sample.

(** The world after add_presleeplog.py has run on a manifest that holds
    [A.swift] alone. *)
Definition world_after_presleeplog : Sys.World :=
  snd (AddPresleeplog.add_file_to_project world_one).

Definition content_after_presleeplog : text :=
  default [] (Sys.fs world_after_presleeplog !! AddPresleeplog.project_path).

Definition match_after_presleeplog : Re.Match :=
  Re.mkMatch 998 1222 [(998, 1092); (1092, 1220); (1220, 1222)].

End ComposeSpec.

(** ** What dedupe_sources.py reports *)
Module ReportSpec.
Import DedupeSpec.

(** The entries dropped: those whose file was seen before, in the order
    of the list. *)
Fixpoint dropped (seen : gset text) (l : list (text * text))
    : list (text * text) :=
  match l with
  | [] => []
  | e :: l' =>
      if decide (key e ∈ seen) then e :: dropped seen l'
      else dropped ({[key e]} ∪ seen) l'
  end.

(** The line printed for a dropped entry. *)
Definition dropped_line (e : text * text) : text :=
  T "  Removing duplicate: " ++ key e.

End ReportSpec.

(** ** Patterns that need a literal *)
Module FrameSpec.
Import Re ReSpec.

(** Every text [r] matches holds [lit]. *)
Definition needs (r : re) (lit : text) : Prop :=
  forall x i g, matches r x i g -> exists a b, x = a ++ lit ++ b.

(** [[A-Z0-9]] and [[^}]]. *)
Definition AZ09 : cset := mkSet false [CRange "A" "Z"; CRange "0" "9"].
Definition notbrace : cset := mkSet true [COne "}"].

End FrameSpec.

(** ** The patterns of rebuild_project.py, compiled *)
Module RebuildSpec.
Import Re FrameSpec.

Definition build_file_re (filename : text) : re :=
  Seq (Lit [TAB; TAB])
    (Seq (Rep 24 AZ09)
       (Seq (Lit (T " /* " ++ filename ++ T " in Sources */ = {"))
          (Seq (Seq (Cls notbrace) (Star notbrace)) (Lit (T "};" ++ [NL]))))).

Definition file_reference_re (filename : text) : re :=
  Seq (Lit [TAB; TAB])
    (Seq (Rep 24 AZ09)
       (Seq (Lit (T " /* " ++ filename ++ T " */ = {"))
          (Seq (Seq (Cls notbrace) (Star notbrace)) (Lit (T "};" ++ [NL]))))).

Definition children_re (filename : text) : re :=
  Seq (Seq (Cls (single TAB)) (Star (single TAB)))
    (Seq (Rep 24 AZ09)
       (Seq (Lit (T " /* " ++ filename ++ T " */"))
          (Seq (Opt (single ",")) (Lit [NL])))).

Definition files_re (filename : text) : re :=
  Seq (Seq (Cls (single TAB)) (Star (single TAB)))
    (Seq (Rep 24 AZ09)
       (Seq (Lit (T " /* " ++ filename ++ T " in Sources */"))
          (Seq (Opt (single ",")) (Lit [NL])))).

(** One turn of the loop on the text. *)
Definition strip (content filename : text) : text :=
  remove (files_re filename)
    (remove (children_re filename)
       (remove (file_reference_re filename)
          (remove (build_file_re filename) content))).

Definition stripped (content : text) : text :=
  fold_left strip RebuildProject.broken_files content.

End RebuildSpec.

(** ** The pattern of remove_duplicates.py for a legacy reference *)
Module LegacySpec.
Import Re FrameSpec.

Definition legacy_re (filename : text) : re :=
  Seq (Grp (Rep 24 EntrySpec.hexAF))
    (Seq (Lit (T " /* " ++ filename ++ T " */ = {isa = PBXFileReference;"))
       (Seq (Star notbrace)
          (Seq (Lit (T "path = " ++ [DQ] ++ T "legacy/" ++ filename ++ [DQ]))
             (Seq (Star notbrace) (Lit (T "};")))))).

(** The text every legacy reference holds. *)
Definition legacy_mark : text := T "path = " ++ [DQ] ++ T "legacy/".

(** The line printed when no legacy reference is found. *)
Definition not_found_line (filename : text) : text :=
  T "  " ++ filename ++ T " legacy version not found in project (OK)".

End LegacySpec.

(** ** Names a script looks for *)
Module MarkSpec.

(** The text clean_project.py needs to find for [filename]. *)
Definition built_mark (filename : text) : text :=
  T " /* " ++ filename ++ T " in Sources */".

(** The text rebuild_project.py needs to find for [filename]: the name at
    the start of a comment. *)
Definition comment_mark (filename : text) : text :=
  T " /* " ++ filename ++ T " ".

End MarkSpec.

(** ** fix_all_missing_files.py: the main target's phase *)
Module FixSpec.

(** The phase pattern for [J01], compiled. *)
Definition phase_J01 : Re.re :=
  pat_dotall "(J01 /\* Sources \*/ = \{.*?files = \()([^)]*)(\);)".

(** Whether the files list of the [J01] phase mentions [filename]. *)
Definition in_phase_J01 (filename content : text) : bool :=
  match Re.search phase_J01 content with
  | Some m => Py.contains filename (Re.group content m 2)
  | None => false
  end.

(** The line printed when the name is found in the manifest. *)
Definition exists_line (filename : text) : text :=
  T "File " ++ filename
  ++ T " reference already exists, ensuring it's in build phases...".

(** A file that is declared and in the group but not built; the pattern
    fix_all_missing_files.py builds for it and where it matches. *)
Definition unbuilt : text := Sample.declared_only (T "X.swift").
Definition unbuilt_ref_re : Re.re := pat "([A-Z0-9]{24}) /\* X.swift \*/".
Definition unbuilt_ref_match : Re.Match := Re.mkMatch 119 157 [(119, 143)].

End FixSpec.

(** ** add_pr1_files.py: the sections it looks for *)
Module Pr1Spec.

Definition BEGIN_FILE_REF : text := T "/* Begin PBXFileReference section */".
Definition BEGIN_SOURCES : text := T "/* Begin PBXSourcesBuildPhase section */".
Definition END_SOURCES : text := T "/* End PBXSourcesBuildPhase section */".

(** [content[file_ref_start:file_ref_end]]. *)
Definition file_ref_section (content : text) : text :=
  Py.slice content (Z.to_nat (Py.find content BEGIN_FILE_REF))
           (Z.to_nat (Py.find content Entries.END_FILE_REF)).

(** The line printed for a file found in the section. *)
Definition exists_line (filename : text) : text :=
  T "File " ++ filename ++ T " already exists in project".

(** The world after printing [lines]. *)
Definition after_print (lines : list text) (w : Sys.World) : Sys.World :=
  Sys.mkWorld (Sys.fs w) (Sys.stdout w ++ lines) (Sys.writes w)
              (Sys.urandom w) (Sys.drawn w).

(** A manifest whose reference section names the four files. *)
Definition pr1_listed : text :=
  BEGIN_FILE_REF ++ [NL]
  ++ concat (map (fun f => Entries.file_entry Sample.idF f f ++ [NL])
                 AddPr1Files.pr1_files)
  ++ Entries.END_FILE_REF ++ [NL]
  ++ BEGIN_SOURCES ++ [NL] ++ END_SOURCES ++ [NL].

End Pr1Spec.

(** ** The identifiers of add_new_settings_files.py *)
Module ShortIdSpec.

(** What the script makes of a draw: the first 20 digits of the
    identifier the other scripts would make. *)
Definition short_id (r : Z) : text := firstn 20 (UuidSpec.id_of_draw r).

(** The message the script ends with. *)
Definition added_line : text :=
  T "Added SleepPlanDetailView.swift and DiagnosticLoggingSettingsView.swift to project".

End ShortIdSpec.

(** ** add_presleeplog.py on a manifest without section markers *)
Module EdgeSpec.

Definition psl_name : text := T "PreSleepLogView.swift".

(** The identifier add_presleeplog.py makes from a draw: [PSL] and the
    first 21 digits. *)
Definition psl_id (r : Z) : text :=
  T "PSL" ++ firstn 21 (UuidSpec.id_of_draw r).

(** The two records of a run that starts in [w]. *)
Definition psl_build (w : Sys.World) : text :=
  Entries.build_entry (psl_id (Sys.urandom w (Sys.drawn w)))
    (psl_id (Sys.urandom w (S (Sys.drawn w)))) psl_name.
Definition psl_file (w : Sys.World) : text :=
  Entries.file_entry (psl_id (Sys.urandom w (S (Sys.drawn w))))
    psl_name psl_name.

(** A file of one line, and an empty one. *)
Definition world_bare : Sys.World := Sample.world_of (T "{}" ++ [NL]) Sample.zeros.
Definition world_blank : Sys.World := Sample.world_of [] Sample.zeros.

End EdgeSpec.

(** ** What add_pr1_files.py adds *)
Module Pr1AddSpec.

(** The names found in the PBXFileReference section and the names to
    add, in the order of the script's list. *)
Definition present (content : text) : list text :=
  filter (fun f => Py.contains f (Pr1Spec.file_ref_section content) = true)
         AddPr1Files.pr1_files.
Definition files_to_add (content : text) : list text :=
  filter (fun f => Py.contains f (Pr1Spec.file_ref_section content) = false)
         AddPr1Files.pr1_files.

(** The identifiers drawn for [files], the [n]-th draw first: for each
    file the file identifier, the build identifier and the name. *)
Fixpoint pr1_ids (rand : nat -> Z) (n : nat) (files : list text)
    : list (text * text * text) :=
  match files with
  | [] => []
  | f :: files' =>
      (UuidSpec.id_of_draw (rand n), UuidSpec.id_of_draw (rand (S n)), f)
      :: pr1_ids rand (S (S n)) files'
  end.

Definition ref_of (e : text * text * text) : text :=
  Entries.file_entry (fst (fst e)) (snd e) (snd e).
Definition line_of (e : text * text * text) : text :=
  Entries.source_entry (snd (fst e)) (snd e).

(** The text after the file references are put in: one character before
    the end marker. *)
Definition with_refs (content : text) (ids : list (text * text * text)) : text :=
  Entries.insert_at content (Py.find content Entries.END_FILE_REF - 1)
    (Py.join [NL] (map ref_of ids) ++ [NL]).

(** What is printed before the text is changed. *)
Definition announced (content : text) : list text :=
  map Pr1Spec.exists_line (present content)
  ++ [T "Adding files: " ++ Py.join (T ", ") (files_to_add content)].

(** A manifest whose first [files = (] is in the Frameworks phase; it
    holds two of the four names. *)
Definition two_phases : text :=
  Pr1Spec.BEGIN_FILE_REF ++ [NL]
  ++ Entries.file_entry Sample.idF (T "APIClient.swift") (T "APIClient.swift")
  ++ [NL]
  ++ Entries.file_entry Sample.idE (T "ContentView.swift")
       (T "ContentView.swift") ++ [NL]
  ++ Entries.END_FILE_REF ++ [NL]
  ++ T "/* Begin PBXFrameworksBuildPhase section */" ++ [NL]
  ++ Sample.line 3 "files = (" ++ Sample.line 3 ");"
  ++ T "/* End PBXFrameworksBuildPhase section */" ++ [NL]
  ++ Pr1Spec.BEGIN_SOURCES ++ [NL]
  ++ Sample.line 3 "files = (" ++ Sample.line 3 ");"
  ++ Pr1Spec.END_SOURCES ++ [NL].

End Pr1AddSpec.

(** ** add_missing_files.py on a manifest without its anchors *)
Module AnchorSpec.

(** The two blocks the script looks for by name. *)
Definition GROUP_F01 : text := T "F01 /* DoseTap */ = {".
Definition PHASE_J01 : text := T "J01 /* Sources */ = {".

(** The names to add. *)
Definition files_to_add (content : text) : list text :=
  filter (fun f => f ∉ AddMissingFiles.get_existing_files content)
         AddMissingFiles.MISSING_FILES.

(** What a run that adds [files] prints. *)
Definition report (content : text) (files : list text) : list text :=
  [T "Reading project file...";
   T "Found "
   ++ Sys.str_nat (size (AddMissingFiles.get_existing_files content))
   ++ T " existing Swift files in project";
   [NL] ++ T "Adding " ++ Sys.str_nat (length files) ++ T " missing files:"]
  ++ map (fun f => T "  + " ++ f) files
  ++ [[NL] ++ T "Backup saved to " ++ T AddMissingFiles.backup_path;
      [NL] ++ T "âœ… Successfully added " ++ Sys.str_nat (length files)
      ++ T " files to project!";
      [NL] ++ T "Reopen the project in Xcode to see changes."].

End AnchorSpec.

(** * Proofs *)

Module PyFacts.
Import Py.

Lemma ascii_eqb_eq a b : ascii_eqb a b = true <-> a = b.
Proof. unfold ascii_eqb. apply Ascii.eqb_eq. Qed.

Lemma ascii_eqb_refl a : ascii_eqb a a = true.
Proof. apply ascii_eqb_eq. reflexivity. Qed.

Lemma ascii_eqb_neq a b : ascii_eqb a b = false <-> a <> b.
Proof. unfold ascii_eqb. apply Ascii.eqb_neq. Qed.

Lemma text_eqb_eq a b : text_eqb a b = true <-> a = b.
Proof.
  revert b. induction a as [|x a IH]; intros [|y b]; simpl; try easy.
  rewrite andb_true_iff, ascii_eqb_eq, IH. split.
  - intros [-> ->]. reflexivity.
  - intros E. inversion E. auto.
Qed.

Lemma text_eqb_neq a b : text_eqb a b = false -> a <> b.
Proof.
  intros H E. apply text_eqb_eq in E. congruence.
Qed.

Lemma strip_prefix_Some l s s' : strip_prefix l s = Some s' -> s = l ++ s'.
Proof.
  revert s. induction l as [|c l IH]; intros s H; simpl in H.
  - simpl. congruence.
  - destruct s as [|d s]; [discriminate|].
    destruct (ascii_eqb c d) eqn:E; [|discriminate].
    apply ascii_eqb_eq in E. subst d. simpl. f_equal. auto.
Qed.

Lemma strip_prefix_app l s : strip_prefix l (l ++ s) = Some s.
Proof.
  induction l as [|c l IH]; simpl; [reflexivity|].
  rewrite ascii_eqb_refl. exact IH.
Qed.

Lemma startswith_spec l s : startswith l s = true <-> exists s', s = l ++ s'.
Proof.
  unfold startswith. split.
  - destruct (strip_prefix l s) eqn:E; [|discriminate].
    intros _. eexists. eapply strip_prefix_Some; eauto.
  - intros [s' ->]. rewrite strip_prefix_app. reflexivity.
Qed.

(** [find] answers an index at which [needle] stands, or -1 when it stands
    nowhere. *)
Lemma find_from_found needle hay i z :
  find_from needle hay i = z -> (0 <= z)%Z ->
  exists pre post, hay = pre ++ needle ++ post /\ z = Z.of_nat (i + length pre).
Proof.
  revert i. induction hay as [|c hay IH]; intros i H Hz; simpl in H.
  - destruct (startswith needle []) eqn:E; [|lia].
    apply startswith_spec in E as [s' E]. exists [], s'. simpl.
    split; [exact E|lia].
  - destruct (startswith needle (c :: hay)) eqn:E.
    + apply startswith_spec in E as [s' E]. exists [], s'. simpl.
      split; [exact E|lia].
    + destruct (IH _ H Hz) as (pre & post & -> & ->).
      exists (c :: pre), post. simpl. split; [reflexivity|lia].
Qed.

Lemma find_from_unfold needle hay i :
  find_from needle hay i =
  if startswith needle hay then Z.of_nat i
  else match hay with
       | [] => (-1)%Z
       | _ :: hay' => find_from needle hay' (S i)
       end.
Proof. destruct hay; reflexivity. Qed.

Lemma find_from_complete needle pre post i :
  (0 <= find_from needle (pre ++ needle ++ post) i)%Z.
Proof.
  revert i. induction pre as [|c pre IH]; intros i; simpl.
  - rewrite find_from_unfold.
    assert (E : startswith needle (needle ++ post) = true)
      by (apply startswith_spec; eauto).
    rewrite E. lia.
  - destruct (startswith needle (c :: pre ++ needle ++ post)); [lia|apply IH].
Qed.

(** [needle in hay] holds exactly when [needle] is a substring of [hay]. *)
Lemma contains_spec needle hay :
  contains needle hay = true <-> exists pre post, hay = pre ++ needle ++ post.
Proof.
  unfold contains, find. split.
  - intros H. apply Z.leb_le in H.
    destruct (find_from_found needle hay 0 _ eq_refl H) as (pre & post & E & _).
    eauto.
  - intros (pre & post & ->). apply Z.leb_le, find_from_complete.
Qed.

Lemma slice_app pre x post :
  slice (pre ++ x ++ post) (length pre) (length pre + length x) = x.
Proof.
  unfold slice. rewrite drop_app_length.
  replace (length pre + length x - length pre) with (length x) by lia.
  apply take_app_length.
Qed.

End PyFacts.

Module ReFacts.
Import Re ReSpec PyFacts.

Section Sound.
Context {A : Type}.

Lemma star_greedy_sound p (k : text -> nat -> option A) s i v :
  star_greedy p k s i = Some v ->
  exists x s', s = x ++ s' /\ all_in p x /\ k s' (i + length x) = Some v.
Proof.
  revert i. induction s as [|c s IH]; intros i H; simpl in H.
  - exists [], []. rewrite Nat.add_0_r. repeat split; [constructor|done].
  - destruct (mem p c) eqn:Ec.
    + destruct (star_greedy p k s (S i)) eqn:E.
      * inversion H; subst. destruct (IH _ E) as (x & s' & -> & Hx & Hk).
        exists (c :: x), s'. simpl. repeat split.
        -- constructor; assumption.
        -- rewrite <- Hk. f_equal. lia.
      * exists [], (c :: s). rewrite Nat.add_0_r.
        repeat split; [constructor|done].
    + exists [], (c :: s). rewrite Nat.add_0_r.
      repeat split; [constructor|done].
Qed.

Lemma star_lazy_sound p (k : text -> nat -> option A) s i v :
  star_lazy p k s i = Some v ->
  exists x s', s = x ++ s' /\ all_in p x /\ k s' (i + length x) = Some v.
Proof.
  revert i. induction s as [|c s IH]; intros i H; simpl in H.
  - destruct (k [] i) eqn:E; [|discriminate]. inversion H; subst.
    exists [], []. rewrite Nat.add_0_r. repeat split; [constructor|done].
  - destruct (k (c :: s) i) eqn:E.
    + inversion H; subst. exists [], (c :: s). rewrite Nat.add_0_r.
      repeat split; [constructor|done].
    + destruct (mem p c) eqn:Ec; [|discriminate].
      destruct (IH _ H) as (x & s' & -> & Hx & Hk).
      exists (c :: x), s'. simpl. repeat split.
      * constructor; assumption.
      * rewrite <- Hk. f_equal. lia.
Qed.

Lemma rep_sound p n (k : text -> nat -> option A) s i v :
  rep p n k s i = Some v ->
  exists x s', s = x ++ s' /\ length x = n /\ all_in p x
               /\ k s' (i + length x) = Some v.
Proof.
  revert s i. induction n as [|n IH]; intros s i H; simpl in H.
  - exists [], s. rewrite Nat.add_0_r. repeat split; [constructor|done].
  - destruct s as [|c s]; [discriminate|].
    destruct (mem p c) eqn:Ec; [|discriminate].
    destruct (IH _ _ H) as (x & s' & -> & Hn & Hx & Hk).
    exists (c :: x), s'. simpl. repeat split.
    + lia.
    + constructor; assumption.
    + rewrite <- Hk. f_equal. lia.
Qed.
End Sound.

(** Greedy repetition over a run of characters of the class: when what
    follows succeeds at the end of the run, that is the answer. *)
Lemma star_greedy_app {A} p (k : text -> nat -> option A) x s i v :
  all_in p x ->
  star_greedy p k s (i + length x) = Some v ->
  star_greedy p k (x ++ s) i = Some v.
Proof.
  revert i. induction x as [|c x IH]; intros i Hx H; simpl in *.
  - rewrite Nat.add_0_r in H. exact H.
  - inversion Hx as [|? ? Hc Hx']; subst. rewrite Hc.
    rewrite (IH (S i) Hx'); [reflexivity|].
    rewrite <- H. f_equal. lia.
Qed.

Lemma star_greedy_stop {A} p (k : text -> nat -> option A) c s i :
  mem p c = false -> star_greedy p k (c :: s) i = k (c :: s) i.
Proof. intros H. simpl. rewrite H. reflexivity. Qed.

Lemma rep_app {A} p n (k : text -> nat -> option A) x s i :
  length x = n -> all_in p x -> rep p n k (x ++ s) i = k s (i + n).
Proof.
  revert n i. induction x as [|c x IH]; intros n i Hn Hx; simpl in *; subst n.
  - simpl. rewrite Nat.add_0_r. reflexivity.
  - inversion Hx as [|? ? Hc Hx']; subst. simpl. rewrite Hc.
    rewrite (IH _ (S i) eq_refl Hx'). f_equal. lia.
Qed.

(** The matcher is sound: a success of [run] is a match of the pattern
    followed by a success of the continuation. *)
Lemma run_sound {A} r : forall s i caps (k : text -> nat -> list span -> option A) v,
  run r s i caps k = Some v ->
  exists x s' g, s = x ++ s' /\ matches r x i g
                 /\ k s' (i + length x) (caps ++ g) = Some v.
Proof.
  induction r as [l|p|p|p|p|n p|r IH|r1 IH1 r2 IH2]; intros s i caps k v H;
    simpl in H.
  - destruct (Py.strip_prefix l s) as [s'|] eqn:E; [|discriminate].
    apply strip_prefix_Some in E. exists l, s', [].
    rewrite app_nil_r. repeat split; [done|constructor|done].
  - destruct s as [|c s]; [discriminate|].
    destruct (mem p c) eqn:Ec; [|discriminate].
    exists [c], s, []. rewrite app_nil_r. simpl.
    repeat split; [constructor; done|]. rewrite <- H. f_equal. lia.
  - apply star_greedy_sound in H as (x & s' & -> & Hx & Hk).
    exists x, s', []. rewrite app_nil_r. repeat split; [constructor|]; done.
  - apply star_lazy_sound in H as (x & s' & -> & Hx & Hk).
    exists x, s', []. rewrite app_nil_r. repeat split; [constructor|]; done.
  - assert (Hnone : k s i caps = Some v ->
      exists x s' g, s = x ++ s' /\ matches (Opt p) x i g
                     /\ k s' (i + length x) (caps ++ g) = Some v).
    { intros Hk. exists [], s, []. rewrite app_nil_r, Nat.add_0_r.
      repeat split; [constructor|done]. }
    destruct s as [|c s]; [auto|].
    destruct (mem p c) eqn:Ec; [|auto].
    destruct (k s (S i) caps) eqn:E; [|auto].
    inversion H; subst. exists [c], s, []. rewrite app_nil_r. simpl.
    repeat split; [constructor; done|]. rewrite <- E. f_equal. lia.
  - apply rep_sound in H as (x & s' & -> & Hn & Hx & Hk).
    exists x, s', []. rewrite app_nil_r. repeat split; [constructor|]; done.
  - apply IH in H as (x & s' & g & -> & Hm & Hk).
    exists x, s', (g ++ [(i, i + length x)]).
    rewrite app_assoc. repeat split; [constructor|]; done.
  - apply IH1 in H as (x & s1 & g1 & -> & Hm1 & Hk).
    apply IH2 in Hk as (y & s' & g2 & -> & Hm2 & Hk).
    exists (x ++ y), s', (g1 ++ g2).
    rewrite <- app_assoc. repeat split.
    + econstructor; eassumption.
    + rewrite length_app, Nat.add_assoc, app_assoc. exact Hk.
Qed.

Lemma match_at_sound r s i mt :
  match_at r s i = Some mt ->
  exists x s', s = x ++ s' /\ m_start mt = i /\ m_end mt = i + length x
               /\ matches r x i (m_spans mt).
Proof.
  unfold match_at. intros H.
  apply run_sound in H as (x & s' & g & -> & Hm & Hk).
  inversion Hk; subst. simpl. eauto 10.
Qed.

Lemma search_from_sound r s i mt :
  search_from r s i = Some mt ->
  exists pre x post, s = pre ++ x ++ post /\ m_start mt = i + length pre
    /\ m_end mt = i + length pre + length x
    /\ matches r x (i + length pre) (m_spans mt).
Proof.
  revert i. induction s as [|c s IH]; intros i H; simpl in H.
  - destruct (match_at r [] i) eqn:E; [|discriminate]. inversion H; subst.
    apply match_at_sound in E as (x & s' & E & Hs & He & Hm).
    exists [], x, s'. simpl. rewrite !Nat.add_0_r. done.
  - destruct (match_at r (c :: s) i) eqn:E.
    + inversion H; subst.
      apply match_at_sound in E as (x & s' & E & Hs & He & Hm).
      exists [], x, s'. simpl. rewrite !Nat.add_0_r. done.
    + apply IH in H as (pre & x & post & -> & Hs & He & Hm).
      exists (c :: pre), x, post. simpl.
      replace (i + S (length pre)) with (S i + length pre) by lia. done.
Qed.

(** [re.search] answers a match of the pattern inside the subject. *)
Lemma search_sound r content mt :
  search r content = Some mt -> match_of r content mt.
Proof.
  intros H. apply search_from_sound in H as (pre & x & post & ? & ? & ? & ?).
  exists pre, x, post. simpl in *. done.
Qed.

(** Inversion of [matches], one lemma per construct. *)
Lemma matches_Seq_inv r1 r2 x i g :
  matches (Seq r1 r2) x i g ->
  exists x1 x2 g1 g2, x = x1 ++ x2 /\ g = g1 ++ g2 /\ matches r1 x1 i g1
                      /\ matches r2 x2 (i + length x1) g2.
Proof. inversion 1; subst; eauto 10. Qed.

Lemma matches_Grp_inv r x i g :
  matches (Grp r) x i g ->
  exists g', g = g' ++ [(i, i + length x)] /\ matches r x i g'.
Proof. inversion 1; subst; eauto. Qed.

Lemma matches_Lit_inv l x i g : matches (Lit l) x i g -> x = l /\ g = [].
Proof. inversion 1; subst; auto. Qed.

Lemma matches_Cls_inv p x i g :
  matches (Cls p) x i g -> exists c, x = [c] /\ mem p c = true /\ g = [].
Proof. inversion 1; subst; eauto. Qed.

Lemma matches_Star_inv p x i g :
  matches (Star p) x i g -> all_in p x /\ g = [].
Proof. inversion 1; subst; auto. Qed.

Lemma matches_StarLazy_inv p x i g :
  matches (StarLazy p) x i g -> all_in p x /\ g = [].
Proof. inversion 1; subst; auto. Qed.

Lemma matches_Rep_inv n p x i g :
  matches (Rep n p) x i g -> length x = n /\ all_in p x /\ g = [].
Proof. inversion 1; subst; auto. Qed.

Lemma matches_Opt_inv p x i g :
  matches (Opt p) x i g ->
  (x = [] \/ exists c, x = [c] /\ mem p c = true) /\ g = [].
Proof. inversion 1; subst; eauto. Qed.

End ReFacts.

Module GroupFacts.
Import Re ReSpec Groups PyFacts ReFacts.

Lemma matches_group_free r x i g :
  matches r x i g -> group_free r = true -> g = [].
Proof.
  induction 1; simpl; intros Hf; try reflexivity; try discriminate.
  apply andb_prop in Hf as [H1 H2].
  rewrite IHmatches1, IHmatches2 by assumption. reflexivity.
Qed.

Lemma slice_middle (a x b : text) n m :
  n = length a -> m = length a + length x -> Py.slice (a ++ x ++ b) n m = x.
Proof. intros -> ->. apply slice_app. Qed.

Lemma search_three_groups a b c content mt :
  group_free a = true -> group_free b = true -> group_free c = true ->
  search (Seq (Grp a) (Seq (Grp b) (Grp c))) content = Some mt ->
  exists pre x1 x2 x3 post, tiling a b c content mt pre x1 x2 x3 post.
Proof.
  intros Ha Hb Hc H.
  apply search_sound in H as (pre & x & post & E & Hs & He & Hm).
  apply matches_Seq_inv in Hm as (x1 & y & g1 & g2 & -> & Hg & H1 & H2).
  apply matches_Grp_inv in H1 as (ga & -> & H1').
  apply matches_Seq_inv in H2 as (x2 & x3 & g3 & g4 & -> & -> & H3 & H4).
  apply matches_Grp_inv in H3 as (gb & -> & H3').
  apply matches_Grp_inv in H4 as (gc & -> & H4').
  pose proof (matches_group_free _ _ _ _ H1' Ha) as ->.
  pose proof (matches_group_free _ _ _ _ H3' Hb) as ->.
  pose proof (matches_group_free _ _ _ _ H4' Hc) as ->.
  rewrite ?length_app, ?Nat.add_assoc in H4'.
  destruct mt as [ms me sp]. simpl in *. subst ms me sp.
  exists pre, x1, x2, x3, post.
  assert (E1 : content = pre ++ x1 ++ x2 ++ x3 ++ post)
    by (rewrite E, <- !app_assoc; reflexivity).
  clear E. subst content.
  constructor; unfold group; unfold start, end_, span_of; simpl.
  - reflexivity.
  - reflexivity.
  - rewrite !length_app. lia.
  - reflexivity.
  - reflexivity.
  - apply slice_middle; lia.
  - replace (pre ++ x1 ++ x2 ++ x3 ++ post)
      with ((pre ++ x1) ++ x2 ++ x3 ++ post) by (rewrite <- app_assoc; done).
    apply slice_middle; rewrite ?length_app; lia.
  - replace (pre ++ x1 ++ x2 ++ x3 ++ post)
      with ((pre ++ x1 ++ x2) ++ x3 ++ post)
      by (rewrite <- !app_assoc; done).
    apply slice_middle; rewrite ?length_app; lia.
  - assumption.
  - assumption.
  - assumption.
Qed.

End GroupFacts.

(** ** The state monad of the scripts *)
Module SysFacts.
Import Sys.
Export SysSpec.

Lemma printed_refl w : printed w w.
Proof. exists []. rewrite app_nil_r. destruct w; reflexivity. Qed.

Lemma printed_trans w1 w2 w3 : printed w1 w2 -> printed w2 w3 -> printed w1 w3.
Proof.
  intros [o1 ->] [o2 ->]. exists (o1 ++ o2). simpl. rewrite app_assoc.
  reflexivity.
Qed.

Lemma printed_print line w : printed w (snd (print line w)).
Proof. exists [line]. reflexivity. Qed.

Lemma printed_fs w w' : printed w w' -> fs w' = fs w.
Proof. intros [o ->]. reflexivity. Qed.

Lemma printed_writes w w' : printed w w' -> writes w' = writes w.
Proof. intros [o ->]. reflexivity. Qed.

End SysFacts.

(** ** dedupe_sources.py *)
Module DedupeFacts.
Import Re ReSpec Groups PyFacts ReFacts GroupFacts Sys SysFacts.
Import DedupeSources DedupeSpec.

Lemma filter_seen_step (seen : gset text) k (l : list (text * text)) :
  filter (fun e => key e ∉ {[k]} ∪ seen) l
  = filter (fun e => key e ∉ seen) (filter (fun e => key e <> k) l).
Proof.
  rewrite list_filter_filter. apply list_filter_iff.
  intros e. rewrite not_elem_of_union, not_elem_of_singleton. tauto.
Qed.

Lemma filter_seen_skip (seen : gset text) k (l : list (text * text)) :
  k ∈ seen ->
  filter (fun e => key e ∉ seen) (filter (fun e => key e <> k) l)
  = filter (fun e => key e ∉ seen) l.
Proof.
  intros Hk. rewrite list_filter_filter. apply list_filter_iff.
  intros e. split; [tauto|]. intros H. split; [exact H|]. congruence.
Qed.

Lemma loop_body_run e v w :
  loop_body e v w =
  if decide (key e ∈ seen_files v)
  then (Ok (mkVars (seen_files v) (unique_entries v) (S (duplicates_removed v))),
        mkWorld (fs w) (stdout w ++ [T "  Removing duplicate: " ++ key e])
                (writes w) (urandom w) (drawn w))
  else (Ok (mkVars ({[key e]} ∪ seen_files v) (unique_entries v ++ [e])
                   (duplicates_removed v)), w).
Proof.
  destruct e as [uuid name]. unfold loop_body, key. simpl.
  destruct (decide (filename_of name ∈ seen_files v)) as [Hin|Hnin].
  - rewrite bool_decide_eq_false_2 by (intros H; apply H, Hin). reflexivity.
  - rewrite bool_decide_eq_true_2 by exact Hnin. reflexivity.
Qed.

(** The loop computes the first occurrences; it only prints. *)
Lemma loop_run entries : forall v w,
  exists v' w',
    for_each entries loop_body v w = (Ok v', w') /\ printed w w' /\
    unique_entries v' =
      unique_entries v
      ++ filter (fun e => key e ∉ seen_files v) (first_occurrences entries) /\
    duplicates_removed v' + length (unique_entries v') =
      duplicates_removed v + length (unique_entries v) + length entries.
Proof.
  induction entries as [|e entries IH]; intros v w.
  - exists v, w. simpl. rewrite app_nil_r.
    repeat split; [apply printed_refl|lia].
  - change (for_each (e :: entries) loop_body v w)
      with (bind (loop_body e v) (for_each entries loop_body) w).
    unfold bind. rewrite loop_body_run. simpl first_occurrences.
    rewrite filter_cons.
    destruct (decide (key e ∈ seen_files v)) as [Hin|Hnin].
    + match goal with |- context [for_each entries loop_body ?v1 ?w1] =>
        destruct (IH v1 w1) as (v' & w' & -> & Hp & Hu & Hd) end.
      exists v', w'. simpl in *. repeat split.
      * eapply printed_trans; [|exact Hp]. eexists. reflexivity.
      * rewrite Hu. f_equal.
        destruct (decide (key e ∉ seen_files v)) as [H|_];
          [exfalso; apply H, Hin|].
        symmetry. apply filter_seen_skip. exact Hin.
      * lia.
    + match goal with |- context [for_each entries loop_body ?v1 ?w1] =>
        destruct (IH v1 w1) as (v' & w' & -> & Hp & Hu & Hd) end.
      exists v', w'. simpl in *. repeat split.
      * exact Hp.
      * rewrite Hu, <- app_assoc. f_equal.
        destruct (decide (key e ∉ seen_files v)) as [_|H];
          [|exfalso; apply H, Hnin].
        simpl. f_equal. apply filter_seen_step.
      * rewrite length_app in Hd. simpl in Hd. lia.
Qed.

Lemma filter_not_in_empty (seen : gset text) (l : list (text * text)) :
  seen = ∅ -> filter (fun e => key e ∉ seen) l = l.
Proof.
  intros ->. induction l as [|e l IH]; [reflexivity|].
  rewrite filter_cons. destruct (decide (key e ∉ (∅ : gset text))) as [_|H].
  - f_equal. exact IH.
  - exfalso. apply H, not_elem_of_empty.
Qed.

(** What a run of [deduplicate_sources] does to the world. *)
Lemma dedupe_run w content :
  fs w !! PROJECT_PATH = Some content ->
  match search sources_re content with
  | None =>
      exists out,
        deduplicate_sources w =
        (Ok tt, mkWorld (fs w) (stdout w ++ out) (writes w) (urandom w) (drawn w))
  | Some mt =>
      exists out,
        deduplicate_sources w =
        (Ok tt, mkWorld (<[PROJECT_PATH := rebuilt content mt]> (fs w))
                        (stdout w ++ out) (writes w ++ [PROJECT_PATH])
                        (urandom w) (drawn w))
  end.
Proof.
  intros Hfs.
  destruct (search sources_re content) as [mt|] eqn:Es;
    unfold deduplicate_sources, read_project;
    (unfold bind at 1); unfold read_file; rewrite Hfs, Es.
  - unfold bind at 1. unfold print at 1. unfold bind at 1.
    match goal with |- context [for_each ?es loop_body ?v1 ?w1] =>
      destruct (loop_run es v1 w1) as (v' & w' & E & [o Hp] & Hu & Hd) end.
    rewrite E. subst w'.
    cbn [seen_files unique_entries app] in Hu.
    rewrite filter_not_in_empty in Hu by reflexivity.
    unfold bind, print, write_project, write_file, ret.
    cbn [fs stdout writes urandom drawn].
    eexists. f_equal. f_equal.
    + unfold rebuilt. rewrite Hu, <- !app_assoc. reflexivity.
    + rewrite <- !app_assoc. reflexivity.
  - unfold print. eexists. reflexivity.
Qed.

End DedupeFacts.

(** ** First occurrences *)
Module FirstFacts.
Import DedupeSpec.

Lemma first_occurrences_sublist l : first_occurrences l `sublist_of` l.
Proof.
  induction l as [|e l IH]; simpl; [constructor|].
  apply sublist_skip. etrans; [apply sublist_filter|exact IH].
Qed.

Lemma NoDup_keys_filter (P : text * text -> Prop) `{!forall e, Decision (P e)} l :
  NoDup (key <$> l) -> NoDup (key <$> filter P l).
Proof.
  induction l as [|e l IH]; simpl; [done|].
  rewrite NoDup_cons. intros [Hn Hd]. rewrite filter_cons.
  destruct (decide (P e)); [|auto].
  simpl. rewrite NoDup_cons. split; [|auto].
  rewrite list_elem_of_fmap. intros (e' & Hk & He').
  apply list_elem_of_filter in He' as [_ He'].
  apply Hn. rewrite list_elem_of_fmap. eauto.
Qed.

Lemma first_occurrences_NoDup l : NoDup (key <$> first_occurrences l).
Proof.
  induction l as [|e l IH]; simpl; [constructor|].
  rewrite NoDup_cons. split.
  - rewrite list_elem_of_fmap. intros (e' & Hk & He').
    apply list_elem_of_filter in He' as [Hne _]. congruence.
  - apply NoDup_keys_filter, IH.
Qed.

(** An entry is kept exactly when it stands in the list with no entry of
    its name before it. *)
Lemma first_occurrences_elem e l :
  e ∈ first_occurrences l <->
  exists l1 l2, l = l1 ++ e :: l2 /\ key e ∉ (key <$> l1).
Proof.
  induction l as [|a l IH]; simpl.
  - split; [intros H; inversion H|].
    intros (l1 & l2 & E & _). destruct l1; discriminate.
  - rewrite elem_of_cons, list_elem_of_filter, IH. split.
    + intros [->|[Hne (l1 & l2 & -> & Hk)]].
      * exists [], l. split; [reflexivity|]. simpl. apply not_elem_of_nil.
      * exists (a :: l1), l2. split; [reflexivity|].
        simpl. rewrite not_elem_of_cons. auto.
    + intros (l1 & l2 & E & Hk). destruct l1 as [|b l1]; simpl in *.
      * inversion E; subst. auto.
      * inversion E; subst. apply not_elem_of_cons in Hk as [Hne Hk].
        right. split; [exact Hne|]. eauto.
Qed.

End FirstFacts.

(** ** dedupe_sources.py: what a run keeps and what it leaves alone *)
Section DedupeClaims.
Import Re ReSpec Groups PyFacts ReFacts GroupFacts Sys SysFacts.
Import DedupeSources DedupeSpec DedupeFacts FirstFacts.

(** The pattern of the Sources block is three adjacent groups: the block up
    to the opening parenthesis of [files], the list, the closing [);]. *)
Lemma sources_tiling content mt :
  search sources_re content = Some mt ->
  exists pre g1 g2 g3 post h,
    content = pre ++ g1 ++ g2 ++ g3 ++ post /\
    start mt 0 = length pre /\
    end_ mt 0 = length (pre ++ g1 ++ g2 ++ g3) /\
    group content mt 1 = g1 /\ group content mt 2 = g2 /\
    group content mt 3 = g3 /\
    g1 = h ++ T "files = (" /\ g3 = T ");" /\
    g2 <> [] /\ all_in (mkSet true [COne ")"]) g2.
Proof.
  intros H. unfold sources_re in H.
  apply search_three_groups in H as (pre & x1 & x2 & x3 & post & Ht);
    [|reflexivity..].
  destruct Ht.
  exists pre, x1, x2, x3, post.
  apply matches_Lit_inv in t_match6 as [-> _].
  apply matches_Seq_inv in t_match5 as (c & y & ? & ? & -> & _ & Hc & Hy).
  apply matches_Cls_inv in Hc as (c0 & -> & Hc0 & _).
  apply matches_Star_inv in Hy as [Hy _].
  apply matches_Seq_inv in t_match4 as (a1 & r1 & ? & ? & -> & _ & _ & H1).
  apply matches_Seq_inv in H1 as (a2 & r2 & ? & ? & -> & _ & _ & H2).
  apply matches_Seq_inv in H2 as (a3 & r3 & ? & ? & -> & _ & _ & H3).
  apply matches_Seq_inv in H3 as (a4 & r4 & ? & ? & -> & _ & _ & H4).
  apply matches_Lit_inv in H4 as [-> _].
  exists (a1 ++ a2 ++ a3 ++ a4).
  repeat split; try assumption.
  - rewrite t_end0, !length_app. simpl. lia.
  - rewrite <- !app_assoc. reflexivity.
  - discriminate.
  - constructor; assumption.
Qed.

(** C10. [deduplicate_sources] has a frame: when the Sources block is
    found, the text written is the text read with the files list, between
    [files = (] and [);], replaced; everything before the block, the
    block up to the list, the closing of the list and everything after it
    are kept as they are, and no other file is touched.  When no block is
    found nothing is written. *)
Theorem C10_deduplicate_frame (w : World) content :
  fs w !! PROJECT_PATH = Some content ->
  let w' := snd (deduplicate_sources w) in
  match search sources_re content with
  | None => fs w' = fs w /\ writes w' = writes w
  | Some mt =>
      exists before head files_list after new_files,
        content = before ++ (head ++ T "files = (") ++ files_list
                  ++ T ");" ++ after /\
        length before = start mt 0 /\
        length after = length content - end_ mt 0 /\
        fs w' = <[PROJECT_PATH :=
                    before ++ (head ++ T "files = (") ++ new_files
                    ++ T ");" ++ after]> (fs w) /\
        writes w' = writes w ++ [PROJECT_PATH]
  end.
Proof.
  intros Hfs w'. subst w'.
  pose proof (dedupe_run w content Hfs) as Hrun.
  destruct (search sources_re content) as [mt|] eqn:Hs.
  - destruct Hrun as [out ->]. simpl.
    destruct (sources_tiling _ _ Hs)
      as (pre & g1 & g2 & g3 & post & h & E & Hst & Hen & H1 & H2 & H3
          & -> & -> & _ & _).
    exists pre, h, g2, post. eexists.
    split; [exact E|]. split; [symmetry; exact Hst|].
    split.
    { rewrite Hen, E, !length_app. simpl. lia. }
    split; [|reflexivity].
    f_equal. unfold rebuilt. rewrite H1, H3, Hst, Hen.
    rewrite E at 1. rewrite take_app_length.
    replace content with ((pre ++ (h ++ T "files = (") ++ g2 ++ T ");") ++ post)
      by (rewrite E, <- !app_assoc; reflexivity).
    rewrite drop_app_length. reflexivity.
  - destruct Hrun as [out ->]. simpl. split; reflexivity.
Qed.

End DedupeClaims.

Import Sample.

Lemma C10_witness :
  Sys.fs world_dup !! DedupeSources.PROJECT_PATH = Some Sample.with_duplicate /\
  let w' := snd (DedupeSources.deduplicate_sources world_dup) in
  match Re.search DedupeSources.sources_re Sample.with_duplicate with
  | None => Sys.fs w' = Sys.fs world_dup /\ Sys.writes w' = Sys.writes world_dup
  | Some mt =>
      exists before head files_list after new_files,
        Sample.with_duplicate =
          before ++ (head ++ T "files = (") ++ files_list ++ T ");" ++ after /\
        length before = Re.start mt 0 /\
        length after = length Sample.with_duplicate - Re.end_ mt 0 /\
        Sys.fs w' = <[DedupeSources.PROJECT_PATH :=
                        before ++ (head ++ T "files = (") ++ new_files
                        ++ T ");" ++ after]> (Sys.fs world_dup) /\
        Sys.writes w' = Sys.writes world_dup ++ [DedupeSources.PROJECT_PATH]
  end.
Proof.
  assert (H1 : Sys.fs world_dup !! DedupeSources.PROJECT_PATH
               = Some Sample.with_duplicate) by (vm_compute; reflexivity).
  split; [exact H1|].
  exact (C10_deduplicate_frame world_dup Sample.with_duplicate H1).
Defined.

(** ** Reading back a rendered files list *)
Module EntryFacts.
Import Re ReSpec Groups PyFacts ReFacts GroupFacts.
Import DedupeSources DedupeSpec EntrySpec.

Lemma entry_re_eq :
  entry_re =
  Seq (Star tabsp)
    (Seq (Grp (Rep 24 hexAF))
       (Seq (Lit (T " /* "))
          (Seq (Grp (Seq (Cls notstar) (Star notstar)))
             (Seq (Lit (T " */")) (Opt (single ",")))))).
Proof. reflexivity. Qed.

Lemma hex_not_tabsp c : mem hexAF c = true -> mem tabsp c = false.
Proof.
  destruct c as [[] [] [] [] [] [] [] []]; vm_compute; congruence.
Qed.

Lemma match_at_entry uuid name rest i :
  wf_entry (uuid, name) ->
  match_at entry_re
    ([TAB; TAB; TAB; TAB] ++ uuid ++ T " /* " ++ name ++ T " */," ++ rest) i
  = Some (mkMatch i (i + 36 + length name)
                  [(i + 4, i + 28); (i + 32, i + 32 + length name)]).
Proof.
  intros (Hlen & Hhex & Hne & Hns). simpl in *.
  unfold match_at. rewrite entry_re_eq. cbn [run].
  apply (star_greedy_app tabsp _ [TAB; TAB; TAB; TAB]);
    [repeat constructor|].
  destruct uuid as [|c uuid]; [discriminate|].
  assert (Hc : mem tabsp c = false)
    by (apply hex_not_tabsp; inversion Hhex; assumption).
  change ((c :: uuid) ++ ?s) with (c :: uuid ++ s).
  cbn [app]. rewrite star_greedy_stop by exact Hc.
  change (c :: uuid ++ ?s) with ((c :: uuid) ++ s).
  rewrite rep_app by assumption.
  change (" "%char :: "/"%char :: "*"%char :: " "%char :: ?s)
    with (T " /* " ++ s).
  rewrite strip_prefix_app.
  destruct name as [|d name]; [congruence|].
  inversion Hns as [|? ? Hd Hns']; subst. cbn [app]. rewrite Hd.
  apply (star_greedy_app notstar _ name); [exact Hns'|].
  simpl.

  f_equal. f_equal; [lia|].
  f_equal; [f_equal; lia|]. f_equal. f_equal; lia.
Qed.

Section ScanFacts.
Context {B : Type} (r : re) (emit : Match -> list B) (keep : ascii -> list B).

(** Passing over the characters of the last match. *)
Lemma scan_skip x y i :
  scan r emit keep (x ++ y) i (length x) = scan r emit keep y (i + length x) 0.
Proof.
  revert i. induction x as [|c x IH]; intros i; simpl.
  - rewrite Nat.add_0_r. reflexivity.
  - rewrite IH. f_equal. lia.
Qed.

Lemma scan_match c s i mt :
  match_at r (c :: s) i = Some mt -> m_end mt <> i ->
  scan r emit keep (c :: s) i 0
  = emit mt ++ scan r emit keep s (S i) (m_end mt - i - 1).
Proof.
  intros H Hne. simpl. rewrite H.
  destruct (m_end mt =? i) eqn:E; [apply Nat.eqb_eq in E; contradiction|].
  reflexivity.
Qed.

Lemma scan_no_match c s i :
  match_at r (c :: s) i = None ->
  scan r emit keep (c :: s) i 0 = keep c ++ scan r emit keep s (S i) 0.
Proof. intros H. simpl. rewrite H. reflexivity. Qed.
End ScanFacts.

Lemma match_at_newline s i : match_at entry_re (NL :: s) i = None.
Proof. reflexivity. Qed.

Lemma scan_tail {B} (emit : Match -> list B) i :
  scan entry_re emit (fun _ => []) [TAB; TAB; TAB] i 0 = [].
Proof. reflexivity. Qed.

(** The entries of rendered lines are read back as they were written. *)
Lemma scan_lines entries : forall pre,
  Forall wf_entry entries ->
  let content := pre ++ lines entries ++ [TAB; TAB; TAB] in
  scan entry_re (fun mt => [(group content mt 1, group content mt 2)])
       (fun _ => []) (lines entries ++ [TAB; TAB; TAB]) (length pre) 0
  = entries.
Proof.
  induction entries as [|[uuid name] entries IH]; intros pre Hwf content.
  - apply scan_tail.
  - inversion Hwf as [|? ? He Hwf']; subst.
    pose proof He as (Hlen & _ & _ & _). simpl in Hlen.
    set (rest := NL :: lines entries ++ [TAB; TAB; TAB]).
    assert (Es : lines ((uuid, name) :: entries) ++ [TAB; TAB; TAB]
                 = TAB :: ([TAB; TAB; TAB] ++ uuid ++ T " /* " ++ name ++ T " */,")
                          ++ rest).
    { unfold lines, rest, entry_line. simpl. rewrite <- !app_assoc.
      simpl. rewrite <- !app_assoc. reflexivity. }
    assert (Em : match_at entry_re
                   (TAB :: ([TAB; TAB; TAB] ++ uuid ++ T " /* " ++ name ++ T " */,")
                           ++ rest) (length pre)
                 = Some (mkMatch (length pre) (length pre + 36 + length name)
                           [(length pre + 4, length pre + 28);
                            (length pre + 32, length pre + 32 + length name)])).
    { rewrite <- (match_at_entry uuid name rest (length pre) He).
      f_equal. cbn [app]. rewrite <- ?app_assoc. cbn [app].
      rewrite <- ?app_assoc. reflexivity. }
    rewrite Es, (scan_match _ _ _ _ _ _ _ Em) by (simpl; lia).
    cbn [m_end].
    replace (length pre + 36 + length name - length pre - 1)
      with (length ([TAB; TAB; TAB] ++ uuid ++ T " /* " ++ name ++ T " */,"))
      by (rewrite !length_app; simpl; lia).
    rewrite scan_skip. unfold rest at 1.
    rewrite scan_no_match by apply match_at_newline.
    cbn [app]. f_equal.
    + assert (Ec : content
                   = (pre ++ [TAB; TAB; TAB; TAB]) ++ uuid
                     ++ (T " /* " ++ name ++ T " */," ++ rest)).
      { unfold content. rewrite Es. rewrite <- !app_assoc. reflexivity. }
      assert (Ec' : content
                    = (pre ++ [TAB; TAB; TAB; TAB] ++ uuid ++ T " /* ") ++ name
                      ++ (T " */," ++ rest)).
      { unfold content. rewrite Es. rewrite <- !app_assoc. reflexivity. }
      unfold group, start, end_, span_of. cbn [m_spans nth fst snd]. f_equal.
      * rewrite Ec. apply slice_middle; rewrite !length_app; simpl; lia.
      * rewrite Ec'. apply slice_middle; rewrite !length_app; simpl; lia.
    + specialize (IH (pre ++ entry_line (uuid, name)) Hwf').
      cbn zeta in IH.
      replace ((pre ++ entry_line (uuid, name)) ++ lines entries ++ [TAB; TAB; TAB])
        with content in IH.
      2:{ unfold content, lines. cbn [map concat].
          rewrite <- !app_assoc. reflexivity. }
      etrans; [|exact IH]. f_equal.
      unfold entry_line. cbn [fst snd].
      repeat first [rewrite !length_app | progress simpl]. lia.
Qed.

(** [re.findall] on a rendered files list gives the entries rendered. *)
Lemma findall_render entries :
  Forall wf_entry entries ->
  findall2 entry_re (render_files entries) = entries.
Proof.
  intros Hwf. unfold findall2, render_files.
  change ([NL] ++ concat (map entry_line entries) ++ [TAB; TAB; TAB])
    with (NL :: lines entries ++ [TAB; TAB; TAB]).
  rewrite scan_no_match by apply match_at_newline.
  exact (scan_lines entries [NL] Hwf).
Qed.

(** Every pair [re.findall] answers comes from a match of the pattern
    inside the subject. *)
Lemma scan_sound r content s : forall i skip pre e,
  content = pre ++ s -> i = length pre ->
  e ∈ scan r (fun mt => [(group content mt 1, group content mt 2)])
           (fun _ => []) s i skip ->
  exists mt, match_of r content mt
             /\ e = (group content mt 1, group content mt 2).
Proof.
  assert (Hat : forall s i pre mt e,
    content = pre ++ s -> i = length pre -> match_at r s i = Some mt ->
    e ∈ [(group content mt 1, group content mt 2)] ->
    exists mt, match_of r content mt
               /\ e = (group content mt 1, group content mt 2)).
  { intros s0 i pre mt e -> -> Hm He.
    apply list_elem_of_singleton in He.
    apply match_at_sound in Hm as (x & s' & -> & Hs & Hen & Hm).
    exists mt. split; [|exact He]. exists pre, x, s'. auto. }
  induction s as [|c s IH]; intros i skip pre e Hc Hi He; simpl in He.
  - destruct skip; [|inversion He].
    destruct (match_at r [] i) as [mt|] eqn:Em; [|inversion He]. eauto.
  - destruct skip as [|n].
    + destruct (match_at r (c :: s) i) as [mt|] eqn:Em.
      * destruct (m_end mt =? i);
          cbn [app] in He; apply elem_of_cons in He as [->|He];
          try (eapply Hat; [exact Hc|exact Hi|exact Em|apply list_elem_of_here]);
          (eapply (IH (S i) _ (pre ++ [c])); [| |exact He];
           [rewrite Hc, <- app_assoc; reflexivity
           |rewrite length_app; simpl; lia]).
      * cbn [app] in He.
        eapply (IH (S i) _ (pre ++ [c])); [| |exact He];
          [rewrite Hc, <- app_assoc; reflexivity
          |rewrite length_app; simpl; lia].
    + eapply (IH (S i) _ (pre ++ [c])); [| |exact He];
        [rewrite Hc, <- app_assoc; reflexivity
        |rewrite length_app; simpl; lia].
Qed.

Lemma findall2_sound r content e :
  e ∈ findall2 r content ->
  exists mt, match_of r content mt
             /\ e = (group content mt 1, group content mt 2).
Proof. intros H. eapply (scan_sound r content content 0 0 []); eauto. Qed.

(** What [entry_re] captures: a well-formed entry whose name stands in the
    subject. *)
Lemma findall_entries content e :
  e ∈ findall2 entry_re content ->
  wf_entry e /\ exists pre post, content = pre ++ snd e ++ post.
Proof.
  intros H. apply findall2_sound in H as (mt & (pre & x & post & Ec & Hs & He & Hm) & ->).
  rewrite entry_re_eq in Hm.
  apply matches_Seq_inv in Hm as (t & x1 & ? & g1 & -> & Hg & Ht & Hm).
  apply matches_Star_inv in Ht as [_ ->].
  apply matches_Seq_inv in Hm as (u & x2 & ? & g2 & -> & -> & Hu & Hm).
  apply matches_Grp_inv in Hu as (? & -> & Hu).
  apply matches_Rep_inv in Hu as (Hlen & Hhex & ->).
  apply matches_Seq_inv in Hm as (l1 & x3 & ? & g3 & -> & -> & Hl1 & Hm).
  apply matches_Lit_inv in Hl1 as [-> ->].
  apply matches_Seq_inv in Hm as (n & x4 & ? & g4 & -> & -> & Hn & Hm).
  apply matches_Grp_inv in Hn as (? & -> & Hn).
  apply matches_Seq_inv in Hn as (n1 & n2 & ? & ? & -> & -> & Hn1 & Hn2).
  apply matches_Cls_inv in Hn1 as (d & -> & Hd & ->).
  apply matches_Star_inv in Hn2 as [Hn2 ->].
  apply matches_Seq_inv in Hm as (l2 & x5 & ? & ? & -> & -> & Hl2 & Hm).
  apply matches_Lit_inv in Hl2 as [-> ->].
  apply matches_Opt_inv in Hm as [_ ->].
  simpl in Hg.
  assert (E1 : group content mt 1 = u).
  { unfold group, start, end_, span_of. rewrite Hg. cbn [nth fst snd].
    rewrite Ec.
    replace (pre ++ (t ++ u ++ T " /* " ++ ([d] ++ n2) ++ T " */" ++ x5) ++ post)
      with ((pre ++ t) ++ u ++ (T " /* " ++ ([d] ++ n2) ++ T " */" ++ x5) ++ post)
      by (rewrite <- !app_assoc; reflexivity).
    apply slice_middle; rewrite !length_app; lia. }
  assert (E2 : group content mt 2 = d :: n2).
  { unfold group, start, end_, span_of. rewrite Hg. cbn [nth fst snd].
    rewrite Ec.
    replace (pre ++ (t ++ u ++ T " /* " ++ ([d] ++ n2) ++ T " */" ++ x5) ++ post)
      with ((pre ++ t ++ u ++ T " /* ") ++ (d :: n2) ++ (T " */" ++ x5) ++ post)
      by (rewrite <- !app_assoc; reflexivity).
    apply slice_middle; repeat first [rewrite !length_app | progress simpl]; lia. }
  rewrite E1, E2. split.
  - repeat split; simpl; [exact Hlen|exact Hhex|discriminate|].
    constructor; assumption.
  - exists (pre ++ t ++ u ++ T " /* "), ((T " */" ++ x5) ++ post).
    rewrite Ec. cbn [snd]. rewrite <- !app_assoc. reflexivity.
Qed.

End EntryFacts.

(** ** First occurrences of display names *)
Module MembershipFacts.
Import Py PyFacts Re ReSpec DedupeSources DedupeSpec EntrySpec MembershipSpec.

















End MembershipFacts.




(** ** Running [deduplicate_sources] again *)
Section DedupeRoundTrip.
Import Re ReSpec Groups PyFacts ReFacts GroupFacts Sys SysFacts.
Import DedupeSources DedupeSpec DedupeFacts FirstFacts EntrySpec EntryFacts.

Lemma filter_all {A} (P : A -> Prop) `{!forall x, Decision (P x)} (l : list A) :
  Forall P l -> filter P l = l.
Proof.
  induction 1 as [|x l Hx _ IH]; [reflexivity|].
  rewrite filter_cons, decide_True by exact Hx. f_equal. exact IH.
Qed.

(** A list without repeated names is its own list of first occurrences. *)
Lemma first_occurrences_id l :
  NoDup (key <$> l) -> first_occurrences l = l.
Proof.
  induction l as [|e l IH]; simpl; [reflexivity|].
  rewrite NoDup_cons. intros [Hn Hd]. rewrite (IH Hd). f_equal.
  apply filter_all. apply Forall_forall. intros e' He' E.
  apply Hn. rewrite <- E. apply list_elem_of_fmap. eauto.
Qed.

(** Rebuilding the list from itself gives the manifest back. *)
Lemma rebuilt_same content mt :
  search sources_re content = Some mt ->
  render_files (first_occurrences (findall2 entry_re (group content mt 2)))
  = group content mt 2 ->
  rebuilt content mt = content.
Proof.
  intros Hs Hr.
  destruct (sources_tiling _ _ Hs)
    as (pre & g1 & g2 & g3 & post & h & E & Hst & Hen & H1 & H2 & H3 & _).
  unfold rebuilt. rewrite Hr, H1, H2, H3, Hst, Hen.
  rewrite E at 1. rewrite take_app_length.
  replace content with ((pre ++ g1 ++ g2 ++ g3) ++ post) at 1
    by (rewrite E, <- !app_assoc; reflexivity).
  rewrite drop_app_length. symmetry. exact E.
Qed.

(** C4, as the code has it.  A run of [deduplicate_sources] that finds the
    files list in the layout it writes itself (a newline, one line per
    entry made of four tabs, an identifier of 24 characters among
    [A-F0-9], the name as a comment, a comma and a newline, then three
    tabs) with no file name repeated leaves every file as it was: the text
    written is the text read. *)
Theorem C4_roundtrip_on_canonical_list (w : World) content mt entries :
  fs w !! PROJECT_PATH = Some content ->
  search sources_re content = Some mt ->
  group content mt 2 = render_files entries ->
  Forall wf_entry entries ->
  NoDup (key <$> entries) ->
  fs (snd (deduplicate_sources w)) = fs w.
Proof.
  intros Hfs Hs Hg Hwf Hnd.
  pose proof (dedupe_run w content Hfs) as Hrun. rewrite Hs in Hrun.
  destruct Hrun as [out ->]. simpl.
  rewrite rebuilt_same; [apply insert_id; exact Hfs|exact Hs|].
  rewrite Hg, findall_render, first_occurrences_id by assumption.
  reflexivity.
Qed.

Lemma hex_notparen c : mem hexAF c = true -> mem notparen c = true.
Proof.
  destruct c as [[] [] [] [] [] [] [] []]; vm_compute; congruence.
Qed.

Lemma all_in_app p x y : all_in p (x ++ y) <-> all_in p x /\ all_in p y.
Proof. apply Forall_app. Qed.

(** A rendered list has no closing parenthesis when its entries have
    none. *)
Lemma render_notparen entries :
  Forall (fun e => all_in notparen (fst e) /\ all_in notparen (snd e)) entries ->
  all_in notparen (render_files entries).
Proof.
  intros H. unfold render_files.
  apply all_in_app. split; [repeat constructor|].
  apply all_in_app. split; [|repeat constructor].
  induction H as [|e es [H1 H2] _ IH]; cbn [map concat]; [constructor|].
  apply all_in_app. split; [|exact IH].
  unfold entry_line.
  apply all_in_app; split; [repeat constructor|].
  apply all_in_app; split; [exact H1|].
  apply all_in_app; split; [repeat constructor|].
  apply all_in_app; split; [exact H2|].
  repeat constructor.
Qed.

(** Two texts without a closing parenthesis that are each followed by one
    in the same text are equal. *)
Lemma before_paren a b r r' :
  all_in notparen a -> all_in notparen b ->
  a ++ ")"%char :: r = b ++ ")"%char :: r' -> a = b.
Proof.
  revert b. induction a as [|x a IH]; intros [|y b] Ha Hb E; simpl in E.
  - reflexivity.
  - inversion E; subst. inversion Hb as [|? ? Hy _]. discriminate Hy.
  - inversion E; subst. inversion Ha as [|? ? Hx _]. discriminate Hx.
  - inversion E; subst. inversion Ha; inversion Hb; subst.
    f_equal. eapply IH; eassumption.
Qed.

(** The entries kept from a list without closing parenthesis. *)
Lemma kept_entries g2 e :
  all_in notparen g2 ->
  e ∈ first_occurrences (findall2 entry_re g2) ->
  wf_entry e /\ all_in notparen (fst e) /\ all_in notparen (snd e).
Proof.
  intros Hg He.
  apply first_occurrences_elem in He as (l1 & l2 & E & _).
  assert (Hin : e ∈ findall2 entry_re g2)
    by (rewrite E; apply elem_of_app; right; apply list_elem_of_here).
  apply findall_entries in Hin as [Hwf (pre & post & Eg)].
  split; [exact Hwf|]. split.
  - destruct Hwf as (_ & Hhex & _).
    eapply Forall_impl; [exact Hhex|]. apply hex_notparen.
  - rewrite Eg in Hg. apply all_in_app in Hg as [_ Hg].
    apply all_in_app in Hg as [Hg _]. exact Hg.
Qed.

(** C8, as the code has it.  Running [deduplicate_sources] a second time
    changes nothing, provided the second run finds the Sources block where
    the first run left it: at the same index and with the same text up to
    the opening parenthesis of [files]. *)
Theorem C8_deduplicate_twice (w : World) content mt1 mt2 :
  fs w !! PROJECT_PATH = Some content ->
  search sources_re content = Some mt1 ->
  let w1 := snd (deduplicate_sources w) in
  search sources_re (rebuilt content mt1) = Some mt2 ->
  start mt2 0 = start mt1 0 ->
  group (rebuilt content mt1) mt2 1 = group content mt1 1 ->
  fs w1 !! PROJECT_PATH = Some (rebuilt content mt1) /\
  fs (snd (deduplicate_sources w1)) = fs w1.
Proof.
  intros Hfs Hs1 w1 Hs2 Hstart Hgroup.
  pose proof (dedupe_run w content Hfs) as Hrun. rewrite Hs1 in Hrun.
  destruct Hrun as [out1 Hrun].
  assert (Hfs1 : fs w1 !! PROJECT_PATH = Some (rebuilt content mt1)).
  { unfold w1. rewrite Hrun. simpl. apply lookup_insert_eq. }
  split; [exact Hfs1|].
  pose proof (dedupe_run w1 _ Hfs1) as Hrun2. rewrite Hs2 in Hrun2.
  destruct Hrun2 as [out2 ->]. simpl.
  rewrite rebuilt_same; [apply insert_id; exact Hfs1|exact Hs2|].
  (* the first run's block and what it wrote *)
  destruct (sources_tiling _ _ Hs1)
    as (pre & g1 & g2 & g3 & post & h & E & Hst & Hen & H1 & H2 & H3
        & Eg1 & -> & _ & Hnp).
  set (kept := first_occurrences (findall2 entry_re g2)).
  assert (Eout : rebuilt content mt1
                 = pre ++ g1 ++ render_files kept ++ T ");" ++ post).
  { unfold rebuilt. rewrite H1, H2, H3, Hst, Hen.
    rewrite E at 1. rewrite take_app_length.
    replace content with ((pre ++ g1 ++ g2 ++ T ");") ++ post)
      by (rewrite E, <- !app_assoc; reflexivity).
    rewrite drop_app_length. reflexivity. }
  assert (Hkept : Forall (fun e => wf_entry e /\ all_in notparen (fst e)
                                   /\ all_in notparen (snd e)) kept).
  { apply Forall_forall. intros e He. eapply kept_entries; eassumption. }
  (* the second run's block *)
  destruct (sources_tiling _ _ Hs2)
    as (pre' & g1' & g2' & g3' & post' & h' & E' & Hst' & Hen' & H1' & H2' & H3'
        & _ & -> & _ & Hnp').
  rewrite H2'.
  assert (Epre : pre' = pre).
  { rewrite Eout in E'. apply app_inj_1 in E' as [E' _]; [congruence|].
    rewrite <- Hst, <- Hst'. symmetry. exact Hstart. }
  subst pre'.
  assert (Eg : g1' = g1) by (rewrite <- H1', <- H1; exact Hgroup).
  subst g1'.
  assert (Elist : g2' = render_files kept).
  { rewrite Eg, Eout in E'.
    apply app_inv_head in E'. apply app_inv_head in E'.
    symmetry. eapply before_paren; [| |exact E'].
    - apply render_notparen. eapply Forall_impl; [exact Hkept|].
      intros e (_ & ? & ?). auto.
    - exact Hnp'. }
  rewrite Elist, findall_render.
  - rewrite first_occurrences_id; [reflexivity|].
    apply first_occurrences_NoDup.
  - eapply Forall_impl; [exact Hkept|]. intros e (? & _). assumption.
Qed.

End DedupeRoundTrip.

Lemma C4_witness :
  let entries := [(idB, T "A.swift in Sources")] in
  Sys.fs world_one !! DedupeSources.PROJECT_PATH = Some (one_file (T "A.swift")) /\
  Re.search DedupeSources.sources_re (one_file (T "A.swift")) = Some match_one /\
  Re.group (one_file (T "A.swift")) match_one 2
    = DedupeSources.render_files entries /\
  Forall EntrySpec.wf_entry entries /\
  NoDup (DedupeSpec.key <$> entries) /\
  Sys.fs (snd (DedupeSources.deduplicate_sources world_one)) = Sys.fs world_one.
Proof.
  intros entries.
  assert (H1 : Sys.fs world_one !! DedupeSources.PROJECT_PATH
               = Some (one_file (T "A.swift"))) by (vm_compute; reflexivity).
  assert (H2 : Re.search DedupeSources.sources_re (one_file (T "A.swift"))
               = Some match_one) by (vm_compute; reflexivity).
  assert (H3 : Re.group (one_file (T "A.swift")) match_one 2
               = DedupeSources.render_files entries) by (vm_compute; reflexivity).
  assert (H4 : Forall EntrySpec.wf_entry entries).
  { repeat constructor; simpl; try discriminate; reflexivity. }
  assert (H5 : NoDup (DedupeSpec.key <$> entries)).
  { apply NoDup_singleton. }
  split; [exact H1|]. split; [exact H2|]. split; [exact H3|].
  split; [exact H4|]. split; [exact H5|].
  exact (C4_roundtrip_on_canonical_list world_one _ _ entries H1 H2 H3 H4 H5).
Defined.

(** C4 as stated fails: on a manifest whose files list is indented by two
    tabs, a run that removes no duplicate still rewrites the file. *)
Lemma C4_counterexample :
  let w := world_of two_tab_list zeros in
  let w' := snd (DedupeSources.deduplicate_sources w) in
  [NL] ++ T "Removed 0 duplicate entries" ∈ Sys.stdout w' /\
  Sys.fs w' !! DedupeSources.PROJECT_PATH <> Some two_tab_list.
Proof.
  split.
  - vm_compute. apply list_elem_of_further, list_elem_of_here.
  - intros H. apply (f_equal (option_map length)) in H.
    vm_compute in H. discriminate H.
Qed.

Lemma C8_witness :
  let w := world_dup in
  let content := with_duplicate in
  let w1 := snd (DedupeSources.deduplicate_sources w) in
  Sys.fs w !! DedupeSources.PROJECT_PATH = Some content /\
  Re.search DedupeSources.sources_re content = Some match_dup /\
  Re.search DedupeSources.sources_re (DedupeSpec.rebuilt content match_dup)
    = Some match_dup_again /\
  Re.start match_dup_again 0 = Re.start match_dup 0 /\
  Re.group (DedupeSpec.rebuilt content match_dup) match_dup_again 1
    = Re.group content match_dup 1 /\
  Sys.fs w1 !! DedupeSources.PROJECT_PATH
    = Some (DedupeSpec.rebuilt content match_dup) /\
  Sys.fs (snd (DedupeSources.deduplicate_sources w1)) = Sys.fs w1.
Proof.
  intros w content w1.
  assert (H1 : Sys.fs w !! DedupeSources.PROJECT_PATH = Some content)
    by (vm_compute; reflexivity).
  assert (H2 : Re.search DedupeSources.sources_re content = Some match_dup)
    by (vm_compute; reflexivity).
  assert (H3 : Re.search DedupeSources.sources_re
                 (DedupeSpec.rebuilt content match_dup) = Some match_dup_again)
    by (vm_compute; reflexivity).
  assert (H4 : Re.start match_dup_again 0 = Re.start match_dup 0)
    by reflexivity.
  assert (H5 : Re.group (DedupeSpec.rebuilt content match_dup) match_dup_again 1
               = Re.group content match_dup 1) by (vm_compute; reflexivity).
  split; [exact H1|]. split; [exact H2|]. split; [exact H3|].
  split; [exact H4|]. split; [exact H5|].
  exact (C8_deduplicate_twice w content match_dup match_dup_again
           H1 H2 H3 H4 H5).
Defined.

(** C8 as stated fails: on a Sources block with a stray closing brace in
    its list and a name that spells [files = (], the first run drops the
    brace, the second run then takes the name for the start of the list
    and writes a different text. *)
Lemma C8_counterexample :
  let w := world_of stray_brace zeros in
  let w1 := snd (DedupeSources.deduplicate_sources w) in
  let w2 := snd (DedupeSources.deduplicate_sources w1) in
  Sys.fs w2 !! DedupeSources.PROJECT_PATH
  <> Sys.fs w1 !! DedupeSources.PROJECT_PATH.
Proof.
  intros w w1 w2 H. apply (f_equal (option_map length)) in H.
  vm_compute in H. discriminate H.
Qed.

(** ** The already-present check *)
Section AlreadyPresent.
Import PyFacts Sys.

(** C9. The check made before adding a file is a substring test over the
    whole manifest: when the file name occurs anywhere in the text, inside
    a comment or a longer name as well, add_presleeplog.py and
    fix_storage_scope.py insert nothing: they draw no identifier, write no
    file, and only print that the file is already there. *)
Theorem C9_substring_means_already_present (w : World) content filename
    folder_path rel_path :
  fs w !! AddPresleeplog.project_path = Some content ->
  (exists before after, content = before ++ filename ++ after) ->
  (filename = T "PreSleepLogView.swift" ->
   AddPresleeplog.add_file_to_project w =
   (Ok tt, mkWorld (fs w)
             (stdout w ++ [T "PreSleepLogView.swift already in project"])
             (writes w) (urandom w) (drawn w))) /\
  FixStorageScope.add_file_to_project filename folder_path rel_path w =
  (Ok tt, mkWorld (fs w)
            (stdout w ++ [T "Skipping " ++ filename ++ T ", already in project"])
            (writes w) (urandom w) (drawn w)).
Proof.
  intros Hfs Hsub. apply contains_spec in Hsub. split.
  - intros ->. unfold AddPresleeplog.add_file_to_project.
    unfold bind at 1. unfold read_file. rewrite Hfs, Hsub. reflexivity.
  - unfold FixStorageScope.add_file_to_project.
    unfold bind at 1. unfold read_file.
    change FixStorageScope.PROJECT_PATH with AddPresleeplog.project_path.
    rewrite Hfs, Hsub. reflexivity.
Qed.

End AlreadyPresent.

Lemma C9_witness :
  let w := world_of longer_name zeros in
  let filename := T "PreSleepLogView.swift" in
  Sys.fs w !! AddPresleeplog.project_path = Some longer_name /\
  (exists before after, longer_name = before ++ filename ++ after) /\
  (filename = T "PreSleepLogView.swift" ->
   AddPresleeplog.add_file_to_project w =
   (Sys.Ok tt, Sys.mkWorld (Sys.fs w)
             (Sys.stdout w ++ [T "PreSleepLogView.swift already in project"])
             (Sys.writes w) (Sys.urandom w) (Sys.drawn w))) /\
  FixStorageScope.add_file_to_project filename (T "Views") (T "Views/x") w =
  (Sys.Ok tt, Sys.mkWorld (Sys.fs w)
            (Sys.stdout w ++ [T "Skipping " ++ filename ++ T ", already in project"])
            (Sys.writes w) (Sys.urandom w) (Sys.drawn w)).
Proof.
  intros w filename.
  assert (H1 : Sys.fs w !! AddPresleeplog.project_path = Some longer_name)
    by (vm_compute; reflexivity).
  assert (H2 : exists before after, longer_name = before ++ filename ++ after)
    by (apply PyFacts.contains_spec; vm_compute; reflexivity).
  split; [exact H1|]. split; [exact H2|].
  exact (C9_substring_means_already_present w longer_name filename
           (T "Views") (T "Views/x") H1 H2).
Defined.

(** ** Atomicity of the mutations *)
Module AtomicFacts.
Import Sys AtomicSpec.























End AtomicFacts.

Module AtomicRuns.
Import Sys AtomicSpec AtomicFacts.





















End AtomicRuns.



(** A run that fails midway: the file is declared but not built, so
    [add_to_phase] goes on to build its record and reads [ref_section_end],
    which the branch taken never assigned.  The run raises after drawing an
    identifier and the manifest is as it was. *)
Example fix_all_missing_files_fails_midway :
  let w := world_of (declared_only (T "X.swift")) zeros in
  let run := FixAllMissingFiles.add_file_to_project
               (T "X.swift") (T "FullApp") (T "FullApp/X.swift") false w in
  fst run = Sys.Raise (Sys.NameError "ref_section_end") /\
  Sys.drawn (snd run) = 1 /\
  Sys.fs (snd run) = Sys.fs w /\ Sys.writes (snd run) = [].
Proof. vm_compute. repeat split. Qed.

(** ** clean_project.py *)
Module CleanFacts.
Import Re ReSpec PyFacts ReFacts EntrySpec EntryFacts Sys.
Import CleanProject CleanSpec.

Lemma patterns_compile :
  Forall (fun f => compile (build_file_pattern f) = Some (build_file_re f)
                   /\ compile (files_pattern f) = Some (files_re f))
         REMOVE_FROM_BUILD.
Proof. repeat constructor; vm_compute; reflexivity. Qed.

Lemma clean_body_run f content w :
  compile (build_file_pattern f) = Some (build_file_re f) ->
  compile (files_pattern f) = Some (files_re f) ->
  remove_body f content w = (Ok (strip content f), w).
Proof.
  intros H1 H2. unfold remove_body, re_remove, re_compile, compile in *.
  unfold bind. rewrite H1. simpl. rewrite H2. reflexivity.
Qed.

Lemma clean_loop_run files : forall content w,
  Forall (fun f => compile (build_file_pattern f) = Some (build_file_re f)
                   /\ compile (files_pattern f) = Some (files_re f)) files ->
  for_each files remove_body content w = (Ok (fold_left strip files content), w).
Proof.
  induction files as [|f files IH]; intros content w H; [reflexivity|].
  inversion H as [|? ? [H1 H2] H']; subst.
  change (for_each (f :: files) remove_body content w)
    with (bind (remove_body f content) (for_each files remove_body) w).
  unfold bind. rewrite clean_body_run by assumption. apply IH, H'.
Qed.

Section Removal.
Variable r : re.

Let erase := scan r (fun _ : Match => @nil ascii) (fun c => [c]).

(** Removing matches never lengthens the text. *)
Lemma erase_length s : forall i skip, length (erase s i skip) <= length s.
Proof.
  induction s as [|c s IH]; intros i skip; simpl.
  - destruct skip; [destruct (match_at r [] i)|]; simpl; lia.
  - destruct skip as [|n]; [|specialize (IH (S i) n); lia].
    destruct (match_at r (c :: s) i) as [mt|].
    + destruct (m_end mt =? i); simpl.
      * specialize (IH (S i) 0). lia.
      * specialize (IH (S i) (m_end mt - i - 1)). lia.
    + simpl. specialize (IH (S i) 0). lia.
Qed.


End Removal.



Lemma remove_length r s : length (remove r s) <= length s.
Proof. apply erase_length. Qed.








End CleanFacts.

(** ** What a removal cuts *)
Module RemovalFacts.
Import Re ReSpec PyFacts ReFacts EntrySpec CleanProject CleanSpec RemovalSpec.


Lemma erased_length P x y : erased P x y -> length y <= length x.
Proof.
  induction 1; simpl; [lia|lia|]. rewrite length_app. lia.
Qed.









Lemma only_removes_length P x y : only_removes P x y -> length y <= length x.
Proof.
  induction 1 as [|x y z H _ IH]; [lia|].
  apply erased_length in H. lia.
Qed.


End RemovalFacts.



(** A build record of a listed file that carries a dictionary of its own
    is not one of the pieces: the run leaves the declaration and the
    record and cuts only the line of the files list. *)
Lemma clean_project_keeps_flagged_record :
  let content := RemovalSpec.listed_with_flags in
  let name := T "UndoSnackbar.swift" in
  let run := CleanProject.clean_project
               (Sample.world_of content Sample.zeros) in
  let out := default [] (Sys.fs (snd run) !! CleanProject.PROJECT_PATH) in
  RecordSpec.records name content = (1, 1, 1)
  /\ fst run = Sys.Ok tt
  /\ RecordSpec.records name out = (1, 1, 0).
Proof. repeat split; vm_compute; reflexivity. Qed.


(** ** Identifiers *)
Module UuidFacts.
Import Py PyFacts Uuid UuidSpec.
Local Open Scope Z_scope.

Lemma hex_digits_length n v : length (hex_digits n v) = n.
Proof.
  revert v. induction n as [|n IH]; intros v; simpl; [reflexivity|].
  rewrite length_app, IH. simpl. lia.
Qed.

(** The digits of [v] split into high and low digits. *)
Lemma hex_digits_app n m v :
  (0 <= v) ->
  hex_digits (n + m) v = hex_digits n (v / 16 ^ Z.of_nat m) ++ hex_digits m v.
Proof.
  revert v. induction m as [|m IH]; intros v Hv.
  - rewrite Nat.add_0_r. simpl. rewrite Z.div_1_r, app_nil_r. reflexivity.
  - replace (n + S m)%nat with (S (n + m)) by lia. simpl hex_digits.
    rewrite IH by (apply Z.div_pos; lia). rewrite <- app_assoc. f_equal.
    rewrite Z.div_div by lia. f_equal. f_equal.
    rewrite Nat2Z.inj_succ, Z.pow_succ_r by lia. reflexivity.
Qed.

Lemma hexdigit_cases d :
  0 <= d < 16 ->
  Re.mem EntrySpec.hexAF (upper_char (hexdigit d)) = true
  /\ ascii_eqb "-" (hexdigit d) = false.
Proof.
  intros Hd.
  assert (H : d = 0 \/ d = 1 \/ d = 2 \/ d = 3 \/ d = 4 \/ d = 5 \/ d = 6
              \/ d = 7 \/ d = 8 \/ d = 9 \/ d = 10 \/ d = 11 \/ d = 12
              \/ d = 13 \/ d = 14 \/ d = 15) by lia.
  repeat (destruct H as [->|H]; [split; reflexivity|]).
  subst d. split; reflexivity.
Qed.

Lemma hex_digits_chars n v :
  Forall (fun c => Re.mem EntrySpec.hexAF (upper_char c) = true
                   /\ ascii_eqb "-" c = false) (hex_digits n v).
Proof.
  revert v. induction n as [|n IH]; intros v; simpl; [constructor|].
  apply Forall_app. split; [apply IH|].
  constructor; [|constructor]. apply hexdigit_cases.
  apply Z.mod_pos_bound. lia.
Qed.

Lemma replace_dash_skip x rest :
  Forall (fun c => ascii_eqb "-" c = false) x ->
  replace_go (T "-") [] (x ++ rest) 0 = x ++ replace_go (T "-") [] rest 0.
Proof.
  change (T "-") with ["-"%char].
  induction 1 as [|c x Hc _ IH]; [reflexivity|].
  cbn [app replace_go]. unfold startswith. cbn [strip_prefix].
  rewrite Hc. f_equal. exact IH.
Qed.

Lemma replace_dash_drop rest :
  replace_go (T "-") [] (T "-" ++ rest) 0 = replace_go (T "-") [] rest 0.
Proof. reflexivity. Qed.

Lemma replace_dash_end x :
  Forall (fun c => ascii_eqb "-" c = false) x ->
  replace_go (T "-") [] x 0 = x.
Proof.
  intros H. rewrite <- (app_nil_r x) at 1.
  rewrite replace_dash_skip by exact H. apply app_nil_r.
Qed.

Lemma slice_then_drop (h : text) a b :
  (a <= b)%nat -> slice h a b ++ skipn b h = skipn a h.
Proof.
  intros H. unfold slice.
  replace (skipn b h) with (skipn (b - a) (skipn a h))
    by (rewrite drop_drop; f_equal; lia).
  apply take_drop.
Qed.

(** [str(u).replace('-', '')] is [u.hex]. *)
Lemma str_without_dashes u : replace (str u) (T "-") [] = hex u.
Proof.
  unfold replace, str.
  assert (Hh : Forall (fun c => ascii_eqb "-" c = false) (hex u)).
  { eapply Forall_impl; [apply hex_digits_chars|]. intros c [_ H]. exact H. }
  assert (Hs : forall a b, Forall (fun c => ascii_eqb "-" c = false)
                                  (slice (hex u) a b)).
  { intros a b. unfold slice. apply Forall_take, Forall_drop, Hh. }
  rewrite replace_dash_skip, replace_dash_drop by apply Hs.
  rewrite replace_dash_skip, replace_dash_drop by apply Hs.
  rewrite replace_dash_skip, replace_dash_drop by apply Hs.
  rewrite replace_dash_skip, replace_dash_drop by apply Hs.
  rewrite replace_dash_end by (apply Forall_drop, Hh).
  rewrite !slice_then_drop by lia. reflexivity.
Qed.

Lemma set_version4_nonneg r : 0 <= r -> 0 <= set_version4 r.
Proof.
  intros H. unfold set_version4.
  apply Z.lor_nonneg. split; [|vm_compute; discriminate].
  apply Z.land_nonneg. left.
  apply Z.lor_nonneg. split; [|vm_compute; discriminate].
  apply Z.land_nonneg. left. exact H.
Qed.

(** The first 24 upper-case digits of [u.hex]. *)
Lemma upper_hex_24 r :
  slice_to (upper (hex (set_version4 (r mod 2 ^ 128)))) 24 = id_of_draw r.
Proof.
  assert (H0 : 0 <= set_version4 (r mod 2 ^ 128)).
  { apply set_version4_nonneg, Z.mod_pos_bound. lia. }
  unfold id_of_draw, hex. change 32%nat with (24 + 8)%nat.
  rewrite (hex_digits_app 24 8 _ H0).
  change (16 ^ Z.of_nat 8) with (2 ^ 32).
  unfold slice_to, norm_index. change (0 <=? 24) with true. cbn iota.
  change (Z.to_nat 24) with 24%nat.
  unfold upper. rewrite map_app.
  rewrite take_app_length'
    by (rewrite length_map, hex_digits_length; reflexivity).
  reflexivity.
Qed.

End UuidFacts.

(** C2. The scripts' [generate_uuid] takes no set of existing identifiers
    and checks nothing: one call draws 16 random bytes once and returns the
    first 24 hexadecimal digits of the version-4 UUID made from them, in
    upper case.  Both forms used by the scripts
    ([str(uuid4()).replace('-', '').upper()[:24]] and
    [uuid4().hex.upper()[:24]]) return the same text; the result is a
    function of the draw alone, 24 characters long, over [0-9A-F]; so for
    any set [existing] the result is in [existing] exactly when the text
    determined by the draw is. *)
Theorem C2_generate_uuid_is_truncated_random (w : Sys.World) :
  let id := UuidSpec.id_of_draw (Sys.urandom w (Sys.drawn w)) in
  Uuid.generate_uuid w = (Sys.Ok id, UuidSpec.after_draw w)
  /\ Uuid.generate_uuid_hex w = (Sys.Ok id, UuidSpec.after_draw w)
  /\ length id = 24
  /\ ReSpec.all_in EntrySpec.hexAF id
  /\ (forall (existing : gset text) id',
        fst (Uuid.generate_uuid w) = Sys.Ok id' ->
        (id' ∈ existing <-> id ∈ existing)).
Proof.
  intros id.
  assert (E1 : Uuid.generate_uuid w = (Sys.Ok id, UuidSpec.after_draw w)).
  { unfold Uuid.generate_uuid, Uuid.uuid4, Sys.bind, Sys.os_urandom16, Sys.ret.
    rewrite UuidFacts.str_without_dashes, UuidFacts.upper_hex_24.
    reflexivity. }
  split; [exact E1|]. split; [|split; [|split]].
  - unfold Uuid.generate_uuid_hex, Uuid.uuid4, Sys.bind, Sys.os_urandom16,
      Sys.ret.
    rewrite UuidFacts.upper_hex_24. reflexivity.
  - unfold id, UuidSpec.id_of_draw, Py.upper.
    rewrite length_map. apply UuidFacts.hex_digits_length.
  - unfold id, UuidSpec.id_of_draw, Py.upper, ReSpec.all_in.
    apply Forall_map. eapply Forall_impl; [apply UuidFacts.hex_digits_chars|].
    intros c [H _]. exact H.
  - intros existing id' H. rewrite E1 in H. simpl in H.
    injection H as <-. reflexivity.
Qed.

(** With an identifier already in use and a random source that gives it
    again, [generate_uuid] returns the identifier in use, in either form. *)
Lemma C2_counterexample :
  let w := world_of [] zeros in
  let existing : gset text := {[ T "000000000000400080000000" ]} in
  exists id,
    fst (Uuid.generate_uuid w) = Sys.Ok id
    /\ fst (Uuid.generate_uuid_hex w) = Sys.Ok id
    /\ id ∈ existing.
Proof.
  exists (T "000000000000400080000000").
  split; [vm_compute; reflexivity|]. split; [vm_compute; reflexivity|].
  apply elem_of_singleton. reflexivity.
Qed.

(** ** Adding a file that is already there *)

(** C1. add_swift_files.py on a manifest that already declares, builds and
    lists [EventStore.swift]: the run looks for no existing record, reports
    the file as added, and leaves two declarations, two build records and
    two lines in the files list for that name; a second identical run
    leaves three of each, and two of each for a name the first manifest
    did not hold. *)
Theorem C1_add_swift_files_adds_again :
  let name := T "EventStore.swift" in
  let run1 := AddSwiftFiles.main world_event_store in
  let run2 := AddSwiftFiles.main (snd run1) in
  RecordSpec.records name (one_file name) = (1, 1, 1)
  /\ fst run1 = Sys.Ok tt
  /\ T "Successfully added files to project.pbxproj" ∈ Sys.stdout (snd run1)
  /\ RecordSpec.records name <$> Sys.fs (snd run1) !! AddSwiftFiles.PROJECT_PATH
     = Some (2, 2, 2)
  /\ fst run2 = Sys.Ok tt
  /\ RecordSpec.records name <$> Sys.fs (snd run2) !! AddSwiftFiles.PROJECT_PATH
     = Some (3, 3, 3)
  /\ RecordSpec.records (T "TimeEngine.swift")
       <$> Sys.fs (snd run2) !! AddSwiftFiles.PROJECT_PATH
     = Some (2, 2, 2).
Proof.
  intros name run1 run2.
  split; [vm_compute; reflexivity|].
  split; [vm_compute; reflexivity|].
  split; [apply list_elem_of_In; vm_compute; right; left; reflexivity|].
  split; [vm_compute; reflexivity|].
  split; [vm_compute; reflexivity|].
  split; vm_compute; reflexivity.
Qed.

(** X20. add_missing_files.py adds nothing when every name of its list is
    already mentioned in the manifest: it says so and returns, with no
    backup, no write and no identifier drawn. *)
Lemma add_missing_files_all_present (w : Sys.World) content :
  Sys.fs w !! AddMissingFiles.project_path = Some content ->
  Forall (fun f => f ∈ AddMissingFiles.get_existing_files content)
         AddMissingFiles.MISSING_FILES ->
  AddMissingFiles.main w
  = (Sys.Ok 0%Z,
     Sys.mkWorld (Sys.fs w)
       (Sys.stdout w
        ++ [T "Reading project file...";
            T "Found "
            ++ Sys.str_nat (size (AddMissingFiles.get_existing_files content))
            ++ T " existing Swift files in project";
            T "All files already in project!"])
       (Sys.writes w) (Sys.urandom w) (Sys.drawn w)).
Proof.
  intros Hf Hall.
  assert (E : filter (fun f => f ∉ AddMissingFiles.get_existing_files content)
                     AddMissingFiles.MISSING_FILES = []).
  { generalize dependent AddMissingFiles.MISSING_FILES.
    induction 1 as [|f l Hin _ IH]; [reflexivity|].
    rewrite filter_cons_False by (intros H; exact (H Hin)). exact IH. }
  unfold AddMissingFiles.main, Sys.bind, Sys.path_exists at 1.
  rewrite bool_decide_eq_true_2 by (rewrite Hf; eauto).
  cbn [negb]. unfold Sys.bind, Sys.print at 1.
  unfold AddMissingFiles.read_project_file, Sys.read_file.
  cbn [Sys.fs]. rewrite Hf. rewrite E.
  unfold Sys.print, Sys.ret. cbn [Sys.fs Sys.stdout Sys.writes Sys.urandom Sys.drawn].
  rewrite <- !app_assoc. reflexivity.
Qed.

(** The sibling script add_missing_files.py filters its list through
    [get_existing_files]: its second run finds every file, says so, draws
    no identifier and leaves the files as they are. *)
Example add_missing_files_second_run :
  let run1 := AddMissingFiles.main (world_of (one_file (T "A.swift")) counting) in
  let run2 := AddMissingFiles.main (snd run1) in
  fst run2 = Sys.Ok 0%Z
  /\ last (Sys.stdout (snd run2)) = Some (T "All files already in project!")
  /\ Sys.fs (snd run2) = Sys.fs (snd run1)
  /\ Sys.drawn (snd run2) = Sys.drawn (snd run1)
  /\ RecordSpec.records (T "Health.swift")
       <$> Sys.fs (snd run2) !! AddMissingFiles.project_path
     = Some (1, 1, 1).
Proof.
  intros run1 run2.
  split; [vm_compute; reflexivity|].
  split; [vm_compute; reflexivity|].
  split; [vm_compute; reflexivity|].
  split; vm_compute; reflexivity.
Qed.

(** ** Removing a file whose build record has settings *)

(** C3. rebuild_project.py's [remove_broken_references] on a manifest in
    which [EventStore.swift] is declared once, built once and listed once,
    its build record carrying a [settings] dictionary: the declaration, the
    group's line and the phase's line are removed, the build record stays.
    Its [fileRef] names an identifier that occurs nowhere else in the
    output, and its own identifier is in no files list. *)
Theorem C3_remove_broken_references_leaves_build_record :
  let name := T "EventStore.swift" in
  let run :=
    RebuildProject.remove_broken_references with_flags
      (world_of with_flags zeros) in
  RecordSpec.records name with_flags = (1, 1, 1)
  /\ RecordSpec.mentions idF with_flags = 3
  /\ RecordSpec.mentions idB with_flags = 2
  /\ exists out,
       fst run = Sys.Ok out
       /\ RecordSpec.records name out = (0, 1, 0)
       /\ Py.contains (T "fileRef = " ++ idF) out = true
       /\ RecordSpec.mentions idF out = 1
       /\ RecordSpec.mentions idB out = 1.
Proof.
  intros name run.
  split; [vm_compute; reflexivity|].
  split; [vm_compute; reflexivity|].
  split; [vm_compute; reflexivity|].
  destruct (fst run) as [out|e] eqn:E; [|vm_compute in E; discriminate].
  exists out. split; [reflexivity|].
  assert (Sys.Ok out = fst run) as Eo by (symmetry; exact E).
  vm_compute in Eo. injection Eo as ->.
  split; [vm_compute; reflexivity|].
  split; [vm_compute; reflexivity|].
  split; vm_compute; reflexivity.
Qed.

(** Without the [settings] dictionary the same call removes all four
    records of the file. *)
Example remove_broken_references_plain_record :
  let name := T "EventStore.swift" in
  let run :=
    RebuildProject.remove_broken_references (one_file name)
      (world_of (one_file name) zeros) in
  exists out,
    fst run = Sys.Ok out
    /\ RecordSpec.records name out = (0, 0, 0)
    /\ RecordSpec.mentions idF out = 0
    /\ RecordSpec.mentions idB out = 0.
Proof.
  intros name run.
  destruct (fst run) as [out|e] eqn:E; [|vm_compute in E; discriminate].
  exists out. split; [reflexivity|].
  assert (Sys.Ok out = fst run) as Eo by (symmetry; exact E).
  vm_compute in Eo. injection Eo as ->.
  split; [vm_compute; reflexivity|].
  split; vm_compute; reflexivity.
Qed.

Import Sample Worlds IdSpec.

(** ** A project file that is not there *)
Section MissingProjectFile.
Import Sys.

(** X1. The scripts that open the project file without a guard stop with
    [FileNotFoundError] when it is missing: nothing is written, no backup
    is made and no identifier is drawn; clean_project.py has printed its
    banner by then, the others nothing. *)
Theorem missing_project_file_raises (w : World) filename folder_path rel_path
    add_to_tests :
  fs w !! "DoseTap.xcodeproj/project.pbxproj" = None ->
  let not_found := FileNotFoundError "DoseTap.xcodeproj/project.pbxproj" in
  DedupeSources.deduplicate_sources w = (Raise not_found, w)
  /\ RemoveDuplicates.remove_duplicate_builds w = (Raise not_found, w)
  /\ CleanProject.clean_project w
     = (Raise not_found,
        mkWorld (fs w) (stdout w ++ [T "Cleaning DoseTap Xcode project..."])
                (writes w) (urandom w) (drawn w))
  /\ AddPresleeplog.add_file_to_project w = (Raise not_found, w)
  /\ FixStorageScope.add_file_to_project filename folder_path rel_path w
     = (Raise not_found, w)
  /\ FixAllMissingFiles.add_file_to_project filename folder_path rel_path
       add_to_tests w
     = (Raise not_found, w).
Proof.
  intros missing not_found. repeat split.
  - unfold DedupeSources.deduplicate_sources, DedupeSources.read_project,
      bind, read_file.
    change DedupeSources.PROJECT_PATH with "DoseTap.xcodeproj/project.pbxproj"%string.
    rewrite missing. reflexivity.
  - unfold RemoveDuplicates.remove_duplicate_builds,
      RemoveDuplicates.read_project, bind, read_file.
    change RemoveDuplicates.PROJECT_PATH with "DoseTap.xcodeproj/project.pbxproj"%string.
    rewrite missing. reflexivity.
  - unfold CleanProject.clean_project, bind, print, read_file.
    cbn [fs].
    change CleanProject.PROJECT_PATH with "DoseTap.xcodeproj/project.pbxproj"%string.
    rewrite missing. reflexivity.
  - unfold AddPresleeplog.add_file_to_project, bind, read_file.
    change AddPresleeplog.project_path with "DoseTap.xcodeproj/project.pbxproj"%string.
    rewrite missing. reflexivity.
  - unfold FixStorageScope.add_file_to_project, bind, read_file.
    change FixStorageScope.PROJECT_PATH with "DoseTap.xcodeproj/project.pbxproj"%string.
    rewrite missing. reflexivity.
  - unfold FixAllMissingFiles.add_file_to_project, bind at 1. unfold read_file.
    change FixAllMissingFiles.PROJECT_PATH with "DoseTap.xcodeproj/project.pbxproj"%string.
    rewrite missing. reflexivity.
Qed.

(** X2. The scripts that guard the read report the missing file instead:
    add_swift_files.py and add_pr1_files.py catch the exception and print
    it, add_missing_files.py tests [os.path.exists] first and returns 1.
    None of them writes a file or draws an identifier. *)
Theorem missing_project_file_reported (w : World) :
  fs w !! "DoseTap.xcodeproj/project.pbxproj" = None ->
  AddSwiftFiles.main w
  = (Ok tt,
     mkWorld (fs w)
       (stdout w
        ++ [T "Adding missing Swift files to Xcode project...";
            T "Error: [Errno 2] No such file or directory: 'DoseTap.xcodeproj/project.pbxproj'"])
       (writes w) (urandom w) (drawn w))
  /\ AddPr1Files.main w
     = (Ok false,
        mkWorld (fs w)
          (stdout w
           ++ [T "Error modifying project file: [Errno 2] No such file or directory: 'DoseTap.xcodeproj/project.pbxproj'"])
          (writes w) (urandom w) (drawn w))
  /\ AddMissingFiles.main w
     = (Ok 1%Z,
        mkWorld (fs w)
          (stdout w
           ++ [T "Error: DoseTap.xcodeproj/project.pbxproj not found. Run from ios/ directory."])
          (writes w) (urandom w) (drawn w)).
Proof.
  intros missing. repeat split.
  - unfold AddSwiftFiles.main, try_except, bind at 1. unfold print at 1.
    unfold bind at 1. unfold AddSwiftFiles.add_files_to_project, bind at 1.
    unfold AddSwiftFiles.read_project_file, read_file. cbn [fs].
    change AddSwiftFiles.PROJECT_PATH with "DoseTap.xcodeproj/project.pbxproj"%string.
    rewrite missing. unfold print. cbn [fs stdout writes urandom drawn].
    rewrite <- app_assoc. reflexivity.
  - unfold AddPr1Files.main, try_except, AddPr1Files.main_body, bind at 1.
    unfold read_file.
    change AddPr1Files.PROJECT_PATH with "DoseTap.xcodeproj/project.pbxproj"%string.
    rewrite missing. reflexivity.
  - unfold AddMissingFiles.main, bind at 1. unfold path_exists.
    change AddMissingFiles.project_path with "DoseTap.xcodeproj/project.pbxproj"%string.
    rewrite missing.
    rewrite bool_decide_eq_false_2 by (intros [x Hx]; discriminate).
    reflexivity.
Qed.

End MissingProjectFile.

Lemma missing_project_file_raises_witness :
  Sys.fs world_empty !! "DoseTap.xcodeproj/project.pbxproj" = None
  /\ DedupeSources.deduplicate_sources world_empty
     = (Sys.Raise (Sys.FileNotFoundError "DoseTap.xcodeproj/project.pbxproj"),
        world_empty).
Proof.
  assert (H : Sys.fs world_empty !! "DoseTap.xcodeproj/project.pbxproj" = None)
    by reflexivity.
  split; [exact H|].
  exact (proj1 (missing_project_file_raises world_empty [] [] [] false H)).
Defined.

Lemma missing_project_file_reported_witness :
  Sys.fs world_empty !! "DoseTap.xcodeproj/project.pbxproj" = None
  /\ fst (AddMissingFiles.main world_empty) = Sys.Ok 1%Z.
Proof.
  assert (H : Sys.fs world_empty !! "DoseTap.xcodeproj/project.pbxproj" = None)
    by reflexivity.
  split; [exact H|].
  rewrite (proj2 (proj2 (missing_project_file_reported world_empty H))).
  reflexivity.
Defined.

(** ** The digits of an identifier *)
Module IdFacts.
Import Py Uuid UuidSpec IdSpec.
Local Open Scope Z_scope.

Lemma generate_uuid_run (w : Sys.World) :
  generate_uuid w
  = (Sys.Ok (id_of_draw (Sys.urandom w (Sys.drawn w))), after_draw w).
Proof.
  unfold generate_uuid, uuid4, Sys.bind, Sys.os_urandom16, Sys.ret.
  rewrite UuidFacts.str_without_dashes, UuidFacts.upper_hex_24. reflexivity.
Qed.

Lemma generate_uuid_hex_run (w : Sys.World) :
  generate_uuid_hex w
  = (Sys.Ok (id_of_draw (Sys.urandom w (Sys.drawn w))), after_draw w).
Proof.
  unfold generate_uuid_hex, uuid4, Sys.bind, Sys.os_urandom16, Sys.ret.
  rewrite UuidFacts.upper_hex_24. reflexivity.
Qed.

Lemma id_of_draw_length r : length (id_of_draw r) = 24%nat.
Proof.
  unfold id_of_draw, upper. rewrite length_map.
  apply UuidFacts.hex_digits_length.
Qed.

Lemma id_of_draw_hex r : ReSpec.all_in EntrySpec.hexAF (id_of_draw r).
Proof.
  unfold id_of_draw, upper, ReSpec.all_in. apply Forall_map.
  eapply Forall_impl; [apply UuidFacts.hex_digits_chars|].
  intros c [H _]. exact H.
Qed.

(** The digit at place [i], counted from the left. *)
Lemma nth_hex_digits n : forall v i,
  (i < n)%nat ->
  nth i (hex_digits n v) "0"%char
  = hexdigit ((v / 16 ^ Z.of_nat (n - 1 - i)) mod 16).
Proof.
  induction n as [|n IH]; intros v i Hi; [lia|].
  cbn [hex_digits].
  destruct (Nat.eq_dec i n) as [->|Hne].
  - rewrite app_nth2 by (rewrite UuidFacts.hex_digits_length; lia).
    rewrite UuidFacts.hex_digits_length.
    replace (n - n)%nat with 0%nat by lia.
    replace (S n - 1 - n)%nat with 0%nat by lia.
    cbn [nth]. rewrite Z.pow_0_r, Z.div_1_r. reflexivity.
  - rewrite app_nth1 by (rewrite UuidFacts.hex_digits_length; lia).
    rewrite IH by lia. f_equal. f_equal.
    rewrite Z.div_div by lia. f_equal.
    replace (S n - 1 - i)%nat with (S (n - 1 - i)) by lia.
    rewrite Nat2Z.inj_succ, Z.pow_succ_r by lia. reflexivity.
Qed.

Lemma set_version4_bit x k :
  0 <= k ->
  Z.testbit (set_version4 x) k
  = ((Z.testbit x k && negb (Z.testbit (Z.shiftl 0xc000 48) k)
      || Z.testbit (Z.shiftl 0x8000 48) k)
     && negb (Z.testbit (Z.shiftl 0xf000 64) k)
     || Z.testbit (Z.shiftl 4 76) k)%bool.
Proof.
  intros Hk. unfold set_version4.
  rewrite Z.lor_spec, Z.land_spec, Z.lor_spec, Z.land_spec.
  rewrite !Z.lnot_spec by lia. reflexivity.
Qed.

(** The version nibble. *)
Lemma version_nibble x : (set_version4 x / 2 ^ 76) mod 16 = 4.
Proof.
  rewrite <- Z.shiftr_div_pow2 by lia.
  change 16 with (2 ^ 4). rewrite <- Z.land_ones by lia.
  apply Z.bits_inj'. intros n Hn.
  rewrite Z.land_spec, Z.shiftr_spec by lia.
  destruct (Z.lt_ge_cases n 4) as [Hlt|Hge].
  - assert (H : n = 0 \/ n = 1 \/ n = 2 \/ n = 3) by lia.
    destruct H as [-> | [-> | [-> | ->]]];
      rewrite set_version4_bit by lia;
      match goal with |- context [Z.testbit x ?k] =>
        destruct (Z.testbit x k) end; vm_compute; reflexivity.
  - rewrite Z.ones_spec_high by lia. rewrite andb_false_r.
    symmetry. apply Z.bits_above_log2; [lia|].
    change (Z.log2 4) with 2. lia.
Qed.



End IdFacts.


(** ** The identifiers of add_swift_files.py *)
Module SwiftIdFacts.
Import Py Uuid UuidSpec IdSpec.

Lemma slice_to_nat (s : text) (n : nat) :
  slice_to s (Z.of_nat n) = firstn n s.
Proof.
  unfold slice_to, norm_index.
  destruct (Z.leb_spec 0 (Z.of_nat n)) as [_|H]; [|lia].
  rewrite Nat2Z.id. reflexivity.
Qed.

Lemma swift_id_hex24 r : hex24 (swift_id r).
Proof.
  unfold hex24, swift_id. split.
  - rewrite length_app, length_take, IdFacts.id_of_draw_length. reflexivity.
  - apply Forall_app. split.
    + repeat constructor.
    + apply Forall_take, IdFacts.id_of_draw_hex.
Qed.

Lemma swift_id_version r : nth 20 (swift_id r) "0"%char = "4"%char.
Proof.
  unfold swift_id.
  rewrite app_nth2 by (cbn; lia). change (20 - length (T "AAAAAAAA")) with 12.
  pose proof (IdFacts.id_of_draw_length r) as Hl.
  rewrite <- (take_drop 16 (id_of_draw r)) in Hl.
  assert (H : nth 12 (id_of_draw r) "0"%char = "4"%char).
  { unfold id_of_draw, upper.
    change "0"%char with (upper_char "0"%char) at 1.
    rewrite map_nth, IdFacts.nth_hex_digits by lia.
    rewrite Z.div_div by lia.
    change (2 ^ 32 * 16 ^ Z.of_nat (24 - 1 - 12))%Z with (2 ^ 76)%Z.
    rewrite IdFacts.version_nibble. reflexivity. }
  rewrite <- (take_drop 16 (id_of_draw r)) in H.
  rewrite app_nth1 in H; [exact H|].
  rewrite length_take, IdFacts.id_of_draw_length. cbn. lia.
Qed.

Lemma swift_entries_body_run filename acc (w : Sys.World) :
  AddSwiftFiles.entries_body filename acc w
  = (Sys.Ok
       (AddSwiftFiles.mkNew
          (AddSwiftFiles.new_build_entries acc
           ++ [Entries.build_entry (swift_id (Sys.urandom w (Sys.drawn w)))
                 (swift_id (Sys.urandom w (S (Sys.drawn w)))) filename])
          (AddSwiftFiles.new_file_entries acc
           ++ [Entries.file_entry (swift_id (Sys.urandom w (S (Sys.drawn w))))
                 filename filename])
          (AddSwiftFiles.new_children_entries acc
           ++ [Entries.children_entry
                 (swift_id (Sys.urandom w (S (Sys.drawn w)))) filename])),
     after_draws 2 w).
Proof.
  unfold AddSwiftFiles.entries_body, AddSwiftFiles.generate_uuid.
  unfold Sys.bind at 1. rewrite IdFacts.generate_uuid_run.
  unfold Sys.bind at 1. rewrite IdFacts.generate_uuid_run.
  unfold Sys.ret, after_draw, after_draws, swift_id.
  cbn [Sys.fs Sys.stdout Sys.writes Sys.urandom Sys.drawn].
  rewrite !(slice_to_nat _ 16). reflexivity.
Qed.

End SwiftIdFacts.

(** X4. For each file add_swift_files.py draws two identifiers, one for
    the build record and one for the file reference.  Each is [AAAAAAAA]
    followed by the first 16 digits of a fresh UUID: 24 characters over
    [0-9A-F], of which the first eight and the twenty-first ([4], the UUID
    version) are fixed, so 15 digits vary. *)
Theorem add_swift_files_identifiers filename acc (w : Sys.World) :
  let b := IdSpec.swift_id (Sys.urandom w (Sys.drawn w)) in
  let f := IdSpec.swift_id (Sys.urandom w (S (Sys.drawn w))) in
  AddSwiftFiles.entries_body filename acc w
  = (Sys.Ok
       (AddSwiftFiles.mkNew
          (AddSwiftFiles.new_build_entries acc
           ++ [Entries.build_entry b f filename])
          (AddSwiftFiles.new_file_entries acc
           ++ [Entries.file_entry f filename filename])
          (AddSwiftFiles.new_children_entries acc
           ++ [Entries.children_entry f filename])),
     IdSpec.after_draws 2 w)
  /\ IdSpec.hex24 b /\ IdSpec.hex24 f
  /\ firstn 8 b = T "AAAAAAAA" /\ firstn 8 f = T "AAAAAAAA"
  /\ nth 20 b "0"%char = "4"%char /\ nth 20 f "0"%char = "4"%char.
Proof.
  intros b f.
  split; [apply SwiftIdFacts.swift_entries_body_run|].
  split; [apply SwiftIdFacts.swift_id_hex24|].
  split; [apply SwiftIdFacts.swift_id_hex24|].
  split; [reflexivity|]. split; [reflexivity|].
  split; apply SwiftIdFacts.swift_id_version.
Qed.

(** ** add_swift_files.py never declines *)
Module SwiftRunFacts.
Import Py Uuid UuidSpec IdSpec SwiftSpec.

Lemma hex_not_space c : Re.mem EntrySpec.hexAF c = true -> isspace c = false.
Proof.
  destruct c as [[] [] [] [] [] [] [] []]; vm_compute; congruence.
Qed.

Lemma take_word_hex b rest :
  ReSpec.all_in EntrySpec.hexAF b -> take_word (b ++ " "%char :: rest) = b.
Proof.
  induction 1 as [|c b Hc _ IH]; [reflexivity|].
  cbn [app take_word]. rewrite (hex_not_space c Hc), IH. reflexivity.
Qed.

(** [build_entry.split()[0]] is the build identifier. *)
Lemma split_first_build_entry b f filename :
  hex24 b -> split_first (Entries.build_entry b f filename) = Some b.
Proof.
  intros [Hl Hh]. unfold Entries.build_entry, split_first.
  destruct b as [|c b]; [discriminate|].
  cbn [app lstrip]. change (isspace TAB) with true. cbn iota.
  inversion Hh as [|? ? Hc Hb]; subst.
  cbn [lstrip]. rewrite (hex_not_space c Hc).
  change (c :: b ++ T " /* " ++ filename
          ++ T " in Sources */ = {isa = PBXBuildFile; fileRef = " ++ f
          ++ T " /* " ++ filename ++ T " */; };")
    with ((c :: b) ++ " "%char :: (T "/* " ++ filename
          ++ T " in Sources */ = {isa = PBXBuildFile; fileRef = " ++ f
          ++ T " /* " ++ filename ++ T " */; };")).
  rewrite take_word_hex by exact Hh. reflexivity.
Qed.

Lemma swift_ids_files rand files : forall n,
  map snd (swift_ids rand n files) = files.
Proof.
  induction files as [|f files IH]; intros n; [reflexivity|].
  cbn [swift_ids map snd]. rewrite IH. reflexivity.
Qed.

Lemma swift_ids_hex rand files : forall n,
  Forall (fun e => hex24 (fst (fst e)) /\ hex24 (snd (fst e)))
         (swift_ids rand n files).
Proof.
  induction files as [|f files IH]; intros n; [constructor|].
  cbn [swift_ids]. constructor; [|apply IH].
  split; apply SwiftIdFacts.swift_id_hex24.
Qed.

(** The first loop: two draws and three records for each file. *)
Lemma swift_entries_loop_run files : forall acc (w : Sys.World),
  Sys.for_each files AddSwiftFiles.entries_body acc w
  = (Sys.Ok
       (let ids := swift_ids (Sys.urandom w) (Sys.drawn w) files in
        AddSwiftFiles.mkNew
          (AddSwiftFiles.new_build_entries acc ++ map build_of ids)
          (AddSwiftFiles.new_file_entries acc ++ map file_of ids)
          (AddSwiftFiles.new_children_entries acc ++ map child_of ids)),
     after_draws (2 * length files) w).
Proof.
  induction files as [|f files IH]; intros acc w.
  - cbn. rewrite !app_nil_r. destruct acc, w; reflexivity.
  - cbn [Sys.for_each]. unfold Sys.bind.
    rewrite SwiftIdFacts.swift_entries_body_run, IH.
    unfold after_draws.
    cbn [Sys.fs Sys.stdout Sys.writes Sys.urandom Sys.drawn
         AddSwiftFiles.new_build_entries AddSwiftFiles.new_file_entries
         AddSwiftFiles.new_children_entries swift_ids map length].
    rewrite <- !app_assoc.
    replace (2 * length files + (2 + Sys.drawn w))
      with (2 * S (length files) + Sys.drawn w) by lia.
    reflexivity.
Qed.

(** The second loop reads each build identifier back from its record. *)
Lemma source_entries_run ids : forall (w : Sys.World),
  Forall (fun e => hex24 (fst (fst e)) /\ hex24 (snd (fst e))) ids ->
  AddSwiftFiles.source_entries (map snd ids) (map build_of ids) w
  = (Sys.Ok (map source_of ids), w).
Proof.
  induction ids as [|e ids IH]; intros w H; [reflexivity|].
  inversion H as [|? ? [Hb _] Hrest]; subst.
  cbn [map AddSwiftFiles.source_entries].
  unfold build_of at 1. rewrite split_first_build_entry by exact Hb.
  unfold Sys.bind. rewrite IH by exact Hrest. reflexivity.
Qed.

Lemma insert_at_length content i x :
  length (Entries.insert_at content i x) = length content + length x.
Proof.
  unfold Entries.insert_at, slice_to, slice_from.
  rewrite !length_app, length_take, length_drop. lia.
Qed.

Lemma splice_length (content x : text) a b :
  length content
  <= length (firstn a content ++ (slice content a b ++ x) ++ skipn b content).
Proof.
  unfold slice. rewrite !length_app, !length_take, !length_drop. lia.
Qed.

End SwiftRunFacts.

Module SwiftMainFacts.
Import Py IdSpec SwiftSpec SwiftRunFacts.

Lemma swift_add_files_run (w : Sys.World) content :
  Sys.fs w !! AddSwiftFiles.PROJECT_PATH = Some content ->
  exists out,
    AddSwiftFiles.add_files_to_project w = (Sys.Ok out, after_draws 32 w)
    /\ length content < length out.
Proof.
  intros Hfs. unfold AddSwiftFiles.add_files_to_project.
  assert (Hlen : length AddSwiftFiles.missing_files = 16) by reflexivity.
  generalize dependent AddSwiftFiles.missing_files. intros files Hlen.
  unfold Sys.bind at 1. unfold AddSwiftFiles.read_project_file, Sys.read_file.
  rewrite Hfs. unfold Sys.bind at 1. rewrite swift_entries_loop_run.
  cbn [AddSwiftFiles.new_build_entries AddSwiftFiles.new_file_entries
       AddSwiftFiles.new_children_entries app].
  set (ids := swift_ids (Sys.urandom w) (Sys.drawn w) files).
  set (c1 := Entries.insert_at content _ _).
  set (c2 := Entries.insert_at c1 _ _).
  set (c3 := match Re.search AddSwiftFiles.children_re c2 with
             | Some m => _ | None => c2 end).
  assert (H1 : length content < length c1).
  { unfold c1. rewrite insert_at_length. cbn [length]. lia. }
  assert (H2 : length c1 <= length c2).
  { unfold c2. rewrite insert_at_length. lia. }
  assert (H3 : length c2 <= length c3).
  { unfold c3. destruct (Re.search AddSwiftFiles.children_re c2) as [m|];
      [|lia]. unfold Re.group. apply splice_length. }
  rewrite Hlen. change (2 * 16) with 32.
  destruct (Re.search AddSwiftFiles.sources_re c3) as [m|].
  - pose proof (source_entries_run ids (after_draws 32 w)
                  (swift_ids_hex _ _ _)) as Hs.
    unfold ids in Hs at 1. rewrite swift_ids_files in Hs. fold ids in Hs.
    unfold Sys.bind. rewrite Hs.
    eexists. split; [reflexivity|].
    unfold Re.group.
    pose proof (splice_length c3
                  (NL :: join [NL] (map source_of ids))
                  (Re.start m 2) (Re.end_ m 2)).
    lia.
  - eexists. split; [reflexivity|]. lia.
Qed.

End SwiftMainFacts.

(** X5. add_swift_files.py never declines and never fails on a project
    file it can read: whatever the manifest holds, the run draws 32
    identifiers, writes a manifest that is longer than the one it read,
    once, and reports all 16 files as added. *)
Theorem add_swift_files_always_adds (w : Sys.World) content :
  Sys.fs w !! AddSwiftFiles.PROJECT_PATH = Some content ->
  exists out,
    AddSwiftFiles.main w
    = (Sys.Ok tt,
       Sys.mkWorld (<[AddSwiftFiles.PROJECT_PATH := out]> (Sys.fs w))
         (Sys.stdout w
          ++ [T "Adding missing Swift files to Xcode project...";
              T "Successfully added files to project.pbxproj";
              T "Added files: "
              ++ Py.join (T ", ") AddSwiftFiles.missing_files])
         (Sys.writes w ++ [AddSwiftFiles.PROJECT_PATH])
         (Sys.urandom w) (32 + Sys.drawn w))
    /\ length content < length out.
Proof.
  intros Hfs.
  set (w1 := Sys.mkWorld (Sys.fs w)
               (Sys.stdout w
                ++ [T "Adding missing Swift files to Xcode project..."])
               (Sys.writes w) (Sys.urandom w) (Sys.drawn w)).
  destruct (SwiftMainFacts.swift_add_files_run w1 content Hfs) as (out & E & Hl).
  exists out. split; [|exact Hl].
  unfold AddSwiftFiles.main, Sys.try_except.
  unfold Sys.bind at 1. unfold Sys.print at 1. fold w1.
  unfold Sys.bind at 1. rewrite E.
  unfold AddSwiftFiles.write_project_file, Sys.write_file, Sys.bind, Sys.print,
    IdSpec.after_draws, w1.
  cbn [Sys.fs Sys.stdout Sys.writes Sys.urandom Sys.drawn].
  rewrite <- !app_assoc. reflexivity.
Qed.

Lemma add_swift_files_always_adds_witness :
  Sys.fs world_event_store !! AddSwiftFiles.PROJECT_PATH
  = Some (one_file (T "EventStore.swift"))
  /\ fst (AddSwiftFiles.main world_event_store) = Sys.Ok tt.
Proof.
  assert (H : Sys.fs world_event_store !! AddSwiftFiles.PROJECT_PATH
              = Some (one_file (T "EventStore.swift"))) by reflexivity.
  split; [exact H|].
  destruct (add_swift_files_always_adds world_event_store _ H) as (out & E & _).
  rewrite E. reflexivity.
Defined.

(** ** add_missing_files.py: the backup *)
Module MissingRunFacts.
Import Sys IdSpec SysSpec.

Lemma missing_entries_body_run f acc (w : World) :
  exists acc',
    AddMissingFiles.entries_body f acc w = (Ok acc', after_draws 2 w).
Proof.
  unfold AddMissingFiles.entries_body, AddMissingFiles.generate_uuid.
  unfold bind at 1. rewrite IdFacts.generate_uuid_hex_run.
  unfold bind at 1. rewrite IdFacts.generate_uuid_hex_run.
  eexists. reflexivity.
Qed.

Lemma missing_entries_loop_run files : forall acc (w : World),
  exists acc',
    for_each files AddMissingFiles.entries_body acc w
    = (Ok acc', after_draws (2 * length files) w).
Proof.
  induction files as [|f files IH]; intros acc w.
  - exists acc. destruct w; reflexivity.
  - cbn [for_each]. unfold bind.
    destruct (missing_entries_body_run f acc w) as (a & E). rewrite E.
    destruct (IH a (after_draws 2 w)) as (a' & E'). rewrite E'.
    exists a'. unfold after_draws.
    cbn [fs stdout writes urandom drawn length].
    replace (2 * length files + (2 + drawn w))
      with (2 * S (length files) + drawn w) by lia.
    reflexivity.
Qed.

Lemma print_loop_run (files : list text) : forall (w : World),
  for_each files (fun f _ => print (T "  + " ++ f)) tt w
  = (Ok tt,
     mkWorld (fs w) (stdout w ++ map (fun f => T "  + " ++ f) files)
             (writes w) (urandom w) (drawn w)).
Proof.
  induction files as [|f files IH]; intros w.
  - cbn. rewrite app_nil_r. destruct w; reflexivity.
  - cbn [for_each map]. unfold bind, print at 1. rewrite IH.
    cbn [fs stdout writes urandom drawn]. rewrite <- app_assoc. reflexivity.
Qed.

Lemma missing_add_files_run content files (w : World) :
  exists out,
    AddMissingFiles.add_files_to_project content files w
    = (Ok out, after_draws (2 * length files) w).
Proof.
  unfold AddMissingFiles.add_files_to_project. unfold bind.
  destruct (missing_entries_loop_run files (AddMissingFiles.mkNew [] [] [] []) w)
    as (acc & E).
  rewrite E. eexists. reflexivity.
Qed.

End MissingRunFacts.

(** X6. When at least one name of its list is not yet mentioned in the
    manifest, add_missing_files.py first saves the text it read as
    [project.pbxproj.backup], then writes the new manifest, in that order
    and once each; it draws two identifiers for each file it adds and
    returns 0. *)
Theorem add_missing_files_backs_up (w : Sys.World) content :
  Sys.fs w !! AddMissingFiles.project_path = Some content ->
  let files_to_add :=
    filter (fun f => f ∉ AddMissingFiles.get_existing_files content)
           AddMissingFiles.MISSING_FILES in
  files_to_add <> [] ->
  exists new_content out,
    AddMissingFiles.main w
    = (Sys.Ok 0%Z,
       Sys.mkWorld
         (<[AddMissingFiles.project_path := new_content]>
            (<[AddMissingFiles.backup_path := content]> (Sys.fs w)))
         (Sys.stdout w ++ out)
         (Sys.writes w
          ++ [AddMissingFiles.backup_path; AddMissingFiles.project_path])
         (Sys.urandom w) (2 * length files_to_add + Sys.drawn w)).
Proof.
  intros Hfs files Hne.
  unfold AddMissingFiles.main. unfold Sys.bind at 1, Sys.path_exists at 1.
  rewrite bool_decide_eq_true_2 by (rewrite Hfs; eauto).
  cbn [negb]. unfold Sys.bind at 1, Sys.print at 1.
  unfold Sys.bind at 1.
  unfold AddMissingFiles.read_project_file, Sys.read_file.
  cbn [Sys.fs Sys.stdout Sys.writes Sys.urandom Sys.drawn]. rewrite Hfs.
  unfold Sys.bind at 1, Sys.print at 1.
  cbn [Sys.fs Sys.stdout Sys.writes Sys.urandom Sys.drawn].
  fold files. clearbody files.
  destruct files as [|f0 files0]; [congruence|]. clear Hne.
  cbv beta iota. set (files := f0 :: files0).
  unfold Sys.bind at 1, Sys.print at 1.
  cbn [Sys.fs Sys.stdout Sys.writes Sys.urandom Sys.drawn].
  unfold Sys.bind at 1. rewrite MissingRunFacts.print_loop_run.
  cbn [Sys.fs Sys.stdout Sys.writes Sys.urandom Sys.drawn].
  unfold Sys.bind at 1.
  unfold AddMissingFiles.write_project_file at 1, Sys.write_file at 1.
  cbn [Sys.fs Sys.stdout Sys.writes Sys.urandom Sys.drawn].
  unfold Sys.bind at 1, Sys.print at 1.
  cbn [Sys.fs Sys.stdout Sys.writes Sys.urandom Sys.drawn].
  unfold Sys.bind at 1.
  match goal with
  | |- context [AddMissingFiles.add_files_to_project content files ?w'] =>
      destruct (MissingRunFacts.missing_add_files_run content files w') as (new & E)
  end.
  rewrite E. unfold IdSpec.after_draws.
  cbn [Sys.fs Sys.stdout Sys.writes Sys.urandom Sys.drawn].
  unfold Sys.bind at 1.
  unfold AddMissingFiles.write_project_file at 1, Sys.write_file at 1.
  cbn [Sys.fs Sys.stdout Sys.writes Sys.urandom Sys.drawn].
  unfold Sys.bind at 1, Sys.print at 1.
  cbn [Sys.fs Sys.stdout Sys.writes Sys.urandom Sys.drawn].
  unfold Sys.bind at 1, Sys.print at 1.
  cbn [Sys.fs Sys.stdout Sys.writes Sys.urandom Sys.drawn].
  unfold Sys.ret.
  exists new. eexists.
  rewrite <- !app_assoc. reflexivity.
Qed.

Lemma add_missing_files_backs_up_witness :
  Sys.fs world_one !! AddMissingFiles.project_path
  = Some (one_file (T "A.swift"))
  /\ (exists new_content,
        Sys.fs (snd (AddMissingFiles.main world_one))
        = <[AddMissingFiles.project_path := new_content]>
            (<[AddMissingFiles.backup_path := one_file (T "A.swift")]>
               (Sys.fs world_one))).
Proof.
  assert (H : Sys.fs world_one !! AddMissingFiles.project_path
              = Some (one_file (T "A.swift"))) by reflexivity.
  split; [exact H|].
  assert (Hne : filter (fun f => f ∉ AddMissingFiles.get_existing_files
                                      (one_file (T "A.swift")))
                       AddMissingFiles.MISSING_FILES <> []).
  { intros E. apply (f_equal length) in E. vm_compute in E. discriminate E. }
  destruct (add_missing_files_backs_up world_one _ H Hne)
    as (new & out & E).
  exists new. rewrite E. reflexivity.
Defined.

(** ** What [get_existing_files] finds *)
Module PresenceFacts.
Import Re ReSpec ReFacts GroupFacts PresenceSpec.

(** Whatever a scan emits comes from a match inside the subject. *)
Lemma scan_elem {B} r (emit : Match -> list B) content s :
  forall i skip pre x,
    content = pre ++ s -> i = length pre ->
    x ∈ scan r emit (fun _ => []) s i skip ->
    exists mt, match_of r content mt /\ x ∈ emit mt.
Proof.
  assert (Hat : forall s i pre mt,
    content = pre ++ s -> i = length pre -> match_at r s i = Some mt ->
    match_of r content mt).
  { intros s0 i pre mt -> -> Hm.
    apply match_at_sound in Hm as (y & s' & -> & Hs & Hen & Hm).
    exists pre, y, s'. auto. }
  induction s as [|c s IH]; intros i skip pre x Hc Hi Hx; cbn [scan] in Hx.
  - destruct skip; [|inversion Hx].
    destruct (match_at r [] i) as [mt|] eqn:Em; [|inversion Hx]. eauto.
  - assert (Hnext : forall n, x ∈ scan r emit (fun _ => []) s (S i) n ->
                      exists mt, match_of r content mt /\ x ∈ emit mt).
    { intros n H. eapply (IH (S i) n (pre ++ [c])); [| |exact H].
      - rewrite Hc, <- app_assoc. reflexivity.
      - rewrite length_app. cbn. lia. }
    destruct skip as [|n]; [|eauto].
    destruct (match_at r (c :: s) i) as [mt|] eqn:Em; [|cbn [app] in Hx; eauto].
    destruct (m_end mt =? i); cbn [app] in Hx;
      apply elem_of_app in Hx as [Hx|Hx]; eauto.
Qed.

Lemma findall1_sound r content x :
  x ∈ findall1 r content ->
  exists mt, match_of r content mt /\ x = group content mt 1.
Proof.
  intros H. apply (scan_elem r _ content content 0 0 []) in H; auto.
  destruct H as (mt & Hm & Hx). apply list_elem_of_singleton in Hx. eauto.
Qed.

(** A name captured between [lead] and [trail] by a pattern of the form
    [lead (class+ \.swift) trail]. *)
Lemma captured_name p lead trail content x :
  x ∈ findall1
        (Seq (Lit lead)
           (Seq (Grp (Seq (Seq (Cls p) (Star p)) (Lit (T ".swift"))))
                (Lit trail))) content ->
  exists stem pre post,
    x = stem ++ T ".swift" /\ stem <> [] /\ all_in p stem
    /\ content = pre ++ lead ++ x ++ trail ++ post.
Proof.
  intros H.
  apply findall1_sound in H as (mt & (pre & y & post & Ec & Hs & He & Hm) & ->).
  apply matches_Seq_inv in Hm as (l & y1 & ? & g1 & -> & Hg & Hl & Hm).
  apply matches_Lit_inv in Hl as [-> ->].
  apply matches_Seq_inv in Hm as (n & t & ? & ? & -> & -> & Hn & Ht).
  apply matches_Lit_inv in Ht as [-> ->].
  apply matches_Grp_inv in Hn as (? & -> & Hn).
  apply matches_Seq_inv in Hn as (st & sw & ? & ? & -> & -> & Hst & Hsw).
  apply matches_Lit_inv in Hsw as [-> ->].
  apply matches_Seq_inv in Hst as (c1 & cs & ? & ? & -> & -> & Hc1 & Hcs).
  apply matches_Cls_inv in Hc1 as (d & -> & Hd & ->).
  apply matches_Star_inv in Hcs as [Hcs ->].
  cbn [app] in Hg.
  assert (E : group content mt 1 = (d :: cs) ++ T ".swift").
  { unfold group, start, end_, span_of. rewrite Hg. cbn [nth fst snd].
    rewrite Ec.
    replace (pre ++ (lead ++ (([d] ++ cs) ++ T ".swift") ++ trail) ++ post)
      with ((pre ++ lead) ++ ((d :: cs) ++ T ".swift") ++ trail ++ post)
      by (rewrite <- !app_assoc; reflexivity).
    apply slice_middle;
      repeat first [rewrite !length_app | progress cbn [length app]]; lia. }
  rewrite E. exists (d :: cs), pre, post.
  split; [reflexivity|]. split; [discriminate|].
  split; [constructor; assumption|].
  rewrite Ec, <- !app_assoc. reflexivity.
Qed.

End PresenceFacts.

(** X7. A name is in [get_existing_files] only if the manifest mentions
    it: for add_missing_files.py any comment [/* stem.swift */] with a
    stem of word characters counts, wherever it stands; for
    rebuild_project.py the comment must open a [PBXFileReference] record
    and the stem is over [A-Za-z0-9_]. *)
Theorem get_existing_files_sound content (name : text) :
  (name ∈ AddMissingFiles.get_existing_files content ->
   exists stem pre post,
     name = stem ++ T ".swift" /\ stem <> []
     /\ ReSpec.all_in PresenceSpec.word stem
     /\ content = pre ++ T "/* " ++ name ++ T " */" ++ post)
  /\ (name ∈ RebuildProject.get_existing_files content ->
      exists stem pre post,
        name = stem ++ T ".swift" /\ stem <> []
        /\ ReSpec.all_in PresenceSpec.alnum_ stem
        /\ content = pre ++ T "/* " ++ name
                     ++ T " */ = {isa = PBXFileReference" ++ post).
Proof.
  split; intros H.
  - unfold AddMissingFiles.get_existing_files in H.
    apply elem_of_list_to_set in H.
    exact (PresenceFacts.captured_name _ _ _ _ _ H).
  - unfold RebuildProject.get_existing_files in H.
    apply elem_of_list_to_set in H.
    exact (PresenceFacts.captured_name _ _ _ _ _ H).
Qed.

Lemma get_existing_files_sound_witness :
  T "A.swift" ∈ AddMissingFiles.get_existing_files (one_file (T "A.swift"))
  /\ exists pre post,
       one_file (T "A.swift") = pre ++ T "/* A.swift */" ++ post.
Proof.
  assert (H : T "A.swift"
              ∈ AddMissingFiles.get_existing_files (one_file (T "A.swift"))).
  { unfold AddMissingFiles.get_existing_files. apply elem_of_list_to_set.
    apply list_elem_of_In. vm_compute. left. reflexivity. }
  split; [exact H|].
  destruct (proj1 (get_existing_files_sound _ _) H)
    as (stem & pre & post & _ & _ & _ & E).
  exists pre, post. exact E.
Defined.

Lemma add_missing_files_all_present_witness :
  let w := world_of PresenceSpec.all_listed zeros in
  Sys.fs w !! AddMissingFiles.project_path = Some PresenceSpec.all_listed
  /\ Forall (fun f => f ∈ AddMissingFiles.get_existing_files
                            PresenceSpec.all_listed)
            AddMissingFiles.MISSING_FILES
  /\ fst (AddMissingFiles.main w) = Sys.Ok 0%Z
  /\ Sys.writes (snd (AddMissingFiles.main w)) = [].
Proof.
  intros w.
  assert (H1 : Sys.fs w !! AddMissingFiles.project_path
               = Some PresenceSpec.all_listed) by reflexivity.
  assert (H2 : Forall (fun f => f ∈ AddMissingFiles.get_existing_files
                                      PresenceSpec.all_listed)
                      AddMissingFiles.MISSING_FILES).
  { apply Forall_forall. intros f Hf.
    unfold AddMissingFiles.get_existing_files. apply elem_of_list_to_set.
    assert (E : Re.findall1 AddMissingFiles.existing_re PresenceSpec.all_listed
                = AddMissingFiles.MISSING_FILES) by (vm_compute; reflexivity).
    rewrite E. exact Hf. }
  split; [exact H1|]. split; [exact H2|].
  rewrite (add_missing_files_all_present w _ H1 H2). split; reflexivity.
Defined.

(** ** Lines with another kind of identifier *)
Module ForeignFacts.
Import Re ReSpec ReFacts GroupFacts EntrySpec EntryFacts DedupeSources
       DedupeSpec ForeignSpec.

Lemma rep_short {A} p (k : text -> nat -> option A) c s :
  forall x n i,
    all_in p x -> length x < n -> mem p c = false ->
    rep p n k (x ++ c :: s) i = None.
Proof.
  induction x as [|d x IH]; intros n i Hx Hn Hc.
  - destruct n; [cbn in Hn; lia|]. cbn. rewrite Hc. reflexivity.
  - destruct n; [cbn in Hn; lia|].
    inversion Hx as [|? ? Hd Hx']; subst.
    cbn [app rep]. rewrite Hd. apply IH; [exact Hx'| cbn in Hn; lia|exact Hc].
Qed.

(** No entry starts inside a run of fewer than 24 digits. *)
Lemma match_at_hex_run x s i :
  all_in hexAF x -> x <> [] -> length x < 24 ->
  match_at entry_re (x ++ " "%char :: s) i = None.
Proof.
  intros Hx Hne Hl. unfold match_at. rewrite entry_re_eq. cbn [run].
  destruct x as [|c x]; [congruence|].
  assert (Hc : mem tabsp c = false)
    by (apply hex_not_tabsp; inversion Hx; assumption).
  cbn [app]. rewrite star_greedy_stop by exact Hc.
  change (c :: x ++ " "%char :: s) with ((c :: x) ++ " "%char :: s).
  apply rep_short; [exact Hx|exact Hl|reflexivity].
Qed.

Lemma scan_hex_run {B} (emit : Match -> list B) s :
  forall x i,
    all_in hexAF x -> length x < 24 ->
    scan entry_re emit (fun _ => []) (x ++ " "%char :: s) i 0
    = scan entry_re emit (fun _ => []) (" "%char :: s) (i + length x) 0.
Proof.
  induction x as [|c x IH]; intros i Hx Hl.
  - cbn [app length]. rewrite Nat.add_0_r. reflexivity.
  - cbn [app].
    rewrite scan_no_match
      by (apply (match_at_hex_run (c :: x)); [exact Hx|discriminate|exact Hl]).
    inversion Hx as [|? ? _ Hx']; subst.
    cbn [app]. rewrite IH by (try exact Hx'; cbn in Hl; lia).
    f_equal. cbn [length]. lia.
Qed.

(** The line of add_presleeplog.py holds no entry. *)
Lemma scan_psl_line {B} (emit : Match -> list B) digits i :
  all_in hexAF digits -> length digits = 21 ->
  scan entry_re emit (fun _ => []) (psl_line digits ++ [NL; TAB; TAB; TAB]) i 0
  = [].
Proof.
  intros Hx Hl. unfold psl_line, Entries.source_entry.
  rewrite <- !app_assoc. cbn [app T list_ascii_of_string].
  do 7 (rewrite scan_no_match by reflexivity; cbn [app]).
  rewrite scan_hex_run by (try exact Hx; lia).
  reflexivity.
Qed.

(** The entries of rendered lines are read back whatever follows them. *)
Lemma scan_lines_then entries tail : forall pre,
  Forall wf_entry entries ->
  let content := pre ++ lines entries ++ tail in
  scan entry_re (fun mt => [(group content mt 1, group content mt 2)])
       (fun _ => []) (lines entries ++ tail) (length pre) 0
  = entries
    ++ scan entry_re (fun mt => [(group content mt 1, group content mt 2)])
         (fun _ => []) tail (length pre + length (lines entries)) 0.
Proof.
  induction entries as [|[uuid name] entries IH]; intros pre Hwf content.
  - cbn [lines map concat app length]. rewrite Nat.add_0_r. reflexivity.
  - inversion Hwf as [|? ? He Hwf']; subst.
    pose proof He as (Hlen & _ & _ & _). cbn [fst] in Hlen.
    set (rest := NL :: lines entries ++ tail).
    assert (Es : lines ((uuid, name) :: entries) ++ tail
                 = TAB :: ([TAB; TAB; TAB] ++ uuid ++ T " /* " ++ name ++ T " */,")
                          ++ rest).
    { unfold rest.
      change (lines ((uuid, name) :: entries))
        with (entry_line (uuid, name) ++ lines entries).
      unfold entry_line. cbn [fst snd]. rewrite <- !app_assoc. reflexivity. }
    assert (Em : match_at entry_re
                   (TAB :: ([TAB; TAB; TAB] ++ uuid ++ T " /* " ++ name ++ T " */,")
                           ++ rest) (length pre)
                 = Some (mkMatch (length pre) (length pre + 36 + length name)
                           [(length pre + 4, length pre + 28);
                            (length pre + 32, length pre + 32 + length name)])).
    { rewrite <- (match_at_entry uuid name rest (length pre) He).
      f_equal. cbn [app]. rewrite <- ?app_assoc. cbn [app].
      rewrite <- ?app_assoc. reflexivity. }
    rewrite Es, (scan_match _ _ _ _ _ _ _ Em) by (cbn [m_end]; lia).
    cbn [m_end].
    replace (length pre + 36 + length name - length pre - 1)
      with (length ([TAB; TAB; TAB] ++ uuid ++ T " /* " ++ name ++ T " */,"))
      by (rewrite !length_app; cbn [length T list_ascii_of_string]; lia).
    rewrite scan_skip. unfold rest at 1.
    rewrite scan_no_match by apply match_at_newline.
    cbn [app]. f_equal.
    + assert (Ec : content
                   = (pre ++ [TAB; TAB; TAB; TAB]) ++ uuid
                     ++ (T " /* " ++ name ++ T " */," ++ rest)).
      { unfold content. rewrite Es. rewrite <- !app_assoc. reflexivity. }
      assert (Ec' : content
                    = (pre ++ [TAB; TAB; TAB; TAB] ++ uuid ++ T " /* ") ++ name
                      ++ (T " */," ++ rest)).
      { unfold content. rewrite Es. rewrite <- !app_assoc. reflexivity. }
      unfold group, start, end_, span_of. cbn [m_spans nth fst snd]. f_equal.
      * rewrite Ec. apply slice_middle; rewrite !length_app; cbn [length]; lia.
      * rewrite Ec'. apply slice_middle; rewrite !length_app;
          cbn [length T list_ascii_of_string]; rewrite ?length_app;
          cbn [length T list_ascii_of_string]; lia.
    + specialize (IH (pre ++ entry_line (uuid, name)) Hwf').
      cbn zeta in IH.
      replace ((pre ++ entry_line (uuid, name)) ++ lines entries ++ tail)
        with content in IH.
      2:{ unfold content, lines. cbn [map concat].
          rewrite <- !app_assoc. reflexivity. }
      assert (El : length (lines ((uuid, name) :: entries))
                   = length (entry_line (uuid, name)) + length (lines entries)).
      { unfold lines. cbn [map concat]. rewrite length_app. reflexivity. }
      rewrite El, Nat.add_assoc, <- (length_app pre).
      etrans; [|exact IH]. f_equal.
      unfold entry_line. cbn [fst snd].
      repeat first [rewrite !length_app | progress cbn [length T list_ascii_of_string]].
      lia.
Qed.

(** Reading a files list that ends with the line of add_presleeplog.py
    gives the entries before it. *)
Lemma findall_list_with_psl entries digits :
  Forall wf_entry entries -> all_in hexAF digits -> length digits = 21 ->
  findall2 entry_re (list_with_psl entries digits) = entries.
Proof.
  intros Hwf Hx Hl. unfold findall2, list_with_psl.
  change ([NL] ++ lines entries ++ psl_line digits ++ [NL; TAB; TAB; TAB])
    with (NL :: lines entries ++ psl_line digits ++ [NL; TAB; TAB; TAB]).
  rewrite scan_no_match by apply match_at_newline.
  cbn [app].
  etrans;
    [exact (scan_lines_then entries (psl_line digits ++ [NL; TAB; TAB; TAB])
              [NL] Hwf)|].
  rewrite scan_psl_line by assumption. apply app_nil_r.
Qed.

End ForeignFacts.

(** X8. dedupe_sources.py reads its files list with a pattern that wants
    24 characters over [A-F0-9] as identifier, and rebuilds the list from
    what it read.  The line add_presleeplog.py appends has an identifier
    that begins with [PSL]: it is not read, so a run of dedupe_sources.py
    on a list that ends with it writes the list without it, although the
    file is no duplicate. *)
Theorem dedupe_drops_presleeplog_line (w : Sys.World) content mt entries digits :
  Sys.fs w !! DedupeSources.PROJECT_PATH = Some content ->
  Re.search DedupeSources.sources_re content = Some mt ->
  Re.group content mt 2 = ForeignSpec.list_with_psl entries digits ->
  Forall EntrySpec.wf_entry entries ->
  ReSpec.all_in EntrySpec.hexAF digits -> length digits = 21 ->
  Sys.fs (snd (DedupeSources.deduplicate_sources w))
    !! DedupeSources.PROJECT_PATH
  = Some (firstn (Re.start mt 0) content
          ++ Re.group content mt 1
          ++ DedupeSources.render_files (DedupeSpec.first_occurrences entries)
          ++ Re.group content mt 3
          ++ skipn (Re.end_ mt 0) content).
Proof.
  intros Hfs Hs Hg Hwf Hx Hl.
  pose proof (DedupeFacts.dedupe_run w content Hfs) as Hrun.
  rewrite Hs in Hrun. destruct Hrun as (out & E). rewrite E.
  cbn [snd Sys.fs]. rewrite lookup_insert_eq.
  unfold DedupeSpec.rebuilt.
  rewrite Hg, ForeignFacts.findall_list_with_psl by assumption.
  reflexivity.
Qed.

(** add_presleeplog.py, then dedupe_sources.py, on a manifest that holds
    [A.swift]: the first adds [PreSleepLogView.swift] to the Sources phase,
    the second takes it out again. *)
Lemma dedupe_drops_presleeplog_line_witness :
  let w := ComposeSpec.world_after_presleeplog in
  let content := ComposeSpec.content_after_presleeplog in
  let mt := ComposeSpec.match_after_presleeplog in
  (Sys.fs w !! DedupeSources.PROJECT_PATH = Some content
   /\ Re.search DedupeSources.sources_re content = Some mt
   /\ Re.group content mt 2
      = ForeignSpec.list_with_psl [(idB, T "A.swift in Sources")]
          ForeignSpec.psl_digits)
  /\ RecordSpec.memberships (T "PreSleepLogView.swift") content = 1
  /\ RecordSpec.memberships (T "PreSleepLogView.swift")
       <$> Sys.fs (snd (DedupeSources.deduplicate_sources w))
             !! DedupeSources.PROJECT_PATH
     = Some 0.
Proof.
  intros w content mt.
  assert (H1 : Sys.fs w !! DedupeSources.PROJECT_PATH = Some content)
    by (vm_compute; reflexivity).
  assert (H2 : Re.search DedupeSources.sources_re content = Some mt)
    by (vm_compute; reflexivity).
  assert (H3 : Re.group content mt 2
               = ForeignSpec.list_with_psl [(idB, T "A.swift in Sources")]
                   ForeignSpec.psl_digits)
    by (vm_compute; reflexivity).
  split; [auto|]. split; [vm_compute; reflexivity|].
  rewrite (dedupe_drops_presleeplog_line w content mt _ _ H1 H2 H3).
  - vm_compute. reflexivity.
  - repeat constructor; discriminate.
  - repeat constructor.
  - reflexivity.
Defined.

(** X9. The files list dedupe_sources.py writes is in its own layout: the
    entries it keeps all have an identifier of 24 characters over [A-F0-9]
    and a name without [*], they are among the entries read from the old
    list, and reading the new list with the script's pattern gives exactly
    the kept entries back. *)
Theorem dedupe_writes_canonical_list (w : Sys.World) content mt :
  Sys.fs w !! DedupeSources.PROJECT_PATH = Some content ->
  Re.search DedupeSources.sources_re content = Some mt ->
  exists kept,
    Sys.fs (snd (DedupeSources.deduplicate_sources w))
      !! DedupeSources.PROJECT_PATH
    = Some (firstn (Re.start mt 0) content
            ++ Re.group content mt 1
            ++ DedupeSources.render_files kept
            ++ Re.group content mt 3
            ++ skipn (Re.end_ mt 0) content)
    /\ Forall EntrySpec.wf_entry kept
    /\ kept ⊆ Re.findall2 DedupeSources.entry_re (Re.group content mt 2)
    /\ Re.findall2 DedupeSources.entry_re (DedupeSources.render_files kept)
       = kept.
Proof.
  intros Hfs Hs.
  pose proof (DedupeFacts.dedupe_run w content Hfs) as Hrun.
  rewrite Hs in Hrun. destruct Hrun as (out & E).
  set (entries := Re.findall2 DedupeSources.entry_re (Re.group content mt 2)).
  exists (DedupeSpec.first_occurrences entries).
  assert (Hsub : DedupeSpec.first_occurrences entries ⊆ entries).
  { intros e He. eapply elem_of_sublist; [exact He|].
    apply FirstFacts.first_occurrences_sublist. }
  assert (Hwf : Forall EntrySpec.wf_entry (DedupeSpec.first_occurrences entries)).
  { apply Forall_forall. intros e He. apply Hsub in He.
    apply EntryFacts.findall_entries in He as [He _]. exact He. }
  split; [|split; [exact Hwf|split; [exact Hsub|]]].
  - rewrite E. cbn [snd Sys.fs]. rewrite lookup_insert_eq. reflexivity.
  - apply EntryFacts.findall_render, Hwf.
Qed.

Lemma dedupe_writes_canonical_list_witness :
  (Sys.fs world_dup !! DedupeSources.PROJECT_PATH = Some with_duplicate
   /\ Re.search DedupeSources.sources_re with_duplicate = Some match_dup)
  /\ exists kept,
       Sys.fs (snd (DedupeSources.deduplicate_sources world_dup))
         !! DedupeSources.PROJECT_PATH
       = Some (firstn (Re.start match_dup 0) with_duplicate
               ++ Re.group with_duplicate match_dup 1
               ++ DedupeSources.render_files kept
               ++ Re.group with_duplicate match_dup 3
               ++ skipn (Re.end_ match_dup 0) with_duplicate)
       /\ Forall EntrySpec.wf_entry kept.
Proof.
  assert (H1 : Sys.fs world_dup !! DedupeSources.PROJECT_PATH
               = Some with_duplicate) by reflexivity.
  assert (H2 : Re.search DedupeSources.sources_re with_duplicate
               = Some match_dup) by (vm_compute; reflexivity).
  split; [auto|].
  destruct (dedupe_writes_canonical_list world_dup _ _ H1 H2)
    as (kept & E & Hwf & _).
  exists kept. auto.
Defined.

(** ** The report of dedupe_sources.py *)
Module ReportFacts.
Import Sys DedupeSources DedupeSpec DedupeFacts ReportSpec.

Lemma loop_report entries : forall v (w : World),
  exists v',
    for_each entries loop_body v w
    = (Ok v',
       mkWorld (fs w)
         (stdout w ++ map dropped_line (dropped (seen_files v) entries))
         (writes w) (urandom w) (drawn w))
    /\ duplicates_removed v'
       = duplicates_removed v + length (dropped (seen_files v) entries).
Proof.
  induction entries as [|e entries IH]; intros v w.
  - exists v. cbn. rewrite app_nil_r. split; [destruct w; reflexivity|lia].
  - change (for_each (e :: entries) loop_body v w)
      with (bind (loop_body e v) (for_each entries loop_body) w).
    unfold bind. rewrite loop_body_run. cbn [dropped].
    destruct (decide (key e ∈ seen_files v)) as [Hin|Hnin].
    + match goal with |- context [for_each entries loop_body ?v1 ?w1] =>
        destruct (IH v1 w1) as (v' & E & Hd) end.
      exists v'. rewrite E.
      cbn [fs stdout writes urandom drawn seen_files duplicates_removed
           map length] in *.
      split; [|lia]. rewrite <- app_assoc. reflexivity.
    + match goal with |- context [for_each entries loop_body ?v1 ?w1] =>
        destruct (IH v1 w1) as (v' & E & Hd) end.
      exists v'. rewrite E.
      cbn [seen_files duplicates_removed] in *. split; [reflexivity|lia].
Qed.

End ReportFacts.

(** X10. The report of a dedupe_sources.py run that finds the Sources
    block: the number of entries read, one line for each entry dropped (in
    the order of the list, naming the file), the number dropped and the
    number kept; the two numbers add up to the number read. *)
Theorem dedupe_report (w : Sys.World) content mt :
  Sys.fs w !! DedupeSources.PROJECT_PATH = Some content ->
  Re.search DedupeSources.sources_re content = Some mt ->
  let entries :=
    Re.findall2 DedupeSources.entry_re (Re.group content mt 2) in
  let gone := ReportSpec.dropped ∅ entries in
  let kept := DedupeSpec.first_occurrences entries in
  Sys.stdout (snd (DedupeSources.deduplicate_sources w))
  = Sys.stdout w
    ++ [T "Found " ++ Sys.str_nat (length entries)
        ++ T " entries in Sources build phase"]
    ++ map ReportSpec.dropped_line gone
    ++ [[NL] ++ T "Removed " ++ Sys.str_nat (length gone)
        ++ T " duplicate entries";
        T "Keeping " ++ Sys.str_nat (length kept) ++ T " unique entries";
        [NL] ++ T "✅ Sources build phase deduplicated"]
  /\ length gone + length kept = length entries.
Proof.
  intros Hfs Hs entries gone kept.
  unfold DedupeSources.deduplicate_sources, DedupeSources.read_project.
  unfold Sys.bind at 1. unfold Sys.read_file. rewrite Hfs, Hs.
  unfold Sys.bind at 1. unfold Sys.print at 1. unfold Sys.bind at 1.
  fold entries.
  match goal with |- context [Sys.for_each entries _ ?v1 ?w1] =>
    destruct (ReportFacts.loop_report entries v1 w1) as (v' & E & Hd);
    destruct (DedupeFacts.loop_run entries v1 w1)
      as (v'' & w'' & E' & _ & Hu & Hn)
  end.
  rewrite E in E'. injection E' as <- _.
  cbn [DedupeSources.seen_files DedupeSources.unique_entries
       DedupeSources.duplicates_removed app length] in Hd, Hu, Hn.
  rewrite DedupeFacts.filter_not_in_empty in Hu by reflexivity.
  fold gone in Hd. fold kept in Hu.
  rewrite E.
  unfold Sys.bind, Sys.print, DedupeSources.write_project, Sys.write_file.
  cbn [snd Sys.fs Sys.stdout Sys.writes Sys.urandom Sys.drawn].
  cbn [DedupeSources.seen_files]. fold gone.
  rewrite Hd, Hu. split; [|rewrite Hd, Hu in Hn; lia].
  rewrite <- !app_assoc. reflexivity.
Qed.

Lemma dedupe_report_witness :
  (Sys.fs world_dup !! DedupeSources.PROJECT_PATH = Some with_duplicate
   /\ Re.search DedupeSources.sources_re with_duplicate = Some match_dup)
  /\ Sys.stdout (snd (DedupeSources.deduplicate_sources world_dup))
     = [T "Found 3 entries in Sources build phase";
        T "  Removing duplicate: A.swift";
        [NL] ++ T "Removed 1 duplicate entries";
        T "Keeping 2 unique entries";
        [NL] ++ T "✅ Sources build phase deduplicated"].
Proof.
  assert (H1 : Sys.fs world_dup !! DedupeSources.PROJECT_PATH
               = Some with_duplicate) by reflexivity.
  assert (H2 : Re.search DedupeSources.sources_re with_duplicate
               = Some match_dup) by (vm_compute; reflexivity).
  split; [auto|].
  rewrite (proj1 (dedupe_report world_dup _ _ H1 H2)).
  vm_compute. reflexivity.
Defined.

(** ** Text a pattern cannot match *)
Module FrameFacts.
Import Re ReSpec ReFacts PyFacts FrameSpec.

Lemma needs_lit l lit a b : l = a ++ lit ++ b -> needs (Lit l) lit.
Proof.
  intros E x i g H. apply matches_Lit_inv in H as [-> _]. eauto.
Qed.

Lemma needs_seq_l r1 r2 lit : needs r1 lit -> needs (Seq r1 r2) lit.
Proof.
  intros H x i g Hm.
  apply matches_Seq_inv in Hm as (x1 & x2 & g1 & g2 & -> & _ & H1 & _).
  apply H in H1 as (a & b & ->). exists a, (b ++ x2).
  rewrite <- !app_assoc. reflexivity.
Qed.

Lemma needs_seq_r r1 r2 lit : needs r2 lit -> needs (Seq r1 r2) lit.
Proof.
  intros H x i g Hm.
  apply matches_Seq_inv in Hm as (x1 & x2 & g1 & g2 & -> & _ & _ & H2).
  apply H in H2 as (a & b & ->). exists (x1 ++ a), b.
  rewrite <- !app_assoc. reflexivity.
Qed.

Lemma needs_grp r lit : needs r lit -> needs (Grp r) lit.
Proof.
  intros H x i g Hm. apply matches_Grp_inv in Hm as (g' & _ & Hm). eauto.
Qed.

(** A literal that holds [lit] inside a longer one. *)
Lemma needs_weaken r lit lit' a b :
  lit = a ++ lit' ++ b -> needs r lit -> needs r lit'.
Proof.
  intros -> H x i g Hm. apply H in Hm as (a' & b' & ->).
  exists (a' ++ a), (b ++ b'). rewrite <- !app_assoc. reflexivity.
Qed.

Section Absent.
Variables (r : re) (lit content : text).
Hypothesis Hneeds : needs r lit.
Hypothesis Habsent : Py.contains lit content = false.

Lemma absent_match_at pre s i :
  content = pre ++ s -> match_at r s i = None.
Proof using Hneeds Habsent.
  intros Ec. destruct (match_at r s i) as [mt|] eqn:Em; [|reflexivity].
  apply match_at_sound in Em as (x & s' & -> & _ & _ & Hm).
  apply Hneeds in Hm as (a & b & ->).
  assert (H : Py.contains lit content = true).
  { apply contains_spec. exists (pre ++ a), (b ++ s').
    rewrite Ec, <- !app_assoc. reflexivity. }
  congruence.
Qed.

Lemma absent_scan {B} (emit : Match -> list B) (keep : ascii -> list B) :
  forall s pre i,
    content = pre ++ s ->
    scan r emit keep s i 0 = concat (map keep s).
Proof using Hneeds Habsent.
  induction s as [|c s IH]; intros pre i Ec; cbn [scan map concat].
  - rewrite (absent_match_at pre [] i Ec). reflexivity.
  - rewrite (absent_match_at pre (c :: s) i Ec). f_equal.
    apply (IH (pre ++ [c])). rewrite Ec, <- app_assoc. reflexivity.
Qed.

Lemma absent_search : search r content = None.
Proof using Hneeds Habsent.
  unfold search.
  assert (H : forall s pre i, content = pre ++ s -> search_from r s i = None).
  { induction s as [|c s IH]; intros pre i Ec; cbn [search_from];
      rewrite (absent_match_at pre _ i Ec); [reflexivity|].
    apply (IH (pre ++ [c])). rewrite Ec, <- app_assoc. reflexivity. }
  apply (H content []). reflexivity.
Qed.

Lemma absent_remove : remove r content = content.
Proof using Hneeds Habsent.
  unfold remove, sub. rewrite (absent_scan _ _ content []) by reflexivity.
  clear. induction content as [|c s IH]; [reflexivity|].
  cbn [map concat app]. rewrite IH. reflexivity.
Qed.

End Absent.

End FrameFacts.

(** ** remove_duplicates.py without legacy references *)
Module LegacyFacts.
Import Re ReSpec FrameSpec FrameFacts LegacySpec Sys RemoveDuplicates.

Lemma legacy_compile :
  Forall (fun f => compile (legacy_pattern f) = Some (legacy_re f))
         DUPLICATE_LEGACY_FILES.
Proof. repeat constructor; vm_compute; reflexivity. Qed.

Lemma legacy_needs f : needs (legacy_re f) legacy_mark.
Proof.
  unfold legacy_re. apply needs_seq_r, needs_seq_r, needs_seq_r, needs_seq_l.
  apply (needs_lit _ _ [] (f ++ [DQ])).
  unfold legacy_mark. rewrite <- !app_assoc. reflexivity.
Qed.

Lemma remove_body_absent f content (w : World) :
  compile (legacy_pattern f) = Some (legacy_re f) ->
  Py.contains legacy_mark content = false ->
  remove_body f content w
  = (Ok content,
     mkWorld (fs w) (stdout w ++ [not_found_line f]) (writes w)
             (urandom w) (drawn w)).
Proof.
  intros Hc Ha. unfold remove_body, re_compile, compile in *.
  unfold bind at 1. rewrite Hc. unfold ret at 1.
  rewrite (absent_search _ _ _ (legacy_needs f) Ha).
  reflexivity.
Qed.

Lemma loop_absent files : forall content (w : World),
  Forall (fun f => compile (legacy_pattern f) = Some (legacy_re f)) files ->
  Py.contains legacy_mark content = false ->
  for_each files remove_body content w
  = (Ok content,
     mkWorld (fs w) (stdout w ++ map not_found_line files) (writes w)
             (urandom w) (drawn w)).
Proof.
  induction files as [|f files IH]; intros content w Hc Ha.
  - cbn. rewrite app_nil_r. destruct w; reflexivity.
  - inversion Hc as [|? ? Hf Hfs]; subst.
    cbn [for_each map]. unfold bind.
    rewrite remove_body_absent by assumption.
    rewrite IH by assumption.
    cbn [fs stdout writes urandom drawn]. rewrite <- app_assoc. reflexivity.
Qed.

End LegacyFacts.

(** X11. remove_duplicates.py on a manifest that has no reference with a
    path under [legacy/]: each of the three files is reported as not found,
    and the manifest is written back exactly as it was read. *)
Theorem remove_duplicates_without_legacy (w : Sys.World) content :
  Sys.fs w !! RemoveDuplicates.PROJECT_PATH = Some content ->
  Py.contains LegacySpec.legacy_mark content = false ->
  RemoveDuplicates.remove_duplicate_builds w
  = (Sys.Ok tt,
     Sys.mkWorld (Sys.fs w)
       (Sys.stdout w
        ++ [T "Removing duplicate legacy files from build sources..."]
        ++ map LegacySpec.not_found_line RemoveDuplicates.DUPLICATE_LEGACY_FILES
        ++ [[NL] ++ T "✅ Duplicate files removed from build"])
       (Sys.writes w ++ [RemoveDuplicates.PROJECT_PATH])
       (Sys.urandom w) (Sys.drawn w)).
Proof.
  intros Hfs Ha.
  unfold RemoveDuplicates.remove_duplicate_builds, RemoveDuplicates.read_project.
  unfold Sys.bind at 1. unfold Sys.read_file. rewrite Hfs.
  unfold Sys.bind at 1. unfold Sys.print at 1.
  unfold Sys.bind at 1.
  rewrite LegacyFacts.loop_absent by (try apply LegacyFacts.legacy_compile; exact Ha).
  unfold Sys.bind, RemoveDuplicates.write_project, Sys.write_file, Sys.print.
  cbn [Sys.fs Sys.stdout Sys.writes Sys.urandom Sys.drawn].
  rewrite (insert_id _ _ _ Hfs). rewrite <- !app_assoc. reflexivity.
Qed.

Lemma remove_duplicates_without_legacy_witness :
  (Sys.fs world_one !! RemoveDuplicates.PROJECT_PATH
   = Some (one_file (T "A.swift"))
   /\ Py.contains LegacySpec.legacy_mark (one_file (T "A.swift")) = false)
  /\ Sys.fs (snd (RemoveDuplicates.remove_duplicate_builds world_one))
     = Sys.fs world_one.
Proof.
  assert (H1 : Sys.fs world_one !! RemoveDuplicates.PROJECT_PATH
               = Some (one_file (T "A.swift"))) by reflexivity.
  assert (H2 : Py.contains LegacySpec.legacy_mark (one_file (T "A.swift"))
               = false) by (vm_compute; reflexivity).
  split; [auto|].
  rewrite (remove_duplicates_without_legacy world_one _ H1 H2). reflexivity.
Defined.

(** ** clean_project.py on files that are not built *)
Module CleanFrameFacts.
Import Re ReSpec FrameSpec FrameFacts CleanSpec MarkSpec.

Lemma build_file_needs f : needs (build_file_re f) (built_mark f).
Proof.
  unfold build_file_re. apply needs_seq_r, needs_seq_r, needs_seq_l.
  apply (needs_lit _ _ [] (T " = {isa = PBXBuildFile")).
  unfold built_mark. rewrite <- !app_assoc. reflexivity.
Qed.

Lemma files_needs f : needs (files_re f) (built_mark f).
Proof.
  unfold files_re. apply needs_seq_r, needs_seq_r, needs_seq_l.
  apply (needs_lit _ _ [] []).
  unfold built_mark. rewrite app_nil_r. reflexivity.
Qed.

Lemma clean_strip_absent content f :
  Py.contains (built_mark f) content = false -> strip content f = content.
Proof.
  intros H. unfold strip.
  rewrite (absent_remove _ _ _ (build_file_needs f) H).
  apply (absent_remove _ _ _ (files_needs f) H).
Qed.

Lemma clean_fold_strip_absent files : forall content,
  Forall (fun f => Py.contains (built_mark f) content = false) files ->
  fold_left strip files content = content.
Proof.
  induction files as [|f files IH]; intros content H; [reflexivity|].
  inversion H as [|? ? Hf Hfs]; subst.
  cbn [fold_left]. rewrite clean_strip_absent by exact Hf. apply IH, Hfs.
Qed.

Lemma clean_project_run (w : Sys.World) content :
  Sys.fs w !! CleanProject.PROJECT_PATH = Some content ->
  CleanProject.clean_project w
  = (Sys.Ok tt,
     Sys.mkWorld
       (<[CleanProject.PROJECT_PATH := cleaned content]>
          (<[backup_path := content]> (Sys.fs w)))
       (Sys.stdout w ++ [T "Cleaning DoseTap Xcode project...";
                         T "✅ Removed 34 files from build"])
       (Sys.writes w ++ [backup_path; CleanProject.PROJECT_PATH])
       (Sys.urandom w) (Sys.drawn w)).
Proof.
  intros Hfs. unfold CleanProject.clean_project.
  unfold Sys.bind at 1. unfold Sys.print at 1.
  unfold Sys.bind at 1. unfold Sys.read_file. cbn [Sys.fs]. rewrite Hfs.
  unfold Sys.bind at 1. unfold Sys.copy_file. cbn [Sys.fs]. rewrite Hfs.
  unfold Sys.bind at 1.
  rewrite CleanFacts.clean_loop_run by apply CleanFacts.patterns_compile.
  unfold Sys.bind, Sys.write_file, Sys.print.
  cbn [Sys.fs Sys.stdout Sys.writes Sys.urandom Sys.drawn].
  f_equal. f_equal; rewrite <- ?app_assoc; reflexivity.
Qed.

End CleanFrameFacts.

(** X12. clean_project.py touches only what carries
    [/* name in Sources */] for one of its 34 names: on a manifest that has
    none of these it still reports 34 files removed, but the manifest it
    writes is the one it read, and the only new file is the backup. *)
Theorem clean_project_nothing_built (w : Sys.World) content :
  Sys.fs w !! CleanProject.PROJECT_PATH = Some content ->
  Forall (fun f => Py.contains (MarkSpec.built_mark f) content = false)
         CleanProject.REMOVE_FROM_BUILD ->
  CleanProject.clean_project w
  = (Sys.Ok tt,
     Sys.mkWorld
       (<[CleanSpec.backup_path := content]> (Sys.fs w))
       (Sys.stdout w ++ [T "Cleaning DoseTap Xcode project...";
                         T "✅ Removed 34 files from build"])
       (Sys.writes w ++ [CleanSpec.backup_path; CleanProject.PROJECT_PATH])
       (Sys.urandom w) (Sys.drawn w)).
Proof.
  intros Hfs Ha. rewrite (CleanFrameFacts.clean_project_run w content Hfs).
  unfold CleanSpec.cleaned.
  rewrite CleanFrameFacts.clean_fold_strip_absent by exact Ha.
  rewrite insert_id; [reflexivity|].
  rewrite lookup_insert_ne by discriminate. exact Hfs.
Qed.

Lemma clean_project_nothing_built_witness :
  (Sys.fs world_one !! CleanProject.PROJECT_PATH = Some (one_file (T "A.swift"))
   /\ Forall (fun f => Py.contains (MarkSpec.built_mark f)
                         (one_file (T "A.swift")) = false)
             CleanProject.REMOVE_FROM_BUILD)
  /\ Sys.fs (snd (CleanProject.clean_project world_one))
       !! CleanProject.PROJECT_PATH
     = Some (one_file (T "A.swift")).
Proof.
  assert (H1 : Sys.fs world_one !! CleanProject.PROJECT_PATH
               = Some (one_file (T "A.swift"))) by reflexivity.
  assert (H2 : Forall (fun f => Py.contains (MarkSpec.built_mark f)
                                  (one_file (T "A.swift")) = false)
                      CleanProject.REMOVE_FROM_BUILD)
    by (repeat constructor; vm_compute; reflexivity).
  split; [auto|].
  rewrite (clean_project_nothing_built world_one _ H1 H2).
  cbn [snd Sys.fs]. rewrite lookup_insert_ne by discriminate. exact H1.
Defined.

(** ** rebuild_project.py: removing the broken references *)
Module RebuildFacts.
Import Re ReSpec FrameSpec FrameFacts RebuildSpec MarkSpec Sys RebuildProject.

Lemma rebuild_patterns_compile :
  Forall (fun f =>
            compile (build_file_pattern f) = Some (build_file_re f)
            /\ compile (file_reference_pattern f) = Some (file_reference_re f)
            /\ compile (children_pattern f) = Some (children_re f)
            /\ compile (files_pattern f) = Some (files_re f))
         broken_files.
Proof. repeat constructor; vm_compute; reflexivity. Qed.

Lemma rebuild_body_run f content (w : World) :
  compile (build_file_pattern f) = Some (build_file_re f)
  /\ compile (file_reference_pattern f) = Some (file_reference_re f)
  /\ compile (children_pattern f) = Some (children_re f)
  /\ compile (files_pattern f) = Some (files_re f) ->
  remove_body f content w = (Ok (strip content f), w).
Proof.
  intros (H1 & H2 & H3 & H4).
  unfold remove_body, re_remove, re_compile, compile in *.
  unfold bind at 1. unfold bind at 1. rewrite H1. unfold ret at 1.
  unfold bind at 1. unfold bind at 1. rewrite H2. unfold ret at 1.
  unfold bind at 1. unfold bind at 1. rewrite H3. unfold ret at 1.
  unfold bind at 1. rewrite H4. reflexivity.
Qed.

Lemma rebuild_loop_run files : forall content (w : World),
  Forall (fun f =>
            compile (build_file_pattern f) = Some (build_file_re f)
            /\ compile (file_reference_pattern f) = Some (file_reference_re f)
            /\ compile (children_pattern f) = Some (children_re f)
            /\ compile (files_pattern f) = Some (files_re f)) files ->
  for_each files remove_body content w
  = (Ok (fold_left strip files content), w).
Proof.
  induction files as [|f files IH]; intros content w H; [reflexivity|].
  inversion H as [|? ? Hf Hfs]; subst.
  cbn [for_each fold_left]. unfold bind.
  rewrite rebuild_body_run by exact Hf. apply IH, Hfs.
Qed.

Lemma rebuild_strip_length content f : length (strip content f) <= length content.
Proof.
  unfold strip.
  repeat (etrans; [apply CleanFacts.remove_length|]). reflexivity.
Qed.

Lemma rebuild_fold_strip_length files : forall content,
  length (fold_left strip files content) <= length content.
Proof.
  induction files as [|f files IH]; intros content; [reflexivity|].
  cbn [fold_left]. etrans; [apply IH|apply rebuild_strip_length].
Qed.

Lemma rebuild_strip_absent content f :
  Py.contains (comment_mark f) content = false -> strip content f = content.
Proof.
  intros H. unfold strip.
  assert (N1 : needs (build_file_re f) (comment_mark f)).
  { apply needs_seq_r, needs_seq_r, needs_seq_l.
    apply (needs_lit _ _ [] (T "in Sources */ = {")).
    unfold comment_mark. rewrite <- !app_assoc. reflexivity. }
  assert (N2 : needs (file_reference_re f) (comment_mark f)).
  { apply needs_seq_r, needs_seq_r, needs_seq_l.
    apply (needs_lit _ _ [] (T "*/ = {")).
    unfold comment_mark. rewrite <- !app_assoc. reflexivity. }
  assert (N3 : needs (children_re f) (comment_mark f)).
  { apply needs_seq_r, needs_seq_r, needs_seq_l.
    apply (needs_lit _ _ [] (T "*/")).
    unfold comment_mark. rewrite <- !app_assoc. reflexivity. }
  assert (N4 : needs (files_re f) (comment_mark f)).
  { apply needs_seq_r, needs_seq_r, needs_seq_l.
    apply (needs_lit _ _ [] (T "in Sources */")).
    unfold comment_mark. rewrite <- !app_assoc. reflexivity. }
  rewrite (absent_remove _ _ _ N1 H), (absent_remove _ _ _ N2 H),
    (absent_remove _ _ _ N3 H).
  apply (absent_remove _ _ _ N4 H).
Qed.

Lemma rebuild_fold_strip_absent files : forall content,
  Forall (fun f => Py.contains (comment_mark f) content = false) files ->
  fold_left strip files content = content.
Proof.
  induction files as [|f files IH]; intros content H; [reflexivity|].
  inversion H as [|? ? Hf Hfs]; subst.
  cbn [fold_left]. rewrite rebuild_strip_absent by exact Hf. apply IH, Hfs.
Qed.

End RebuildFacts.

(** X13. rebuild_project.py's [remove_broken_references] is a function of
    the text alone: it never fails, prints nothing and touches no file; its
    result is never longer than the text it is given, and when none of the
    11 names stands at the start of a comment the result is the text
    itself. *)
Theorem remove_broken_references_frame content (w : Sys.World) :
  exists out,
    RebuildProject.remove_broken_references content w = (Sys.Ok out, w)
    /\ length out <= length content
    /\ (Forall (fun f => Py.contains (MarkSpec.comment_mark f) content = false)
               RebuildProject.broken_files ->
        out = content).
Proof.
  exists (RebuildSpec.stripped content).
  split; [|split].
  - unfold RebuildProject.remove_broken_references.
    apply RebuildFacts.rebuild_loop_run, RebuildFacts.rebuild_patterns_compile.
  - apply RebuildFacts.rebuild_fold_strip_length.
  - apply RebuildFacts.rebuild_fold_strip_absent.
Qed.

Lemma remove_broken_references_frame_witness :
  Forall (fun f => Py.contains (MarkSpec.comment_mark f)
                     (one_file (T "A.swift")) = false)
         RebuildProject.broken_files
  /\ fst (RebuildProject.remove_broken_references (one_file (T "A.swift"))
            world_one)
     = Sys.Ok (one_file (T "A.swift")).
Proof.
  assert (H : Forall (fun f => Py.contains (MarkSpec.comment_mark f)
                                 (one_file (T "A.swift")) = false)
                     RebuildProject.broken_files)
    by (repeat constructor; vm_compute; reflexivity).
  split; [exact H|].
  destruct (remove_broken_references_frame (one_file (T "A.swift")) world_one)
    as (out & E & _ & Hid).
  rewrite E, (Hid H). reflexivity.
Defined.

(** ** fix_all_missing_files.py when the name is already there *)
Module FixFacts.
Import Sys FixAllMissingFiles FixSpec.

(** With [ref_section_end] unbound, [add_to_phase] hands the text back
    unchanged or raises; it touches no file. *)
Lemma add_to_phase_unbound filename phase_id label content (w : World) :
  let r := add_to_phase filename None phase_id label content w in
  (fst r = Ok content \/ exists e, fst r = Raise e)
  /\ fs (snd r) = fs w /\ writes (snd r) = writes w.
Proof.
  assert (H : exists res w',
    add_to_phase filename None phase_id label content w = (res, w')
    /\ (res = Ok content \/ exists e, res = Raise e)
    /\ fs w' = fs w /\ writes w' = writes w).
  { unfold add_to_phase, re_compile.
    destruct (Re.compile_flags true (phase_pattern phase_id)) as [pr|].
    2:{ eexists _, _. split; [reflexivity|]. eauto. }
    unfold bind at 1. unfold ret at 1.
    destruct (match Re.search pr content with
              | Some m => Py.contains filename (Re.group content m 2)
              | None => false
              end).
    { eexists _, _. split; [reflexivity|]. eauto. }
    destruct (Re.compile_flags false (file_ref_pattern filename)) as [fr|].
    2:{ eexists _, _. split; [reflexivity|]. eauto. }
    unfold bind at 1. unfold ret at 1.
    destruct (Re.search fr content) as [fm|].
    2:{ eexists _, _. split; [reflexivity|]. eauto. }
    unfold bind at 1. unfold generate_uuid.
    rewrite IdFacts.generate_uuid_run.
    eexists _, _. split; [reflexivity|]. eauto. }
  destruct H as (res & w' & E & Hr & Hf & Hw).
  cbn zeta. rewrite E. auto.
Qed.

Lemma phase_J01_compile :
  Re.compile_flags true (phase_pattern (T "J01")) = Some phase_J01.
Proof. vm_compute. reflexivity. Qed.

End FixFacts.

(** X14. When the file name already occurs somewhere in the manifest,
    fix_all_missing_files.py cannot change it: [add_to_phase] then either
    skips, reports that it found no file reference, or fails, so the run
    either writes back the text it read or raises before writing. *)
Theorem fix_all_missing_files_name_present (w : Sys.World) content filename
    folder_path rel_path add_to_tests :
  Sys.fs w !! FixAllMissingFiles.PROJECT_PATH = Some content ->
  Py.contains filename content = true ->
  let r := FixAllMissingFiles.add_file_to_project filename folder_path
             rel_path add_to_tests w in
  (fst r = Sys.Ok tt
   /\ Sys.fs (snd r) = Sys.fs w
   /\ Sys.writes (snd r) = Sys.writes w ++ [FixAllMissingFiles.PROJECT_PATH])
  \/ (exists e, fst r = Sys.Raise e
      /\ Sys.fs (snd r) = Sys.fs w /\ Sys.writes (snd r) = Sys.writes w).
Proof.
  intros Hfs Hin.
  assert (H : exists res w',
    FixAllMissingFiles.add_file_to_project filename folder_path rel_path
      add_to_tests w = (res, w')
    /\ ((res = Sys.Ok tt /\ Sys.fs w' = Sys.fs w
         /\ Sys.writes w'
            = Sys.writes w ++ [FixAllMissingFiles.PROJECT_PATH])
        \/ (exists e, res = Sys.Raise e
            /\ Sys.fs w' = Sys.fs w /\ Sys.writes w' = Sys.writes w))).
  { unfold FixAllMissingFiles.add_file_to_project.
    unfold Sys.bind at 1. unfold Sys.read_file. rewrite Hfs.
    unfold Sys.bind at 1. rewrite Hin.
    unfold Sys.bind at 1. unfold Sys.print at 1. unfold Sys.ret at 1.
    cbn [fst snd].
    set (w1 := Sys.mkWorld _ _ _ _ _).
    unfold Sys.bind at 1.
    pose proof (FixFacts.add_to_phase_unbound filename (T "J01")
                  (T "DoseTap (Main)") content w1) as (H1 & Hf1 & Hw1).
    destruct (FixAllMissingFiles.add_to_phase filename None (T "J01")
                (T "DoseTap (Main)") content w1) as [[c1|e1] w2];
      cbn [fst snd] in *.
    2:{ eexists _, _. split; [reflexivity|]. right. exists e1. auto. }
    destruct H1 as [H1|[e H1]]; [|discriminate]. injection H1 as ->.
    unfold Sys.bind at 1.
    destruct add_to_tests.
    - pose proof (FixFacts.add_to_phase_unbound filename
                    (T "8017D52D2EFCDF6A00BF9683") (T "DoseTapTests")
                    content w2) as (H2 & Hf2 & Hw2).
      destruct (FixAllMissingFiles.add_to_phase filename None
                  (T "8017D52D2EFCDF6A00BF9683") (T "DoseTapTests")
                  content w2) as [[c2|e2] w3]; cbn [fst snd] in *.
      2:{ eexists _, _. split; [reflexivity|]. right. exists e2.
          rewrite Hf2, Hw2. auto. }
      destruct H2 as [H2|[e H2]]; [|discriminate]. injection H2 as ->.
      eexists _, _. split; [reflexivity|]. left.
      cbn [Sys.fs Sys.writes]. rewrite Hf2, Hf1, Hw2, Hw1.
      split; [reflexivity|]. split; [|reflexivity].
      apply insert_id. exact Hfs.
    - unfold Sys.ret at 1.
      eexists _, _. split; [reflexivity|]. left.
      cbn [Sys.fs Sys.writes]. rewrite Hf1, Hw1.
      split; [reflexivity|]. split; [|reflexivity].
      apply insert_id. exact Hfs. }
  destruct H as (res & w' & E & H). cbn zeta. rewrite E. exact H.
Qed.

Lemma fix_all_missing_files_name_present_witness :
  (Sys.fs world_one !! FixAllMissingFiles.PROJECT_PATH
   = Some (one_file (T "A.swift"))
   /\ Py.contains (T "A.swift") (one_file (T "A.swift")) = true)
  /\ Sys.fs (snd (FixAllMissingFiles.add_file_to_project (T "A.swift")
                    (T "FullApp") (T "FullApp/A.swift") false world_one))
     = Sys.fs world_one.
Proof.
  assert (H1 : Sys.fs world_one !! FixAllMissingFiles.PROJECT_PATH
               = Some (one_file (T "A.swift"))) by reflexivity.
  assert (H2 : Py.contains (T "A.swift") (one_file (T "A.swift")) = true)
    by (vm_compute; reflexivity).
  split; [auto|].
  destruct (fix_all_missing_files_name_present world_one _ (T "A.swift")
              (T "FullApp") (T "FullApp/A.swift") false H1 H2)
    as [(_ & H & _)|(e & _ & H & _)]; exact H.
Defined.

(** X15. The case the script announces, a file that is referenced but not
    in the build phase, always fails: [add_to_phase] finds the reference,
    draws an identifier for the build record and then reads
    [ref_section_end], which only the other branch of the enclosing
    function assigns.  The run raises [NameError]; one identifier is
    drawn and nothing is written. *)
Theorem fix_all_missing_files_unbound_variable (w : Sys.World) content
    filename folder_path rel_path add_to_tests ref_re ref_match :
  Sys.fs w !! FixAllMissingFiles.PROJECT_PATH = Some content ->
  Py.contains filename content = true ->
  FixSpec.in_phase_J01 filename content = false ->
  Re.compile (FixAllMissingFiles.file_ref_pattern filename) = Some ref_re ->
  Re.search ref_re content = Some ref_match ->
  FixAllMissingFiles.add_file_to_project filename folder_path rel_path
    add_to_tests w
  = (Sys.Raise (Sys.NameError "ref_section_end"),
     Sys.mkWorld (Sys.fs w)
       (Sys.stdout w ++ [FixSpec.exists_line filename])
       (Sys.writes w) (Sys.urandom w) (S (Sys.drawn w))).
Proof.
  intros Hfs Hin Hph Hc Hs. unfold FixAllMissingFiles.add_file_to_project.
  unfold Sys.bind at 1. unfold Sys.read_file. rewrite Hfs.
  unfold Sys.bind at 1. rewrite Hin.
  unfold Sys.bind at 1. unfold Sys.print at 1. unfold Sys.ret at 1.
  cbn [fst snd].
  unfold Sys.bind at 1.
  unfold FixAllMissingFiles.add_to_phase at 1, Sys.re_compile.
  rewrite FixFacts.phase_J01_compile.
  unfold Sys.bind at 1. unfold Sys.ret at 1.
  unfold FixSpec.in_phase_J01 in Hph. rewrite Hph.
  unfold Re.compile in Hc. rewrite Hc.
  unfold Sys.bind at 1. unfold Sys.ret at 1. rewrite Hs.
  unfold Sys.bind at 1. unfold FixAllMissingFiles.generate_uuid.
  rewrite IdFacts.generate_uuid_run.
  reflexivity.
Qed.

Lemma fix_all_missing_files_unbound_variable_witness :
  let w := world_of FixSpec.unbuilt zeros in
  (Sys.fs w !! FixAllMissingFiles.PROJECT_PATH = Some FixSpec.unbuilt
   /\ Py.contains (T "X.swift") FixSpec.unbuilt = true
   /\ FixSpec.in_phase_J01 (T "X.swift") FixSpec.unbuilt = false
   /\ Re.compile (FixAllMissingFiles.file_ref_pattern (T "X.swift"))
      = Some FixSpec.unbuilt_ref_re
   /\ Re.search FixSpec.unbuilt_ref_re FixSpec.unbuilt
      = Some FixSpec.unbuilt_ref_match)
  /\ fst (FixAllMissingFiles.add_file_to_project (T "X.swift") (T "FullApp")
            (T "FullApp/X.swift") false w)
     = Sys.Raise (Sys.NameError "ref_section_end").
Proof.
  intros w.
  assert (H1 : Sys.fs w !! FixAllMissingFiles.PROJECT_PATH
               = Some FixSpec.unbuilt) by reflexivity.
  assert (H2 : Py.contains (T "X.swift") FixSpec.unbuilt = true)
    by (vm_compute; reflexivity).
  assert (H3 : FixSpec.in_phase_J01 (T "X.swift") FixSpec.unbuilt = false)
    by (vm_compute; reflexivity).
  assert (H4 : Re.compile (FixAllMissingFiles.file_ref_pattern (T "X.swift"))
               = Some FixSpec.unbuilt_ref_re) by (vm_compute; reflexivity).
  assert (H5 : Re.search FixSpec.unbuilt_ref_re FixSpec.unbuilt
               = Some FixSpec.unbuilt_ref_match) by (vm_compute; reflexivity).
  split; [auto|].
  rewrite (fix_all_missing_files_unbound_variable w _ (T "X.swift")
             (T "FullApp") (T "FullApp/X.swift") false _ _ H1 H2 H3 H4 H5).
  reflexivity.
Defined.

(** ** add_pr1_files.py: when it adds nothing *)
Module Pr1Facts.
Import Sys AddPr1Files Pr1Spec PyFacts.

Lemma find_from_range needle hay : forall i,
  Py.find_from needle hay i = (-1)%Z \/ (0 <= Py.find_from needle hay i)%Z.
Proof.
  induction hay as [|c hay IH]; intros i; cbn [Py.find_from];
    destruct (Py.startswith needle _); try lia. apply IH.
Qed.

(** [find] answers -1 exactly when the text is not there. *)
Lemma find_absent needle hay :
  Py.contains needle hay = false -> Py.find hay needle = (-1)%Z.
Proof.
  unfold Py.contains, Py.find. intros H. apply Z.leb_gt in H.
  destruct (find_from_range needle hay 0); lia.
Qed.

Lemma find_present needle hay :
  Py.contains needle hay = true -> (Py.find hay needle =? -1)%Z = false.
Proof.
  unfold Py.contains. intros H. apply Z.leb_le in H. apply Z.eqb_neq. lia.
Qed.

(** The loop that looks the names up in the reference section. *)
Lemma existing_loop section files : forall (acc : gset text) (w : World),
  for_each files (existing_body section) acc w
  = (Ok (list_to_set
           (filter (fun f => Py.contains f section = true) files) ∪ acc),
     after_print
       (map exists_line
            (filter (fun f => Py.contains f section = true) files)) w).
Proof.
  induction files as [|f files IH]; intros acc w.
  - cbn. unfold after_print. rewrite app_nil_r, (left_id_L ∅ (∪)).
    destruct w; reflexivity.
  - cbn [for_each]. unfold bind at 1. unfold existing_body at 1.
    rewrite filter_cons.
    destruct (Py.contains f section) eqn:Ef.
    + destruct (decide (true = true)) as [_|H]; [|congruence].
      unfold bind at 1, print at 1, ret at 1. rewrite IH.
      unfold after_print.
      cbn [fs stdout writes urandom drawn map].
      rewrite <- app_assoc, list_to_set_cons. f_equal. f_equal.
      apply set_eq. intros x. rewrite !elem_of_union. tauto.
    + destruct (decide (false = true)) as [H|_]; [congruence|].
      unfold ret at 1. apply IH.
Qed.

End Pr1Facts.

(** X16. add_pr1_files.py gives up, with a message and the result [False],
    when the manifest lacks one of the markers of the PBXFileReference
    section or, these being there, one of the markers of the
    PBXSourcesBuildPhase section.  It writes nothing and draws no
    identifier. *)
Theorem add_pr1_files_missing_section (w : Sys.World) content :
  Sys.fs w !! AddPr1Files.PROJECT_PATH = Some content ->
  (Py.contains Pr1Spec.BEGIN_FILE_REF content = false
   \/ Py.contains Entries.END_FILE_REF content = false ->
   AddPr1Files.main w
   = (Sys.Ok false,
      Pr1Spec.after_print
        [T "Error: Could not find PBXFileReference section"] w))
  /\ (Py.contains Pr1Spec.BEGIN_FILE_REF content = true ->
      Py.contains Entries.END_FILE_REF content = true ->
      Py.contains Pr1Spec.BEGIN_SOURCES content = false
      \/ Py.contains Pr1Spec.END_SOURCES content = false ->
      AddPr1Files.main w
      = (Sys.Ok false,
         Pr1Spec.after_print
           [T "Error: Could not find PBXSourcesBuildPhase section"] w)).
Proof.
  intros Hfs. split.
  - intros H.
    unfold AddPr1Files.main, Sys.try_except, AddPr1Files.main_body.
    unfold Sys.bind at 1. unfold Sys.read_file. rewrite Hfs.
    fold Pr1Spec.BEGIN_FILE_REF.
    assert (E : ((Py.find content Pr1Spec.BEGIN_FILE_REF =? -1)%Z
                 || (Py.find content Entries.END_FILE_REF =? -1)%Z) = true).
    { destruct H as [H|H]; rewrite (Pr1Facts.find_absent _ _ H);
        [reflexivity|apply orb_true_r]. }
    rewrite E. reflexivity.
  - intros H1 H2 H.
    unfold AddPr1Files.main, Sys.try_except, AddPr1Files.main_body.
    unfold Sys.bind at 1. unfold Sys.read_file. rewrite Hfs.
    fold Pr1Spec.BEGIN_FILE_REF Pr1Spec.BEGIN_SOURCES Pr1Spec.END_SOURCES.
    rewrite (Pr1Facts.find_present _ _ H1), (Pr1Facts.find_present _ _ H2).
    cbn [orb].
    assert (E : ((Py.find content Pr1Spec.BEGIN_SOURCES =? -1)%Z
                 || (Py.find content Pr1Spec.END_SOURCES =? -1)%Z) = true).
    { destruct H as [H|H]; rewrite (Pr1Facts.find_absent _ _ H);
        [reflexivity|apply orb_true_r]. }
    rewrite E. reflexivity.
Qed.

Lemma add_pr1_files_missing_section_witness :
  let content := T "// an empty project" in
  let w := world_of content zeros in
  (Sys.fs w !! AddPr1Files.PROJECT_PATH = Some content
   /\ Py.contains Pr1Spec.BEGIN_FILE_REF content = false)
  /\ AddPr1Files.main w
     = (Sys.Ok false,
        Pr1Spec.after_print
          [T "Error: Could not find PBXFileReference section"] w).
Proof.
  intros content w.
  assert (H1 : Sys.fs w !! AddPr1Files.PROJECT_PATH = Some content)
    by reflexivity.
  assert (H2 : Py.contains Pr1Spec.BEGIN_FILE_REF content = false)
    by (vm_compute; reflexivity).
  split; [auto|].
  exact (proj1 (add_pr1_files_missing_section w content H1) (or_introl H2)).
Defined.

(** X17. add_pr1_files.py looks each of its four names up as a substring
    of the text between the two PBXFileReference markers.  When all four
    occur there it prints one line for each, reports that all files are in
    the project, and returns [True] without writing or drawing. *)
Theorem add_pr1_files_all_present (w : Sys.World) content :
  Sys.fs w !! AddPr1Files.PROJECT_PATH = Some content ->
  Py.contains Pr1Spec.BEGIN_FILE_REF content = true ->
  Py.contains Entries.END_FILE_REF content = true ->
  Py.contains Pr1Spec.BEGIN_SOURCES content = true ->
  Py.contains Pr1Spec.END_SOURCES content = true ->
  Forall (fun f => Py.contains f (Pr1Spec.file_ref_section content) = true)
         AddPr1Files.pr1_files ->
  AddPr1Files.main w
  = (Sys.Ok true,
     Pr1Spec.after_print
       (map Pr1Spec.exists_line AddPr1Files.pr1_files
        ++ [T "All PR-1 files are already in the project"]) w).
Proof.
  intros Hfs H1 H2 H3 H4 Hall.
  unfold AddPr1Files.main, Sys.try_except, AddPr1Files.main_body.
  unfold Sys.bind at 1. unfold Sys.read_file. rewrite Hfs.
  fold Pr1Spec.BEGIN_FILE_REF Pr1Spec.BEGIN_SOURCES Pr1Spec.END_SOURCES.
  rewrite (Pr1Facts.find_present _ _ H1), (Pr1Facts.find_present _ _ H2),
    (Pr1Facts.find_present _ _ H3), (Pr1Facts.find_present _ _ H4).
  cbn [orb]. fold (Pr1Spec.file_ref_section content).
  unfold Sys.bind at 1. rewrite Pr1Facts.existing_loop.
  assert (Ef : filter (fun f => Py.contains f (Pr1Spec.file_ref_section content)
                                = true) AddPr1Files.pr1_files
               = AddPr1Files.pr1_files).
  { clear -Hall. induction Hall as [|f l Hf _ IH]; [reflexivity|].
    rewrite filter_cons_True by exact Hf. rewrite IH. reflexivity. }
  rewrite Ef.
  assert (En : filter (fun f => f ∉ list_to_set AddPr1Files.pr1_files ∪ (∅ : gset text))
                      AddPr1Files.pr1_files = []).
  { generalize AddPr1Files.pr1_files. intros l.
    assert (G : forall l', (forall f, f ∈ l' -> f ∈ l) ->
              filter (fun f => f ∉ list_to_set l ∪ (∅ : gset text)) l' = []).
    { induction l' as [|f l' IH]; intros Hsub; [reflexivity|].
      rewrite filter_cons_False.
      - apply IH. intros g Hg. apply Hsub. right. exact Hg.
      - intros Hn. apply Hn. apply elem_of_union. left.
        apply elem_of_list_to_set, Hsub. left. }
    apply G. auto. }
  rewrite En. unfold Sys.bind, Sys.print, Sys.ret, Pr1Spec.after_print.
  cbn [Sys.fs Sys.stdout Sys.writes Sys.urandom Sys.drawn].
  rewrite <- app_assoc. reflexivity.
Qed.

Lemma add_pr1_files_all_present_witness :
  let content := Pr1Spec.pr1_listed in
  let w := world_of content zeros in
  (Sys.fs w !! AddPr1Files.PROJECT_PATH = Some content
   /\ Forall (fun f => Py.contains f (Pr1Spec.file_ref_section content) = true)
             AddPr1Files.pr1_files)
  /\ fst (AddPr1Files.main w) = Sys.Ok true
  /\ Sys.writes (snd (AddPr1Files.main w)) = [].
Proof.
  intros content w.
  assert (H0 : Sys.fs w !! AddPr1Files.PROJECT_PATH = Some content)
    by reflexivity.
  assert (H1 : Py.contains Pr1Spec.BEGIN_FILE_REF content = true)
    by (vm_compute; reflexivity).
  assert (H2 : Py.contains Entries.END_FILE_REF content = true)
    by (vm_compute; reflexivity).
  assert (H3 : Py.contains Pr1Spec.BEGIN_SOURCES content = true)
    by (vm_compute; reflexivity).
  assert (H4 : Py.contains Pr1Spec.END_SOURCES content = true)
    by (vm_compute; reflexivity).
  assert (H5 : Forall (fun f => Py.contains f (Pr1Spec.file_ref_section content)
                                = true) AddPr1Files.pr1_files)
    by (repeat constructor; vm_compute; reflexivity).
  split; [auto|].
  rewrite (add_pr1_files_all_present w content H0 H1 H2 H3 H4 H5).
  split; reflexivity.
Defined.

(** ** add_new_settings_files.py *)
Module ShortIdFacts.
Import Py PyFacts Uuid UuidSpec UuidFacts ShortIdSpec.

Lemma hexAF_not_dash c :
  Re.mem EntrySpec.hexAF c = true -> ascii_eqb "-" c = false.
Proof.
  destruct c as [[] [] [] [] [] [] [] []]; vm_compute; congruence.
Qed.

Lemma slice_length (h : text) a b :
  b <= length h -> length (slice h a b) = b - a.
Proof. intros H. unfold slice. rewrite length_take, length_drop. lia. Qed.

Lemma upper_hex_no_dash n v :
  Forall (fun c => ascii_eqb "-" c = false) (upper (hex_digits n v)).
Proof.
  unfold upper. apply Forall_map.
  eapply Forall_impl; [apply hex_digits_chars|].
  intros c [H _]. apply hexAF_not_dash, H.
Qed.

(** [text.replace(old, new)] leaves a text without [old] as it is. *)
Lemma replace_go_absent old new : forall s,
  old <> [] -> contains old s = false -> replace_go old new s 0 = s.
Proof.
  intros s Hne. induction s as [|c s IH]; intros H; [reflexivity|].
  cbn [replace_go].
  destruct (startswith old (c :: s)) eqn:Es.
  - apply startswith_spec in Es as (s' & Es).
    assert (Hc : contains old (c :: s) = true).
    { apply contains_spec. exists [], s'. exact Es. }
    congruence.
  - f_equal. apply IH.
    destruct (contains old s) eqn:Ec; [|reflexivity].
    apply contains_spec in Ec as (pre & post & ->).
    assert (Hc : contains old (c :: pre ++ old ++ post) = true).
    { apply contains_spec. exists (c :: pre), post. reflexivity. }
    congruence.
Qed.

Lemma replace_absent s old new :
  old <> [] -> contains old s = false -> replace s old new = s.
Proof. intros. unfold replace. apply replace_go_absent; assumption. Qed.

(** The first 24 characters of [str(u)] without their dashes. *)
Lemma prefix_without_dashes u :
  (0 <= u)%Z ->
  replace (upper (slice_to (str u) 24)) (T "-") []
  = upper (firstn 20 (hex u)).
Proof.
  intros Hu. unfold str.
  set (h := hex u).
  assert (Hl : length h = 32) by apply hex_digits_length.
  assert (E24 : slice_to
                  (slice h 0 8 ++ T "-" ++ slice h 8 12 ++ T "-"
                   ++ slice h 12 16 ++ T "-" ++ slice h 16 20 ++ T "-"
                   ++ skipn 20 h) 24
                = slice h 0 8 ++ T "-" ++ slice h 8 12 ++ T "-"
                  ++ slice h 12 16 ++ T "-" ++ slice h 16 20 ++ T "-").
  { unfold slice_to, norm_index. change (0 <=? 24)%Z with true.
    cbn iota. change (Z.to_nat 24) with 24.
    replace (slice h 0 8 ++ T "-" ++ slice h 8 12 ++ T "-"
             ++ slice h 12 16 ++ T "-" ++ slice h 16 20 ++ T "-"
             ++ skipn 20 h)
      with ((slice h 0 8 ++ T "-" ++ slice h 8 12 ++ T "-"
             ++ slice h 12 16 ++ T "-" ++ slice h 16 20 ++ T "-")
            ++ skipn 20 h)
      by (rewrite <- !app_assoc; reflexivity).
    apply take_app_length'.
    rewrite !length_app, !slice_length by lia. reflexivity. }
  rewrite E24.
  assert (E20 : firstn 20 h
                = slice h 0 8 ++ slice h 8 12 ++ slice h 12 16
                  ++ slice h 16 20).
  { assert (Hs : (slice h 0 8 ++ slice h 8 12 ++ slice h 12 16
                  ++ slice h 16 20) ++ skipn 20 h = h).
    { rewrite <- !app_assoc.
      rewrite !UuidFacts.slice_then_drop by lia. reflexivity. }
    rewrite <- Hs at 1.
    apply take_app_length'.
    rewrite !length_app, !slice_length by lia. reflexivity. }
  rewrite E20.
  assert (Hd : forall a b, Forall (fun c => ascii_eqb "-" c = false)
                                  (upper (slice h a b))).
  { intros a b. unfold slice, upper. rewrite <- firstn_map, <- skipn_map.
    apply Forall_take, Forall_drop. apply (upper_hex_no_dash 32 u). }
  unfold replace, upper. rewrite !map_app.
  change (map upper_char (T "-")) with (T "-").
  fold (upper (slice h 0 8)) (upper (slice h 8 12)) (upper (slice h 12 16))
       (upper (slice h 16 20)).
  rewrite replace_dash_skip, replace_dash_drop by apply Hd.
  rewrite replace_dash_skip, replace_dash_drop by apply Hd.
  rewrite replace_dash_skip, replace_dash_drop by apply Hd.
  rewrite replace_dash_skip by apply Hd.
  change (replace_go (T "-") [] (T "-") 0) with (@nil ascii).
  rewrite app_nil_r. reflexivity.
Qed.

Lemma uuid_prefix_run (w : Sys.World) :
  AddNewSettingsFiles.uuid_prefix w
  = (Sys.Ok (short_id (Sys.urandom w (Sys.drawn w))), after_draw w).
Proof.
  unfold AddNewSettingsFiles.uuid_prefix, uuid4, Sys.bind, Sys.os_urandom16,
    Sys.ret.
  rewrite prefix_without_dashes
    by (apply set_version4_nonneg, Z.mod_pos_bound; lia).
  unfold short_id, id_of_draw, hex.
  set (u := set_version4 (Sys.urandom w (Sys.drawn w) mod 2 ^ 128)).
  assert (H0 : (0 <= u)%Z)
    by (apply set_version4_nonneg, Z.mod_pos_bound; lia).
  change 32 with (24 + 8). rewrite (hex_digits_app 24 8 u H0).
  change (16 ^ Z.of_nat 8)%Z with (2 ^ 32)%Z.
  rewrite take_app_le by (rewrite hex_digits_length; lia).
  unfold upper. rewrite firstn_map. reflexivity.
Qed.

End ShortIdFacts.

(** X18. add_new_settings_files.py cuts the UUID text to 24 characters
    before it removes the dashes, four of which fall inside the cut: each
    of its identifiers is only 20 characters long (the first 20 digits of
    what [generate_uuid] gives for the same draw), not the 24 the other
    scripts' patterns ask for. *)
Theorem add_new_settings_files_short_identifiers (w : Sys.World) :
  exists id,
    AddNewSettingsFiles.uuid_prefix w = (Sys.Ok id, UuidSpec.after_draw w)
    /\ id = firstn 20 (UuidSpec.id_of_draw (Sys.urandom w (Sys.drawn w)))
    /\ length id = 20
    /\ ReSpec.all_in EntrySpec.hexAF id
    /\ ~ IdSpec.hex24 id.
Proof.
  exists (ShortIdSpec.short_id (Sys.urandom w (Sys.drawn w))).
  split; [apply ShortIdFacts.uuid_prefix_run|].
  split; [reflexivity|].
  assert (Hl : length (ShortIdSpec.short_id (Sys.urandom w (Sys.drawn w))) = 20).
  { unfold ShortIdSpec.short_id.
    rewrite length_take, IdFacts.id_of_draw_length. reflexivity. }
  split; [exact Hl|]. split.
  - unfold ShortIdSpec.short_id. apply Forall_take, IdFacts.id_of_draw_hex.
  - intros [H _]. rewrite Hl in H. discriminate H.
Qed.

Module SettingsRunFacts.
Import Sys AddNewSettingsFiles ShortIdSpec IdSpec.

(** The four draws the script starts with. *)
Lemma four_draws {A} (k : text -> text -> text -> text -> M A) (w : World) :
  (a <- uuid_prefix ;; b <- uuid_prefix ;; c <- uuid_prefix ;;
   d <- uuid_prefix ;; k a b c d)%py w
  = k (short_id (urandom w (drawn w)))
      (short_id (urandom w (1 + drawn w)))
      (short_id (urandom w (2 + drawn w)))
      (short_id (urandom w (3 + drawn w)))
      (after_draws 4 w).
Proof.
  unfold bind at 1. rewrite ShortIdFacts.uuid_prefix_run.
  unfold bind at 1. rewrite ShortIdFacts.uuid_prefix_run.
  unfold bind at 1. rewrite ShortIdFacts.uuid_prefix_run.
  unfold bind at 1. rewrite ShortIdFacts.uuid_prefix_run.
  reflexivity.
Qed.

End SettingsRunFacts.

(** X19. add_new_settings_files.py draws its four identifiers before it
    opens the project file: when the file is missing the run raises with
    four draws made.  When the file is there the run always succeeds,
    writes it once and prints that the two files were added; on a manifest
    that has neither of the two section markers nor the two
    [SettingsView.swift] lines it looks for, the text written is the text
    read. *)
Theorem add_new_settings_files_run (w : Sys.World) :
  (Sys.fs w !! AddNewSettingsFiles.project_path = None ->
   AddNewSettingsFiles.main w
   = (Sys.Raise (Sys.FileNotFoundError AddNewSettingsFiles.project_path),
      IdSpec.after_draws 4 w))
  /\ (forall content,
        Sys.fs w !! AddNewSettingsFiles.project_path = Some content ->
        exists out,
          AddNewSettingsFiles.main w
          = (Sys.Ok tt,
             Sys.mkWorld
               (<[AddNewSettingsFiles.project_path := out]> (Sys.fs w))
               (Sys.stdout w ++ [ShortIdSpec.added_line])
               (Sys.writes w ++ [AddNewSettingsFiles.project_path])
               (Sys.urandom w) (4 + Sys.drawn w))
          /\ (Py.contains Entries.END_BUILD_FILE content = false ->
              Py.contains Entries.END_FILE_REF content = false ->
              Py.contains AddNewSettingsFiles.settings_view_pattern content
              = false ->
              Py.contains AddNewSettingsFiles.sources_pattern content = false ->
              out = content)).
Proof.
  split.
  - intros Hfs. unfold AddNewSettingsFiles.main.
    rewrite SettingsRunFacts.four_draws.
    unfold Sys.bind at 1. unfold Sys.read_file.
    unfold IdSpec.after_draws at 1. cbn [Sys.fs]. rewrite Hfs. reflexivity.
  - intros content Hfs. unfold AddNewSettingsFiles.main.
    rewrite SettingsRunFacts.four_draws.
    unfold Sys.bind at 1. unfold Sys.read_file.
    unfold IdSpec.after_draws at 1. cbn [Sys.fs]. rewrite Hfs.
    eexists. split.
    + unfold Sys.bind, Sys.write_file, Sys.print, IdSpec.after_draws.
      cbn [Sys.fs Sys.stdout Sys.writes Sys.urandom Sys.drawn].
      reflexivity.
    + intros H1 H2 H3 H4.
      rewrite (ShortIdFacts.replace_absent content Entries.END_BUILD_FILE)
        by (try exact H1; discriminate).
      rewrite (ShortIdFacts.replace_absent content Entries.END_FILE_REF)
        by (try exact H2; discriminate).
      rewrite H3, H4. reflexivity.
Qed.

Lemma add_new_settings_files_run_witness :
  let content := T "// an empty project" in
  let w := world_of content zeros in
  Sys.fs w !! AddNewSettingsFiles.project_path = Some content
  /\ fst (AddNewSettingsFiles.main w) = Sys.Ok tt
  /\ Sys.drawn (snd (AddNewSettingsFiles.main w)) = 4.
Proof.
  intros content w.
  assert (H : Sys.fs w !! AddNewSettingsFiles.project_path = Some content)
    by reflexivity.
  split; [exact H|].
  destruct (proj2 (add_new_settings_files_run w) content H) as (out & E & _).
  rewrite E. split; reflexivity.
Defined.

(** ** Running an add script again *)
Module AgainFacts.
Import Py PyFacts Re Entries Sys.

Lemma contains_app_l x a b : contains x a = true -> contains x (a ++ b) = true.
Proof.
  intros H. apply contains_spec in H as (p & q & ->).
  apply contains_spec. exists p, (q ++ b).
  rewrite <- !app_assoc. reflexivity.
Qed.

Lemma contains_app_r x a b : contains x b = true -> contains x (a ++ b) = true.
Proof.
  intros H. apply contains_spec in H as (p & q & ->).
  apply contains_spec. exists (a ++ p), q.
  rewrite <- !app_assoc. reflexivity.
Qed.

Lemma contains_insert_at x content i inserted :
  contains x inserted = true ->
  contains x (insert_at content i inserted) = true.
Proof.
  intros H. unfold insert_at.
  apply contains_app_r, contains_app_l, H.
Qed.

Lemma contains_file_entry id name path :
  contains name (file_entry id name path) = true.
Proof.
  unfold file_entry.
  apply contains_app_r, contains_app_r, contains_app_r, contains_app_l.
  apply contains_spec. exists [], []. rewrite app_nil_r. reflexivity.
Qed.

Lemma contains_children_entry id name :
  contains name (children_entry id name) = true.
Proof.
  unfold children_entry.
  apply contains_app_r, contains_app_r, contains_app_r, contains_app_l.
  apply contains_spec. exists [], []. rewrite app_nil_r. reflexivity.
Qed.

Lemma contains_source_entry id name :
  contains name (source_entry id name) = true.
Proof.
  unfold source_entry.
  apply contains_app_r, contains_app_r, contains_app_r, contains_app_l.
  apply contains_spec. exists [], []. rewrite app_nil_r. reflexivity.
Qed.

(** What [re.sub] returns is the text itself or holds a replacement. *)
Lemma scan_emits r (emit : Match -> text) : forall s i skip,
  scan r emit (fun c => [c]) s i skip = skipn skip s
  \/ exists pre mt post,
       scan r emit (fun c => [c]) s i skip = pre ++ emit mt ++ post.
Proof.
  induction s as [|c s IH]; intros i skip.
  - destruct skip as [|n]; cbn [scan]; [|left; reflexivity].
    destruct (match_at r [] i) as [mt|]; [|left; reflexivity].
    right. exists [], mt, []. rewrite app_nil_r. reflexivity.
  - destruct skip as [|n]; cbn [scan].
    + destruct (match_at r (c :: s) i) as [mt|].
      * right. exists [], mt.
        destruct (m_end mt =? i); eexists; reflexivity.
      * destruct (IH (S i) 0) as [E|(pre & mt & post & E)]; rewrite E.
        -- left. reflexivity.
        -- right. exists (c :: pre), mt, post. reflexivity.
    + destruct (IH (S i) n) as [E|(pre & mt & post & E)]; rewrite E.
      * left. reflexivity.
      * right. exists pre, mt, post. reflexivity.
Qed.

Lemma sub_keeps r f x s :
  contains x s = true -> (forall mt, contains x (f mt) = true) ->
  contains x (sub r f s) = true.
Proof.
  intros Hs Hf. unfold sub.
  destruct (scan_emits r f s 0 0) as [E|(pre & mt & post & E)]; rewrite E.
  - exact Hs.
  - apply contains_app_r, contains_app_l, Hf.
Qed.

Lemma append_entry_contains x content m line :
  contains x line = true ->
  contains x (AddPresleeplog.append_entry content m line) = true.
Proof.
  intros H. unfold AddPresleeplog.append_entry. cbv zeta.
  apply contains_app_r, contains_app_r, contains_app_l.
  apply contains_app_r, contains_app_r, contains_app_l, H.
Qed.

Lemma append_line_contains x content m line :
  contains x line = true ->
  contains x (FixStorageScope.append_line content line m) = true.
Proof.
  intros H. unfold FixStorageScope.append_line.
  apply contains_app_r, contains_app_r, contains_app_l, H.
Qed.

(** After a run the project file holds the name. *)
Lemma presleeplog_writes_name (w : World) content :
  fs w !! AddPresleeplog.project_path = Some content ->
  exists out,
    fs (snd (AddPresleeplog.add_file_to_project w))
      !! AddPresleeplog.project_path = Some out
    /\ contains (T "PreSleepLogView.swift") out = true.
Proof.
  intros Hfs. unfold AddPresleeplog.add_file_to_project.
  unfold bind at 1, read_file. rewrite Hfs.
  destruct (contains (T "PreSleepLogView.swift") content) eqn:Hc.
  - exists content. split; [exact Hfs|exact Hc].
  - unfold AddPresleeplog.generate_uuid.
    unfold bind at 1. rewrite IdFacts.generate_uuid_run.
    unfold bind at 1. rewrite IdFacts.generate_uuid_run.
    cbv zeta. unfold bind, write_file, print.
    cbn [snd fs]. rewrite lookup_insert_eq.
    eexists. split; [reflexivity|].
    match goal with
    | |- contains _ (match search _ ?c3 with _ => _ end) = true =>
        assert (H3 : contains (T "PreSleepLogView.swift") c3 = true);
        [|destruct (search AddPresleeplog.sources_phase_re c3);
          [apply append_entry_contains, contains_source_entry|exact H3]]
    end.
    match goal with
    | |- contains _ (match search _ ?c2 with _ => _ end) = true =>
        destruct (search AddPresleeplog.views_group_re c2);
        [apply append_entry_contains, contains_children_entry|]
    end.
    apply contains_insert_at, contains_app_l, contains_file_entry.
Qed.

Lemma storage_scope_writes_name (w : World) content filename folder_path
    rel_path :
  fs w !! FixStorageScope.PROJECT_PATH = Some content ->
  exists out,
    fs (snd (FixStorageScope.add_file_to_project filename folder_path
               rel_path w))
      !! FixStorageScope.PROJECT_PATH = Some out
    /\ contains filename out = true.
Proof.
  intros Hfs. unfold FixStorageScope.add_file_to_project.
  unfold bind at 1, read_file. rewrite Hfs.
  destruct (contains filename content) eqn:Hc.
  - exists content. split; [exact Hfs|exact Hc].
  - unfold FixStorageScope.generate_uuid.
    unfold bind at 1. rewrite IdFacts.generate_uuid_run.
    unfold bind at 1. rewrite IdFacts.generate_uuid_run.
    cbv zeta. unfold bind, write_file, print.
    cbn [snd fs]. rewrite lookup_insert_eq.
    eexists. split; [reflexivity|].
    apply sub_keeps;
      [|intros mt; apply append_line_contains, contains_app_r,
          contains_children_entry].
    apply sub_keeps;
      [|intros mt; apply append_line_contains, contains_app_r,
          contains_source_entry].
    apply contains_insert_at, contains_app_l, contains_file_entry.
Qed.

End AgainFacts.

(** X21. add_presleeplog.py and fix_storage_scope.py can be run again:
    whatever manifest the first run found, the file name is in the
    manifest it leaves, so a second run with the same arguments only
    prints that the file is there; it draws no identifier and writes
    nothing. *)
Theorem second_run_skips (w : Sys.World) content filename folder_path
    rel_path :
  Sys.fs w !! AddPresleeplog.project_path = Some content ->
  (let w1 := snd (AddPresleeplog.add_file_to_project w) in
   AddPresleeplog.add_file_to_project w1
   = (Sys.Ok tt,
      Sys.mkWorld (Sys.fs w1)
        (Sys.stdout w1 ++ [T "PreSleepLogView.swift already in project"])
        (Sys.writes w1) (Sys.urandom w1) (Sys.drawn w1)))
  /\ (let w1 := snd (FixStorageScope.add_file_to_project filename
                       folder_path rel_path w) in
      FixStorageScope.add_file_to_project filename folder_path rel_path w1
      = (Sys.Ok tt,
         Sys.mkWorld (Sys.fs w1)
           (Sys.stdout w1
            ++ [T "Skipping " ++ filename ++ T ", already in project"])
           (Sys.writes w1) (Sys.urandom w1) (Sys.drawn w1))).
Proof.
  intros Hfs. split.
  - destruct (AgainFacts.presleeplog_writes_name w content Hfs)
      as (out & Ho & Hc).
    cbv zeta. set (w1 := snd _) in *. clearbody w1.
    unfold AddPresleeplog.add_file_to_project.
    unfold Sys.bind at 1, Sys.read_file. rewrite Ho, Hc. reflexivity.
  - destruct (AgainFacts.storage_scope_writes_name w content filename
                folder_path rel_path Hfs) as (out & Ho & Hc).
    cbv zeta. set (w1 := snd _) in *. clearbody w1.
    unfold FixStorageScope.add_file_to_project.
    unfold Sys.bind at 1, Sys.read_file. rewrite Ho, Hc. reflexivity.
Qed.

Lemma second_run_skips_witness :
  Sys.fs world_one !! AddPresleeplog.project_path
  = Some (one_file (T "A.swift"))
  /\ (let w1 := snd (AddPresleeplog.add_file_to_project world_one) in
      AddPresleeplog.add_file_to_project w1
      = (Sys.Ok tt,
         Sys.mkWorld (Sys.fs w1)
           (Sys.stdout w1 ++ [T "PreSleepLogView.swift already in project"])
           (Sys.writes w1) (Sys.urandom w1) (Sys.drawn w1)))
  /\ (let w1 := snd (FixStorageScope.add_file_to_project (T "B.swift")
                       (T "FullApp") (T "FullApp/B.swift") world_one) in
      FixStorageScope.add_file_to_project (T "B.swift") (T "FullApp")
        (T "FullApp/B.swift") w1
      = (Sys.Ok tt,
         Sys.mkWorld (Sys.fs w1)
           (Sys.stdout w1
            ++ [T "Skipping " ++ T "B.swift" ++ T ", already in project"])
           (Sys.writes w1) (Sys.urandom w1) (Sys.drawn w1))).
Proof.
  assert (H : Sys.fs world_one !! AddPresleeplog.project_path
              = Some (one_file (T "A.swift"))) by (vm_compute; reflexivity).
  split; [exact H|].
  exact (second_run_skips world_one (one_file (T "A.swift")) (T "B.swift")
           (T "FullApp") (T "FullApp/B.swift") H).
Defined.

(** ** A marker that is not there *)
Module EdgeFacts.
Import Py PyFacts Re ReSpec Entries Sys EdgeSpec FrameSpec FrameFacts.

Lemma contains_short lit s : length s < length lit -> contains lit s = false.
Proof.
  intros H. destruct (contains lit s) eqn:E; [|reflexivity].
  apply contains_spec in E as (p & q & ->). rewrite !length_app in H. lia.
Qed.

Lemma contains_false_app_l lit a b :
  contains lit (a ++ b) = false -> contains lit a = false.
Proof.
  intros H. destruct (contains lit a) eqn:E; [|reflexivity].
  rewrite AgainFacts.contains_app_l in H by exact E. discriminate H.
Qed.

Lemma contains_false_app_r lit a b :
  contains lit (a ++ b) = false -> contains lit b = false.
Proof.
  intros H. destruct (contains lit b) eqn:E; [|reflexivity].
  rewrite AgainFacts.contains_app_r in H by exact E. discriminate H.
Qed.

(** A character the literal does not have separates the occurrences. *)
Lemma contains_sep lit a c b :
  ~ In c lit -> contains lit a = false -> contains lit b = false ->
  contains lit (a ++ c :: b) = false.
Proof.
  intros Hc Ha Hb. destruct (contains lit (a ++ c :: b)) eqn:E; [|reflexivity].
  exfalso. apply contains_spec in E as (p & q & E).
  apply app_eq_app in E as (l & [[E1 E2]|[E1 E2]]).
  - symmetry in E2. apply app_eq_app in E2 as (l' & [[E3 E4]|[E3 E4]]).
    + assert (H : contains lit a = true).
      { apply contains_spec. exists p, l'. rewrite E1, E3. reflexivity. }
      congruence.
    + destruct l' as [|c' l'].
      * rewrite app_nil_r in E3. subst l.
        assert (H : contains lit a = true)
          by (apply contains_spec; exists p, []; rewrite app_nil_r; exact E1).
        congruence.
      * cbn [app] in E4. injection E4 as <- _. apply Hc. rewrite E3.
        apply in_app_iff. right. left. reflexivity.
  - destruct l as [|c' l].
    + cbn [app] in E2. destruct lit as [|c0 lit].
      * assert (H : contains [] a = true)
          by (apply contains_spec; exists [], a; reflexivity).
        congruence.
      * cbn [app] in E2. injection E2 as <- _. apply Hc. left. reflexivity.
    + cbn [app] in E2. injection E2 as _ E2.
      assert (H : contains lit b = true)
        by (apply contains_spec; exists l, q; exact E2).
      congruence.
Qed.

(** A record between a tab and a newline. *)
Lemma contains_wrapped lit p m l :
  ~ In TAB lit -> ~ In NL lit ->
  contains lit p = false -> contains lit (TAB :: m) = false ->
  contains lit l = false ->
  contains lit (p ++ (TAB :: m) ++ NL :: l) = false.
Proof.
  intros Ht Hn Hp Hm Hl.
  change (p ++ (TAB :: m) ++ NL :: l) with (p ++ TAB :: (m ++ NL :: l)).
  apply contains_sep; [exact Ht|exact Hp|].
  apply contains_sep; [exact Hn| |exact Hl].
  apply (contains_false_app_r lit [TAB] m), Hm.
Qed.

(** The character of a one-character literal. *)
Lemma contains_char c s : contains [c] s = false <-> ~ In c s.
Proof.
  split.
  - intros H Hin. apply in_split in Hin as (p & q & ->).
    assert (H' : contains [c] (p ++ c :: q) = true)
      by (apply contains_spec; exists p, q; reflexivity).
    congruence.
  - intros H. destruct (contains [c] s) eqn:E; [|reflexivity].
    apply contains_spec in E as (p & q & ->). exfalso. apply H.
    apply in_app_iff. right. left. reflexivity.
Qed.

(** [s[:-1] + x + s[-1:]]. *)
Lemma insert_at_last_nil x : insert_at [] (-1) x = x.
Proof. unfold insert_at. cbn. apply app_nil_r. Qed.

Lemma insert_at_last_snoc s c x :
  insert_at (s ++ [c]) (-1) x = s ++ x ++ [c].
Proof.
  unfold insert_at, slice_to, slice_from, norm_index.
  change (0 <=? -1)%Z with false. cbv iota.
  replace (length (s ++ [c]) - Z.to_nat (- -1)) with (length s)
    by (rewrite length_app; cbn; lia).
  rewrite take_app_length, drop_app_length. reflexivity.
Qed.

Lemma hex_not_paren c : mem EntrySpec.hexAF c = true -> c <> "("%char.
Proof. intros H ->. vm_compute in H. discriminate H. Qed.

Lemma psl_digits_hex r : all_in EntrySpec.hexAF (firstn 21 (UuidSpec.id_of_draw r)).
Proof. apply Forall_take, IdFacts.id_of_draw_hex. Qed.

Lemma psl_id_no_paren r : ~ In "("%char (psl_id r).
Proof.
  unfold psl_id. rewrite in_app_iff. intros [H|H].
  - vm_compute in H. intuition discriminate.
  - pose proof (psl_digits_hex r) as Hh.
    unfold all_in in Hh. rewrite Forall_forall in Hh.
    apply list_elem_of_In, Hh in H.
    exact (hex_not_paren _ H eq_refl).
Qed.

Lemma snoc_case {A} (l : list A) : l = [] \/ exists p x, l = p ++ [x].
Proof.
  induction l as [|x p _] using rev_ind; [left; reflexivity|].
  right. exists p, x. reflexivity.
Qed.

Ltac not_in_lit := vm_compute; intuition discriminate.

(** Neither record spells the marker the second [find] looks for. *)
Lemma psl_build_no_marker h1 h2 :
  length h1 = 21 -> length h2 = 21 ->
  contains END_FILE_REF
    (build_entry (T "PSL" ++ h1) (T "PSL" ++ h2) psl_name) = false.
Proof.
  intros H1 H2.
  replace (build_entry (T "PSL" ++ h1) (T "PSL" ++ h2) psl_name)
    with ([] ++ TAB :: [] ++ TAB :: T "PS" ++ "L"%char
          :: (h1 ++ T " /* Pre") ++ "S"%char
          :: T "leepLogView.swift in Sources */ = {isa = PBXBuildFile; fileRef = PS"
          ++ "L"%char :: (h2 ++ T " /* Pre") ++ "S"%char
          :: T "leepLogView.swift */; };")
    by (unfold build_entry, psl_name; rewrite <- !app_assoc; reflexivity).
  repeat (apply contains_sep; [not_in_lit| |]);
    first [ vm_compute; reflexivity
          | apply contains_short; rewrite length_app, ?H1, ?H2;
            vm_compute; lia ].
Qed.

Ltac not_in_pieces H :=
  rewrite !in_app_iff; intros H;
  repeat destruct H as [H|H];
  first [ contradiction | discriminate H ].

Lemma psl_build_no_paren (w : World) : ~ In "("%char (psl_build w).
Proof.
  unfold psl_build, build_entry.
  generalize (psl_id_no_paren (urandom w (drawn w)))
             (psl_id_no_paren (urandom w (S (drawn w)))).
  generalize (psl_id (urandom w (drawn w)))
             (psl_id (urandom w (S (drawn w)))).
  intros i1 i2 N1 N2. not_in_pieces H.
Qed.

Lemma psl_file_no_paren (w : World) : ~ In "("%char (psl_file w).
Proof.
  unfold psl_file, file_entry.
  generalize (psl_id_no_paren (urandom w (S (drawn w)))).
  generalize (psl_id (urandom w (S (drawn w)))).
  intros i2 N2. not_in_pieces H.
Qed.

Lemma views_group_needs :
  needs AddPresleeplog.views_group_re (T "(").
Proof.
  unfold AddPresleeplog.views_group_re.
  apply needs_seq_l, needs_grp, needs_seq_r, needs_seq_r.
  apply (needs_lit _ _ (T "children = ") []). reflexivity.
Qed.

Lemma sources_phase_needs :
  needs AddPresleeplog.sources_phase_re (T "(").
Proof.
  unfold AddPresleeplog.sources_phase_re.
  apply needs_seq_l, needs_grp, needs_seq_r, needs_seq_r.
  apply (needs_lit _ _ (T "files = ") []). reflexivity.
Qed.

(** The run up to the two insertions. *)
Lemma presleeplog_run (w : World) content :
  fs w !! AddPresleeplog.project_path = Some content ->
  contains psl_name content = false ->
  AddPresleeplog.add_file_to_project w
  = let content1 :=
      insert_at content (find content END_BUILD_FILE) (psl_build w ++ [NL]) in
    let content2 :=
      insert_at content1 (find content1 END_FILE_REF) (psl_file w ++ [NL]) in
    let content3 :=
      match search AddPresleeplog.views_group_re content2 with
      | Some views_group =>
          AddPresleeplog.append_entry content2 views_group
            (children_entry (psl_id (urandom w (S (drawn w)))) psl_name)
      | None => content2
      end in
    let content4 :=
      match search AddPresleeplog.sources_phase_re content3 with
      | Some sources_phase =>
          AddPresleeplog.append_entry content3 sources_phase
            (source_entry (psl_id (urandom w (drawn w))) psl_name)
      | None => content3
      end in
    (Ok tt,
     mkWorld (<[AddPresleeplog.project_path := content4]> (fs w))
       (stdout w ++ [T "Added PreSleepLogView.swift to project"])
       (writes w ++ [AddPresleeplog.project_path])
       (urandom w) (2 + drawn w)).
Proof.
  intros Hfs Hc. unfold AddPresleeplog.add_file_to_project.
  unfold bind at 1, read_file. rewrite Hfs.
  change (T "PreSleepLogView.swift") with psl_name. rewrite Hc.
  unfold AddPresleeplog.generate_uuid.
  unfold bind at 1. rewrite IdFacts.generate_uuid_run.
  unfold bind at 1. rewrite IdFacts.generate_uuid_run.
  reflexivity.
Qed.

Lemma psl_build_no_ref_marker (w : World) :
  contains END_FILE_REF (psl_build w) = false.
Proof.
  apply psl_build_no_marker;
    rewrite length_take, IdFacts.id_of_draw_length; reflexivity.
Qed.

(** Where the records are put, and that no list opens in the result. *)
Lemma two_inserts (w : World) content :
  contains END_FILE_REF content = false ->
  contains (T "(") content = false ->
  let content1 := insert_at content (-1) (psl_build w ++ [NL]) in
  let content2 :=
    insert_at content1 (find content1 END_FILE_REF) (psl_file w ++ [NL]) in
  content2
  = match content with
    | [] => psl_build w ++ psl_file w ++ [NL; NL]
    | _ :: _ =>
        firstn (length content - 1) content ++ psl_build w ++ [NL]
        ++ psl_file w ++ [NL] ++ skipn (length content - 1) content
    end
  /\ contains (T "(") content2 = false.
Proof.
  intros Hr Hp. cbv zeta.
  pose proof (psl_build_no_ref_marker w) as Hm.
  pose proof (psl_build_no_paren w) as Nb.
  pose proof (psl_file_no_paren w) as Nf.
  assert (Eb : exists m, psl_build w = TAB :: m) by (eexists; reflexivity).
  destruct Eb as (m & Eb).
  set (be := psl_build w) in *. set (fe := psl_file w) in *.
  clearbody be fe.
  destruct (snoc_case content) as [->|(p & l & ->)].
  - rewrite insert_at_last_nil.
    assert (H1 : contains END_FILE_REF (be ++ [NL]) = false).
    { change (be ++ [NL]) with (be ++ NL :: []).
      apply contains_sep; [not_in_lit|exact Hm|vm_compute; reflexivity]. }
    rewrite (Pr1Facts.find_absent _ _ H1), insert_at_last_snoc.
    split; [rewrite <- app_assoc; reflexivity|].
    apply contains_char. not_in_pieces H.
  - rewrite insert_at_last_snoc.
    assert (H1 : contains END_FILE_REF (p ++ (be ++ [NL]) ++ [l]) = false).
    { replace (p ++ (be ++ [NL]) ++ [l]) with (p ++ be ++ NL :: [l])
        by (rewrite <- app_assoc; reflexivity).
      rewrite Eb. apply contains_wrapped; try not_in_lit.
      - exact (contains_false_app_l _ _ _ Hr).
      - rewrite <- Eb. exact Hm.
      - apply contains_short. vm_compute. lia. }
    rewrite (Pr1Facts.find_absent _ _ H1).
    rewrite (app_assoc p (be ++ [NL]) [l]), insert_at_last_snoc.
    apply contains_char in Hp. rewrite in_app_iff in Hp.
    replace (length (p ++ [l]) - 1) with (length p)
      by (rewrite length_app; cbn; lia).
    rewrite take_app_length, drop_app_length.
    split.
    + destruct (p ++ [l]) eqn:E; [destruct p; discriminate E|].
      rewrite <- !app_assoc. reflexivity.
    + apply contains_char. rewrite !in_app_iff. intros H.
      repeat destruct H as [H|H];
        first [ contradiction | discriminate H | tauto
              | apply Hp; right; left; exact H ].
Qed.

End EdgeFacts.

(** X22. When the manifest has neither of the two section end markers,
    add_presleeplog.py does not stop: [find] gives -1 and the slices
    [content[:-1]] and [content[-1:]] put each record just before the last
    character of the text.  On a manifest without a parenthesised list
    nothing else is changed, so the file written is the old text with the
    two records before its last character; on an empty file the two
    records are written on one line. *)
Theorem add_presleeplog_without_markers (w : Sys.World) content :
  Sys.fs w !! AddPresleeplog.project_path = Some content ->
  Py.contains EdgeSpec.psl_name content = false ->
  Py.contains Entries.END_BUILD_FILE content = false ->
  Py.contains Entries.END_FILE_REF content = false ->
  Py.contains (T "(") content = false ->
  let n := length content - 1 in
  let written :=
    match content with
    | [] => EdgeSpec.psl_build w ++ EdgeSpec.psl_file w ++ [NL; NL]
    | _ :: _ =>
        firstn n content ++ EdgeSpec.psl_build w ++ [NL]
        ++ EdgeSpec.psl_file w ++ [NL] ++ skipn n content
    end in
  AddPresleeplog.add_file_to_project w
  = (Sys.Ok tt,
     Sys.mkWorld (<[AddPresleeplog.project_path := written]> (Sys.fs w))
       (Sys.stdout w ++ [T "Added PreSleepLogView.swift to project"])
       (Sys.writes w ++ [AddPresleeplog.project_path])
       (Sys.urandom w) (2 + Sys.drawn w)).
Proof.
  intros Hfs Hc Hb Hr Hp n written.
  rewrite (EdgeFacts.presleeplog_run w content Hfs Hc). cbv zeta.
  rewrite (Pr1Facts.find_absent _ _ Hb).
  destruct (EdgeFacts.two_inserts w content Hr Hp) as [E Hq].
  cbv zeta in E, Hq.
  rewrite (FrameFacts.absent_search _ _ _ EdgeFacts.views_group_needs Hq).
  rewrite (FrameFacts.absent_search _ _ _ EdgeFacts.sources_phase_needs Hq).
  rewrite E. reflexivity.
Qed.

Lemma add_presleeplog_without_markers_witness :
  let w := EdgeSpec.world_bare in
  let content := T "{}" ++ [NL] in
  (Sys.fs w !! AddPresleeplog.project_path = Some content
   /\ Py.contains EdgeSpec.psl_name content = false
   /\ Py.contains Entries.END_BUILD_FILE content = false
   /\ Py.contains Entries.END_FILE_REF content = false
   /\ Py.contains (T "(") content = false)
  /\ AddPresleeplog.add_file_to_project w
     = (Sys.Ok tt,
        Sys.mkWorld
          (<[AddPresleeplog.project_path :=
               T "{}" ++ EdgeSpec.psl_build w ++ [NL]
               ++ EdgeSpec.psl_file w ++ [NL] ++ [NL]]> (Sys.fs w))
          (Sys.stdout w ++ [T "Added PreSleepLogView.swift to project"])
          (Sys.writes w ++ [AddPresleeplog.project_path])
          (Sys.urandom w) (2 + Sys.drawn w)).
Proof.
  intros w content.
  assert (H1 : Sys.fs w !! AddPresleeplog.project_path = Some content)
    by (vm_compute; reflexivity).
  assert (H2 : Py.contains EdgeSpec.psl_name content = false)
    by (vm_compute; reflexivity).
  assert (H3 : Py.contains Entries.END_BUILD_FILE content = false)
    by (vm_compute; reflexivity).
  assert (H4 : Py.contains Entries.END_FILE_REF content = false)
    by (vm_compute; reflexivity).
  assert (H5 : Py.contains (T "(") content = false)
    by (vm_compute; reflexivity).
  split; [repeat split; assumption|].
  exact (add_presleeplog_without_markers w content H1 H2 H3 H4 H5).
Defined.

(** ** The files add_pr1_files.py adds *)
Module Pr1AddFacts.
Import Py PyFacts Re Entries Sys AddPr1Files Pr1Spec Pr1AddSpec.

Lemma pr1_entries_body_run filename acc (w : World) :
  entries_body filename acc w
  = (Ok (mkNew
           (new_file_entries acc
            ++ [file_entry (UuidSpec.id_of_draw (urandom w (drawn w)))
                  filename filename])
           (new_build_entries acc
            ++ [source_entry (UuidSpec.id_of_draw (urandom w (S (drawn w))))
                  filename])),
     after_draws 2 w).
Proof.
  unfold entries_body.
  unfold bind at 1. rewrite IdFacts.generate_uuid_run.
  unfold bind at 1. rewrite IdFacts.generate_uuid_run.
  reflexivity.
Qed.

Lemma pr1_entries_loop_run files : forall acc (w : World),
  for_each files entries_body acc w
  = (Ok (let ids := pr1_ids (urandom w) (drawn w) files in
         mkNew (new_file_entries acc ++ map ref_of ids)
               (new_build_entries acc ++ map line_of ids)),
     after_draws (2 * length files) w).
Proof.
  induction files as [|f files IH]; intros acc w.
  - cbn. rewrite !app_nil_r. destruct acc, w; reflexivity.
  - cbn [for_each]. unfold bind.
    rewrite pr1_entries_body_run, IH.
    unfold after_draws.
    cbn [fs stdout writes urandom drawn new_file_entries new_build_entries
         pr1_ids map length].
    rewrite <- !app_assoc.
    replace (2 * length files + (2 + drawn w))
      with (2 * S (length files) + drawn w) by lia.
    reflexivity.
Qed.

(** The names not in the set of names found are the names not found. *)
Lemma filter_not_found section (l : list text) :
  filter (fun f => f ∉ list_to_set
                         (filter (fun f => contains f section = true) l)
                       ∪ (∅ : gset text)) l
  = filter (fun f => contains f section = false) l.
Proof.
  assert (G : forall l' : list text, (forall f, f ∈ l' -> f ∈ l) ->
            filter (fun f => f ∉ list_to_set
                               (filter (fun f => contains f section = true) l)
                             ∪ (∅ : gset text)) l'
            = filter (fun f => contains f section = false) l').
  { induction l' as [|f l' IH]; intros Hsub; [reflexivity|].
    assert (IH' := IH (fun g Hg => Hsub g (list_elem_of_further _ _ _ Hg))).
    destruct (contains f section) eqn:E.
    - rewrite filter_cons_False, filter_cons_False; [exact IH'| |].
      + rewrite E. discriminate.
      + intros Hn. apply Hn. apply elem_of_union. left.
        apply elem_of_list_to_set, list_elem_of_filter.
        split; [exact E|apply Hsub; left].
    - rewrite filter_cons_True, filter_cons_True; [rewrite IH'; reflexivity| |].
      + exact E.
      + intros Hin. apply elem_of_union in Hin as [Hin|Hin];
          [|exact (not_elem_of_empty _ Hin)].
        apply elem_of_list_to_set, list_elem_of_filter in Hin as [Hin _].
        congruence. }
  apply G. auto.
Qed.

(** The run when at least one name is to be added. *)
Lemma pr1_add_run (w : World) content :
  fs w !! PROJECT_PATH = Some content ->
  contains BEGIN_FILE_REF content = true ->
  contains END_FILE_REF content = true ->
  contains BEGIN_SOURCES content = true ->
  contains END_SOURCES content = true ->
  files_to_add content <> [] ->
  main w
  = let files := files_to_add content in
    let ids := pr1_ids (urandom w) (drawn w) files in
    let content1 := with_refs content ids in
    match search files_re content1 with
    | Some m =>
        (Ok true,
         mkWorld
           (<[PROJECT_PATH :=
                insert_at content1 (Z.of_nat (end_ m 0))
                  (join [NL] (map line_of ids) ++ [NL])]> (fs w))
           (stdout w ++ announced content
            ++ [T "Successfully added PR-1 files to project.pbxproj";
                T "Added files: " ++ join (T ", ") files])
           (writes w ++ [PROJECT_PATH])
           (urandom w) (2 * length files + drawn w))
    | None =>
        (Ok false,
         mkWorld (fs w)
           (stdout w ++ announced content
            ++ [T "Error: Could not find files section in PBXSourcesBuildPhase"])
           (writes w) (urandom w) (2 * length files + drawn w))
    end.
Proof.
  intros Hfs H1 H2 H3 H4 Hne. cbv zeta.
  unfold main, try_except, main_body.
  unfold bind at 1. unfold read_file. rewrite Hfs.
  fold BEGIN_FILE_REF BEGIN_SOURCES END_SOURCES.
  rewrite (Pr1Facts.find_present _ _ H1), (Pr1Facts.find_present _ _ H2),
    (Pr1Facts.find_present _ _ H3), (Pr1Facts.find_present _ _ H4).
  cbn [orb]. fold (file_ref_section content).
  unfold bind at 1. rewrite Pr1Facts.existing_loop.
  rewrite filter_not_found.
  unfold announced. fold (present content) (files_to_add content).
  set (files := files_to_add content) in *. clearbody files.
  destruct files as [|f0 files0]; [contradiction|].
  cbv beta iota. set (files := f0 :: files0).
  unfold bind at 1, print at 1, after_print.
  cbn [fs stdout writes urandom drawn].
  unfold bind at 1. rewrite pr1_entries_loop_run.
  unfold after_draws.
  cbn [fs stdout writes urandom drawn new_file_entries new_build_entries app].
  fold (with_refs content (pr1_ids (urandom w) (drawn w) files)).
  destruct (search files_re
              (with_refs content (pr1_ids (urandom w) (drawn w) files)))
    as [m|].
  - unfold bind, write_file, print, ret.
    cbn [fs stdout writes urandom drawn].
    rewrite <- !app_assoc. reflexivity.
  - unfold bind, print, ret.
    cbn [fs stdout writes urandom drawn].
    rewrite <- !app_assoc. reflexivity.
Qed.

End Pr1AddFacts.

(** X23. add_pr1_files.py with at least one of its four names missing
    from the PBXFileReference section draws two identifiers for each
    missing name and puts the new file references one character before
    the end marker of the section.  The build lines go after the first
    [files = (] of the whole text, in whatever section that is; the
    manifest is then written once and the result is [True].  When the
    text has no [files = (] the run prints an error and returns [False]:
    the identifiers are drawn, nothing is written. *)
Theorem add_pr1_files_adds (w : Sys.World) content :
  Sys.fs w !! AddPr1Files.PROJECT_PATH = Some content ->
  Py.contains Pr1Spec.BEGIN_FILE_REF content = true ->
  Py.contains Entries.END_FILE_REF content = true ->
  Py.contains Pr1Spec.BEGIN_SOURCES content = true ->
  Py.contains Pr1Spec.END_SOURCES content = true ->
  Pr1AddSpec.files_to_add content <> [] ->
  let files := Pr1AddSpec.files_to_add content in
  let ids := Pr1AddSpec.pr1_ids (Sys.urandom w) (Sys.drawn w) files in
  let content1 := Pr1AddSpec.with_refs content ids in
  match Re.search AddPr1Files.files_re content1 with
  | Some m =>
      AddPr1Files.main w
      = (Sys.Ok true,
         Sys.mkWorld
           (<[AddPr1Files.PROJECT_PATH :=
                Entries.insert_at content1 (Z.of_nat (Re.end_ m 0))
                  (Py.join [NL] (map Pr1AddSpec.line_of ids) ++ [NL])]>
              (Sys.fs w))
           (Sys.stdout w ++ Pr1AddSpec.announced content
            ++ [T "Successfully added PR-1 files to project.pbxproj";
                T "Added files: " ++ Py.join (T ", ") files])
           (Sys.writes w ++ [AddPr1Files.PROJECT_PATH])
           (Sys.urandom w) (2 * length files + Sys.drawn w))
  | None =>
      AddPr1Files.main w
      = (Sys.Ok false,
         Sys.mkWorld (Sys.fs w)
           (Sys.stdout w ++ Pr1AddSpec.announced content
            ++ [T "Error: Could not find files section in PBXSourcesBuildPhase"])
           (Sys.writes w) (Sys.urandom w)
           (2 * length files + Sys.drawn w))
  end.
Proof.
  intros Hfs H1 H2 H3 H4 Hne files ids content1.
  rewrite (Pr1AddFacts.pr1_add_run w content Hfs H1 H2 H3 H4 Hne).
  cbv zeta. fold files. fold ids. fold content1.
  destruct (Re.search AddPr1Files.files_re content1); reflexivity.
Qed.

Lemma add_pr1_files_adds_witness :
  let content := Pr1AddSpec.two_phases in
  let w := world_of content zeros in
  (Sys.fs w !! AddPr1Files.PROJECT_PATH = Some content
   /\ Py.contains Pr1Spec.BEGIN_FILE_REF content = true
   /\ Py.contains Entries.END_FILE_REF content = true
   /\ Py.contains Pr1Spec.BEGIN_SOURCES content = true
   /\ Py.contains Pr1Spec.END_SOURCES content = true
   /\ Pr1AddSpec.files_to_add content
      = [T "OfflineQueue.swift"; T "DoseTapCore.swift"])
  /\ fst (AddPr1Files.main w) = Sys.Ok true
  /\ Sys.writes (snd (AddPr1Files.main w)) = [AddPr1Files.PROJECT_PATH]
  /\ Sys.drawn (snd (AddPr1Files.main w)) = 4.
Proof.
  intros content w.
  assert (H0 : Sys.fs w !! AddPr1Files.PROJECT_PATH = Some content)
    by reflexivity.
  assert (H1 : Py.contains Pr1Spec.BEGIN_FILE_REF content = true)
    by (vm_compute; reflexivity).
  assert (H2 : Py.contains Entries.END_FILE_REF content = true)
    by (vm_compute; reflexivity).
  assert (H3 : Py.contains Pr1Spec.BEGIN_SOURCES content = true)
    by (vm_compute; reflexivity).
  assert (H4 : Py.contains Pr1Spec.END_SOURCES content = true)
    by (vm_compute; reflexivity).
  assert (H5 : Pr1AddSpec.files_to_add content
               = [T "OfflineQueue.swift"; T "DoseTapCore.swift"])
    by (vm_compute; reflexivity).
  assert (H6 : Pr1AddSpec.files_to_add content <> [])
    by (rewrite H5; discriminate).
  split; [repeat split; assumption|].
  pose proof (add_pr1_files_adds w content H0 H1 H2 H3 H4 H6) as H.
  cbv zeta in H. revert H.
  destruct (Re.search AddPr1Files.files_re _) as [m|] eqn:E; intros H.
  - rewrite H, H5. repeat split.
  - exfalso. vm_compute in E. discriminate E.
Defined.

(** ** add_missing_files.py without its anchors *)
Module AnchorFacts.
Import Py PyFacts Re Entries Sys IdSpec AddMissingFiles AnchorSpec
       FrameSpec FrameFacts.

Lemma group_needs : needs group_re GROUP_F01.
Proof.
  unfold group_re. apply needs_seq_l, needs_grp, needs_seq_l.
  apply (needs_lit _ _ [] []). rewrite app_nil_r. reflexivity.
Qed.

Lemma sources_needs : needs sources_re PHASE_J01.
Proof.
  unfold sources_re. apply needs_seq_l, needs_grp, needs_seq_l.
  apply (needs_lit _ _ [] []). rewrite app_nil_r. reflexivity.
Qed.

(** With no anchor in the text the records are made and dropped. *)
Lemma add_files_nowhere content files (w : World) :
  contains END_BUILD_FILE content = false ->
  contains END_FILE_REF content = false ->
  contains GROUP_F01 content = false ->
  contains PHASE_J01 content = false ->
  add_files_to_project content files w
  = (Ok content, after_draws (2 * length files) w).
Proof.
  intros Hb Hr Hg Hs. unfold add_files_to_project. unfold bind.
  destruct (MissingRunFacts.missing_entries_loop_run files (mkNew [] [] [] []) w)
    as (acc & E).
  rewrite E. cbv zeta.
  rewrite (Pr1Facts.find_absent _ _ Hb). cbn [Z.eqb Pos.eqb negb].
  rewrite (Pr1Facts.find_absent _ _ Hr). cbn [Z.eqb Pos.eqb negb].
  rewrite (absent_search _ _ _ group_needs Hg).
  rewrite (absent_search _ _ _ sources_needs Hs).
  reflexivity.
Qed.

End AnchorFacts.

(** X24. add_missing_files.py tests what [find] gives before it inserts,
    and adds to the group and to the build phase only where it finds the
    blocks [F01 /* DoseTap */] and [J01 /* Sources */].  On a manifest
    with none of these four anchors the records it makes go nowhere: the
    identifiers are drawn, the backup is made, the manifest is written
    back as it was read, and the run still reports the files as
    successfully added and returns 0. *)
Theorem add_missing_files_without_anchors (w : Sys.World) content :
  Sys.fs w !! AddMissingFiles.project_path = Some content ->
  Py.contains Entries.END_BUILD_FILE content = false ->
  Py.contains Entries.END_FILE_REF content = false ->
  Py.contains AnchorSpec.GROUP_F01 content = false ->
  Py.contains AnchorSpec.PHASE_J01 content = false ->
  AnchorSpec.files_to_add content <> [] ->
  let files := AnchorSpec.files_to_add content in
  AddMissingFiles.main w
  = (Sys.Ok 0%Z,
     Sys.mkWorld
       (<[AddMissingFiles.project_path := content]>
          (<[AddMissingFiles.backup_path := content]> (Sys.fs w)))
       (Sys.stdout w ++ AnchorSpec.report content files)
       (Sys.writes w
        ++ [AddMissingFiles.backup_path; AddMissingFiles.project_path])
       (Sys.urandom w) (2 * length files + Sys.drawn w)).
Proof.
  intros Hfs Hb Hr Hg Hs Hne files.
  unfold AddMissingFiles.main. unfold Sys.bind at 1, Sys.path_exists at 1.
  rewrite bool_decide_eq_true_2 by (rewrite Hfs; eauto).
  cbn [negb]. unfold Sys.bind at 1, Sys.print at 1.
  unfold Sys.bind at 1.
  unfold AddMissingFiles.read_project_file, Sys.read_file.
  cbn [Sys.fs Sys.stdout Sys.writes Sys.urandom Sys.drawn]. rewrite Hfs.
  unfold Sys.bind at 1, Sys.print at 1.
  cbn [Sys.fs Sys.stdout Sys.writes Sys.urandom Sys.drawn].
  unfold AnchorSpec.report.
  fold (AnchorSpec.files_to_add content). fold files. fold files in Hne.
  clearbody files.
  destruct files as [|f0 files0]; [congruence|]. clear Hne.
  cbv beta iota. set (files := f0 :: files0).
  unfold Sys.bind at 1, Sys.print at 1.
  cbn [Sys.fs Sys.stdout Sys.writes Sys.urandom Sys.drawn].
  unfold Sys.bind at 1. rewrite MissingRunFacts.print_loop_run.
  cbn [Sys.fs Sys.stdout Sys.writes Sys.urandom Sys.drawn].
  unfold Sys.bind at 1.
  unfold AddMissingFiles.write_project_file at 1, Sys.write_file at 1.
  cbn [Sys.fs Sys.stdout Sys.writes Sys.urandom Sys.drawn].
  unfold Sys.bind at 1, Sys.print at 1.
  cbn [Sys.fs Sys.stdout Sys.writes Sys.urandom Sys.drawn].
  unfold Sys.bind at 1.
  rewrite (AnchorFacts.add_files_nowhere content files _ Hb Hr Hg Hs).
  unfold IdSpec.after_draws.
  cbn [Sys.fs Sys.stdout Sys.writes Sys.urandom Sys.drawn].
  unfold Sys.bind at 1.
  unfold AddMissingFiles.write_project_file at 1, Sys.write_file at 1.
  cbn [Sys.fs Sys.stdout Sys.writes Sys.urandom Sys.drawn].
  unfold Sys.bind at 1, Sys.print at 1.
  cbn [Sys.fs Sys.stdout Sys.writes Sys.urandom Sys.drawn].
  unfold Sys.bind at 1, Sys.print at 1.
  cbn [Sys.fs Sys.stdout Sys.writes Sys.urandom Sys.drawn].
  unfold Sys.ret.
  rewrite <- !app_assoc. reflexivity.
Qed.

Lemma add_missing_files_without_anchors_witness :
  let w := EdgeSpec.world_bare in
  let content := T "{}" ++ [NL] in
  (Sys.fs w !! AddMissingFiles.project_path = Some content
   /\ Py.contains Entries.END_BUILD_FILE content = false
   /\ Py.contains Entries.END_FILE_REF content = false
   /\ Py.contains AnchorSpec.GROUP_F01 content = false
   /\ Py.contains AnchorSpec.PHASE_J01 content = false
   /\ AnchorSpec.files_to_add content = AddMissingFiles.MISSING_FILES)
  /\ fst (AddMissingFiles.main w) = Sys.Ok 0%Z
  /\ Sys.fs (snd (AddMissingFiles.main w))
       !! AddMissingFiles.project_path = Some content
  /\ Sys.drawn (snd (AddMissingFiles.main w)) = 52.
Proof.
  intros w content.
  assert (H0 : Sys.fs w !! AddMissingFiles.project_path = Some content)
    by (vm_compute; reflexivity).
  assert (H1 : Py.contains Entries.END_BUILD_FILE content = false)
    by (vm_compute; reflexivity).
  assert (H2 : Py.contains Entries.END_FILE_REF content = false)
    by (vm_compute; reflexivity).
  assert (H3 : Py.contains AnchorSpec.GROUP_F01 content = false)
    by (vm_compute; reflexivity).
  assert (H4 : Py.contains AnchorSpec.PHASE_J01 content = false)
    by (vm_compute; reflexivity).
  assert (H5 : AnchorSpec.files_to_add content = AddMissingFiles.MISSING_FILES)
    by (vm_compute; reflexivity).
  assert (H6 : AnchorSpec.files_to_add content <> [])
    by (rewrite H5; discriminate).
  split; [repeat split; assumption|].
  rewrite (add_missing_files_without_anchors w content H0 H1 H2 H3 H4 H6).
  rewrite H5. cbn [fst snd Sys.fs Sys.drawn].
  split; [reflexivity|]. split; [|reflexivity].
  apply lookup_insert_eq.
Defined.
